(** * Trip-planner assistant: the planning workflow, embedded and verified

    A shallow embedding of the backend of the trip planner
    (app/agents, app/services, app/api/routes) and the properties of its
    planning workflow: the completion gate, the deterministic fallback
    itinerary, the data-gathering steps and their cache, the response parser
    and the entry points.

    Conventions of the embedding.
    - Python integers are [Z]; [time.time()] readings and literal floats are
      rationals ([Q]): floating-point rounding is not modelled.
    - A [dict] used as a map is a [gmap]; a [TypedDict] is a record whose
      fields are options, [None] standing for an absent key.
    - Code that can raise returns a [result]; code with effects runs in the
      monad [M] over a [World] that carries the clock, the cache service, the
      Redis server, the answers of the external providers and of the
      text-generation engine, and the trace of the external calls made.
    - Logging is not modelled. *)

From Stdlib Require Import ZArith QArith String Ascii List Lia DecimalString.
From stdpp Require Import gmap strings list.

Local Open Scope string_scope.
Local Open Scope Z_scope.

(** ** Python fragments *)

Module Py.

(** An instance of a subclass of [Exception]: the class name and [str(e)]. *)
Record exn := Exn { exn_class : string; exn_str : string }.

Inductive result (A : Type) : Type :=
| Ok (a : A)
| Raise (e : exn).
Arguments Ok {A} a.
Arguments Raise {A} e.

Definition is_ok {A} (r : result A) : bool :=
  match r with Ok _ => true | Raise _ => false end.

Definition TypeError (msg : string) : exn := Exn "TypeError" msg.
Definition ValueError (msg : string) : exn := Exn "ValueError" msg.
Definition KeyError (msg : string) : exn := Exn "KeyError" msg.
Definition AttributeError (msg : string) : exn := Exn "AttributeError" msg.
Definition OverflowError (msg : string) : exn := Exn "OverflowError" msg.

#[export] Instance result_ret : MRet result := fun _ a => Ok a.
#[export] Instance result_bind : MBind result := fun _ _ f r =>
  match r with Ok a => f a | Raise e => Raise e end.

(** [for x in xs: ...] over a fallible body, collecting the results. *)
Fixpoint mapM {A B} (f : A -> result B) (xs : list A) : result (list B) :=
  match xs with
  | [] => Ok []
  | x :: xs' =>
      match f x with
      | Raise e => Raise e
      | Ok y => match mapM f xs' with
                | Raise e => Raise e
                | Ok ys => Ok (y :: ys)
                end
      end
  end.

(** [str(n)] for an integer. *)
Definition str_of_int (n : Z) : string := NilZero.string_of_int (Z.to_int n).

(** [range(n)]. *)
Definition range (n : Z) : list Z := map Z.of_nat (seq 0 (Z.to_nat n)).

(** [sum(...)] over integers. *)
Definition sum (xs : list Z) : Z := fold_left Z.add xs 0.

(** [int(x)] for a real: truncation towards zero. *)
Definition int_of_Q (q : Q) : Z := Z.quot (Qnum q) (Z.pos (Qden q)).

(** A call of a function of two parameters, none with a default. Each
    parameter is supplied by the call (by position or by keyword) or is
    not; [extra] lists the keywords of the call that name no parameter. *)
Definition call2 {A B R} (fname p1 p2 : string) (f : A -> B -> R)
    (a1 : option A) (a2 : option B) (extra : list string) : result R :=
  match extra with
  | k :: _ =>
      Raise (TypeError (fname +:+ "() got an unexpected keyword argument '" +:+ k +:+ "'"))
  | [] =>
      match a1, a2 with
      | Some x, Some y => Ok (f x y)
      | None, Some _ =>
          Raise (TypeError (fname +:+ "() missing 1 required positional argument: '" +:+ p1 +:+ "'"))
      | Some _, None =>
          Raise (TypeError (fname +:+ "() missing 1 required positional argument: '" +:+ p2 +:+ "'"))
      | None, None =>
          Raise (TypeError (fname +:+ "() missing 2 required positional arguments: '"
                            +:+ p1 +:+ "' and '" +:+ p2 +:+ "'"))
      end
  end.

End Py.
Import Py.

(** ** Strings: [in], [split], [strip] *)

Module Str.

Fixpoint is_prefix (p s : string) : bool :=
  match p, s with
  | EmptyString, _ => true
  | String a p', String b s' => if Ascii.eqb a b then is_prefix p' s' else false
  | String _ _, EmptyString => false
  end.

Fixpoint drop (n : nat) (s : string) : string :=
  match n, s with
  | O, _ => s
  | S n', String _ s' => drop n' s'
  | S _, EmptyString => EmptyString
  end.

(** [sep in s], for a non-empty [sep]. *)
Fixpoint contains (sep s : string) : bool :=
  if is_prefix sep s then true
  else match s with
       | EmptyString => false
       | String _ s' => contains sep s'
       end.

(** The text before the first occurrence of [sep] and the text after it;
    [None] when [sep] does not occur. *)
Fixpoint cut (sep s : string) : option (string * string) :=
  if is_prefix sep s then Some (EmptyString, drop (String.length sep) s)
  else match s with
       | EmptyString => None
       | String a s' =>
           match cut sep s' with
           | Some (before, after) => Some (String a before, after)
           | None => None
           end
       end.

(** [s.split(sep)] for a non-empty [sep]: the occurrences are taken from
    the left and do not overlap. [fuel] bounds the number of pieces. *)
Fixpoint split_fuel (fuel : nat) (sep s : string) : list string :=
  match fuel with
  | O => [s]
  | S fuel' =>
      match cut sep s with
      | None => [s]
      | Some (before, after) => before :: split_fuel fuel' sep after
      end
  end.

Definition split (sep s : string) : list string :=
  split_fuel (String.length s) sep s.

(** The characters [str.strip()] removes among the ASCII ones: space,
    tab, line feed, vertical tab, form feed, carriage return and the
    separators 28 to 31. *)
Definition is_space (c : ascii) : bool :=
  let n := nat_of_ascii c in
  ((9 <=? n) && (n <=? 13) || (28 <=? n) && (n <=? 32))%nat.

Fixpoint lstrip (s : string) : string :=
  match s with
  | String c s' => if is_space c then lstrip s' else s
  | EmptyString => EmptyString
  end.

Fixpoint rstrip (s : string) : string :=
  match s with
  | EmptyString => EmptyString
  | String c s' =>
      match rstrip s' with
      | EmptyString => if is_space c then EmptyString else String c EmptyString
      | r => String c r
      end
  end.

Definition strip (s : string) : string := rstrip (lstrip s).

(** [sep.join(parts)]. *)
Fixpoint join (sep : string) (parts : list string) : string :=
  match parts with
  | [] => EmptyString
  | [p] => p
  | p :: ps => p +:+ sep +:+ join sep ps
  end.

End Str.

(** ** Calendar dates: [datetime.strptime], [+ timedelta(days=i)], [strftime] *)

Module Date.

(** A [datetime] at midnight. *)
Record t := mk { year : Z; month : Z; day : Z }.

Definition MAXORDINAL : Z := 3652059.

Definition is_leap (y : Z) : bool :=
  (y mod 4 =? 0) && (negb (y mod 100 =? 0) || (y mod 400 =? 0)).

Definition days_in_month (y m : Z) : Z :=
  if m =? 2 then (if is_leap y then 29 else 28)
  else if (m =? 4) || (m =? 6) || (m =? 9) || (m =? 11) then 30
  else 31.

Definition days_before_year (y : Z) : Z :=
  let y' := y - 1 in y' * 365 + y' / 4 - y' / 100 + y' / 400.

Definition days_before_month (y m : Z) : Z :=
  Py.sum (map (days_in_month y) (map Z.of_nat (seq 1 (Z.to_nat (m - 1))))).

Definition toordinal (d : t) : Z :=
  days_before_year (year d) + days_before_month (year d) (month d) + day d.

Definition fromordinal (n : Z) : t :=
  let n := n - 1 in
  let n400 := n / 146097 in let n := n mod 146097 in
  let n100 := n / 36524 in let n := n mod 36524 in
  let n4 := n / 1461 in let n := n mod 1461 in
  let n1 := n / 365 in let n := n mod 365 in
  let y := n400 * 400 + 1 + n100 * 100 + n4 * 4 + n1 in
  if (n1 =? 4) || (n100 =? 4) then mk (y - 1) 12 31
  else
    let leapyear := (n1 =? 3) && (negb (n4 =? 24) || (n100 =? 3)) in
    let m := Z.shiftr (n + 50) 5 in
    let preceding :=
      days_before_month 1 m + (if (2 <? m) && leapyear then 1 else 0) in
    if n <? preceding then
      let m' := m - 1 in
      let preceding' :=
        preceding - (days_in_month 1 m' + (if (m' =? 2) && leapyear then 1 else 0)) in
      mk y m' (n - preceding' + 1)
    else mk y m (n - preceding + 1).

(** [d + timedelta(days=i)]. *)
Definition add_days (d : t) (i : Z) : result t :=
  let o := toordinal d + i in
  if (0 <? o) && (o <=? MAXORDINAL) then Ok (fromordinal o)
  else Raise (OverflowError "date value out of range").

Definition digit_of (c : ascii) : option Z :=
  let n := nat_of_ascii c in
  if ((48 <=? n) && (n <=? 57))%nat then Some (Z.of_nat n - 48) else None.

(** One or two digits of a month or of a day, the way the regular
    expressions of [%m] and [%d] take them: two digits when they form a
    value in range, else one non-zero digit. *)
Definition take_field (hi : Z) (s : string) : option (Z * string) :=
  match s with
  | String a (String b rest) =>
      match digit_of a, digit_of b with
      | Some x, Some y =>
          let v := 10 * x + y in
          if (1 <=? v) && (v <=? hi) then Some (v, rest)
          else if 1 <=? x then Some (x, String b rest) else None
      | Some x, None => if 1 <=? x then Some (x, String b rest) else None
      | None, _ => None
      end
  | String a EmptyString =>
      match digit_of a with
      | Some x => if 1 <=? x then Some (x, EmptyString) else None
      | None => None
      end
  | EmptyString => None
  end.

Definition bad_format (s : string) : exn :=
  ValueError ("time data '" +:+ s +:+ "' does not match format '%Y-%m-%d'").

(** [datetime.strptime(s, "%Y-%m-%d")], on ASCII digits. *)
Definition strptime (s : string) : result t :=
  match s with
  | String y1 (String y2 (String y3 (String y4 (String dash1 rest)))) =>
      match digit_of y1, digit_of y2, digit_of y3, digit_of y4 with
      | Some a, Some b, Some c, Some d =>
          let y := 1000 * a + 100 * b + 10 * c + d in
          if negb (Ascii.eqb dash1 "-") then Raise (bad_format s) else
          match take_field 12 rest with
          | Some (m, String dash2 rest') =>
              if negb (Ascii.eqb dash2 "-") then Raise (bad_format s) else
              match take_field 31 rest' with
              | Some (dd, EmptyString) =>
                  if y <? 1 then Raise (ValueError "year 0 is out of range")
                  else if days_in_month y m <? dd
                  then Raise (ValueError "day is out of range for month")
                  else Ok (mk y m dd)
              | Some (_, String _ _) =>
                  Raise (ValueError "unconverted data remains")
              | None => Raise (bad_format s)
              end
          | _ => Raise (bad_format s)
          end
      | _, _, _, _ => Raise (bad_format s)
      end
  | _ => Raise (bad_format s)
  end.

Definition pad (width : nat) (n : Z) : string :=
  let s := Py.str_of_int n in
  String.concat "" (repeat "0" (width - String.length s)) +:+ s.

(** [d.strftime("%Y-%m-%d")]. *)
Definition strftime (d : t) : string :=
  pad 4 (year d) +:+ "-" +:+ pad 2 (month d) +:+ "-" +:+ pad 2 (day d).

End Date.

(** ** The data model (app/models/schemas.py) *)

(** app/models/schemas.py is not among the sources. The models below are
    plain records with the fields the code reads and passes, typed after
    section 3 of the specification; a field the code leaves to the model's
    default is an option. The validation of the fields decoded from JSON is
    in the interface [Externals] further down. *)
Module TripRequest.
(** Modelled from the spec: the trip parameters of a request. *)
Record t := mk {
  city : string;
  start_date : string;
  end_date : string;
  travel_days : Z;
  transportation : string;
  accommodation : string;
  preferences : list string;
  free_text_input : string;
}.
End TripRequest.

Module Location.
(** Modelled from the spec: a coordinate. *)
Record t := mk { longitude : Q; latitude : Q }.
End Location.

Module Attraction.
(** Modelled from the spec: a point of interest, found by the provider or chosen for a day. *)
Record t := mk {
  name : string;
  address : string;
  location : Location.t;
  visit_duration : Z;
  description : string;
  category : option string;
  poi_id : option string;
  ticket_price : option Z;
}.
End Attraction.

Module Hotel.
(** Modelled from the spec: a lodging option, found by the provider or chosen for a day. *)
Record t := mk {
  name : string;
  address : string;
  location : option Location.t;
  type : option string;
  price_range : option string;
  rating : option string;
  distance : option string;
  estimated_cost : option Z;
}.
End Hotel.

Module WeatherInfo.
(** Modelled from the spec: the forecast of a day. *)
Record t := mk {
  date : string;
  day_weather : string;
  night_weather : string;
  day_temp : Z;
  night_temp : Z;
  wind_direction : string;
  wind_power : string;
}.
End WeatherInfo.

Module Meal.
(** Modelled from the spec: a meal of a day plan. *)
Record t := mk {
  type : string;
  name : string;
  description : option string;
  estimated_cost : Z;
}.
End Meal.

Module DayPlan.
(** Modelled from the spec: the plan of one day. *)
Record t := mk {
  date : string;
  day_index : Z;
  description : string;
  transportation : string;
  accommodation : string;
  hotel : Hotel.t;
  attractions : list Attraction.t;
  meals : list Meal.t;
}.
End DayPlan.

Module Budget.
(** Modelled from the spec: the four subtotals and the total. *)
Record t := mk {
  total_attractions : Z;
  total_hotels : Z;
  total_meals : Z;
  total_transportation : Z;
  total : Z;
}.
End Budget.

Module TripPlan.
(** Modelled from the spec: the itinerary. *)
Record t := mk {
  city : string;
  start_date : string;
  end_date : string;
  days : list DayPlan.t;
  weather_info : list WeatherInfo.t;
  overall_suggestions : string;
  budget : Budget.t;
  execution_time_ms : option Z;
}.

Definition set_execution_time_ms (ms : Z) (p : t) : t :=
  mk (city p) (start_date p) (end_date p) (days p) (weather_info p)
     (overall_suggestions p) (budget p) (Some ms).
End TripPlan.

(** The objects a result list holds at run time. The lists of the state and
    of the cache are untyped in the source ([List], [Any]): an element is
    one of the three models. *)
Inductive pyobj :=
| PAttraction (a : Attraction.t)
| PWeather (w : WeatherInfo.t)
| PHotel (h : Hotel.t).

Definition no_attribute (cls attr : string) : exn :=
  AttributeError ("'" +:+ cls +:+ "' object has no attribute '" +:+ attr +:+ "'").

(** ** Shared planning state (app/agents/state.py) *)

Module State.

(** [TripPlanningState], a [TypedDict] with [total=False]. The partial
    update a node returns is a dict with some of the same keys and has the
    same type. For the keys typed [Optional], the value [None] and the
    absent key are both [None]: the code reads them with [.get] and tests
    them for truth only. *)
Record TripPlanningState := mk {
  request : option TripRequest.t;
  user_id : option string;
  attractions : option (list pyobj);
  weather : option (list pyobj);
  hotels : option (list pyobj);
  messages : option (list string);
  node_status : option (gmap string string);
  node_errors : option (gmap string string);
  trip_plan : option TripPlan.t;
  error : option string;
  fallback_activated : option bool;
  execution_time_ms : option Z;
  retry_count : option Z;
  trace_id : option string;
  checkpoint_id : option string;
  node_timings : option (gmap string Z);
}.

(** The empty dict. *)
Definition empty : TripPlanningState :=
  mk None None None None None None None None None None None None None None None None.

(** [d.get(key, default)]. *)
Definition get {A} (field : option A) (default : A) : A :=
  match field with Some v => v | None => default end.

(** [d[key]]. *)
Definition getitem {A} (key : string) (field : option A) : result A :=
  match field with
  | Some v => Ok v
  | None => Raise (KeyError ("'" +:+ key +:+ "'"))
  end.

(** The items of a dict literal [{key: value, ...}] and the literal. *)
Definition item := TripPlanningState -> TripPlanningState.

Definition attractions_item (v : list pyobj) : item := fun d =>
  mk (request d) (user_id d) (Some v) (weather d) (hotels d) (messages d)
     (node_status d) (node_errors d) (trip_plan d) (error d) (fallback_activated d)
     (execution_time_ms d) (retry_count d) (trace_id d) (checkpoint_id d) (node_timings d).
Definition weather_item (v : list pyobj) : item := fun d =>
  mk (request d) (user_id d) (attractions d) (Some v) (hotels d) (messages d)
     (node_status d) (node_errors d) (trip_plan d) (error d) (fallback_activated d)
     (execution_time_ms d) (retry_count d) (trace_id d) (checkpoint_id d) (node_timings d).
Definition hotels_item (v : list pyobj) : item := fun d =>
  mk (request d) (user_id d) (attractions d) (weather d) (Some v) (messages d)
     (node_status d) (node_errors d) (trip_plan d) (error d) (fallback_activated d)
     (execution_time_ms d) (retry_count d) (trace_id d) (checkpoint_id d) (node_timings d).
Definition node_status_item (v : gmap string string) : item := fun d =>
  mk (request d) (user_id d) (attractions d) (weather d) (hotels d) (messages d)
     (Some v) (node_errors d) (trip_plan d) (error d) (fallback_activated d)
     (execution_time_ms d) (retry_count d) (trace_id d) (checkpoint_id d) (node_timings d).
Definition node_errors_item (v : gmap string string) : item := fun d =>
  mk (request d) (user_id d) (attractions d) (weather d) (hotels d) (messages d)
     (node_status d) (Some v) (trip_plan d) (error d) (fallback_activated d)
     (execution_time_ms d) (retry_count d) (trace_id d) (checkpoint_id d) (node_timings d).
Definition trip_plan_item (v : TripPlan.t) : item := fun d =>
  mk (request d) (user_id d) (attractions d) (weather d) (hotels d) (messages d)
     (node_status d) (node_errors d) (Some v) (error d) (fallback_activated d)
     (execution_time_ms d) (retry_count d) (trace_id d) (checkpoint_id d) (node_timings d).
Definition error_item (v : string) : item := fun d =>
  mk (request d) (user_id d) (attractions d) (weather d) (hotels d) (messages d)
     (node_status d) (node_errors d) (trip_plan d) (Some v) (fallback_activated d)
     (execution_time_ms d) (retry_count d) (trace_id d) (checkpoint_id d) (node_timings d).
Definition fallback_activated_item (v : bool) : item := fun d =>
  mk (request d) (user_id d) (attractions d) (weather d) (hotels d) (messages d)
     (node_status d) (node_errors d) (trip_plan d) (error d) (Some v)
     (execution_time_ms d) (retry_count d) (trace_id d) (checkpoint_id d) (node_timings d).
Definition execution_time_ms_item (v : Z) : item := fun d =>
  mk (request d) (user_id d) (attractions d) (weather d) (hotels d) (messages d)
     (node_status d) (node_errors d) (trip_plan d) (error d) (fallback_activated d)
     (Some v) (retry_count d) (trace_id d) (checkpoint_id d) (node_timings d).
Definition node_timings_item (v : gmap string Z) : item := fun d =>
  mk (request d) (user_id d) (attractions d) (weather d) (hotels d) (messages d)
     (node_status d) (node_errors d) (trip_plan d) (error d) (fallback_activated d)
     (execution_time_ms d) (retry_count d) (trace_id d) (checkpoint_id d) (Some v).

Definition dict (items : list item) : TripPlanningState :=
  fold_left (fun d it => it d) items empty.

(** [{**d.get(field, {}), name: v}]. *)
Definition with_entry {A} (field : option (gmap string A)) (name : string) (v : A)
    : gmap string A :=
  <[name := v]> (get field ∅).

Definition create_initial_state (user_id : option string) (request : TripRequest.t)
    : TripPlanningState :=
  {| request := Some request;
     user_id := user_id;
     attractions := Some [];
     weather := None;
     hotels := Some [];
     messages := Some [];
     node_status := Some ∅;
     node_errors := Some ∅;
     trip_plan := None;
     error := None;
     fallback_activated := Some false;
     execution_time_ms := None;
     retry_count := Some 0;
     trace_id := None;
     checkpoint_id := None;
     node_timings := Some ∅ |}.

(** [all(statuses.get(n) == "completed" for n in nodes)]. *)
Definition is_all_parallel_nodes_completed (state : TripPlanningState)
    (nodes : list string) : bool :=
  let statuses := get (node_status state) ∅ in
  forallb (fun n => bool_decide (statuses !! n = Some "completed")) nodes.

(** [for errs in node_errors.values(): if errs: return True], then
    [return False]. A value is what a node stored under its name, the text
    [str(e)]; it is true when it is not empty. *)
Definition has_critical_errors (state : TripPlanningState) : bool :=
  let errors := get (node_errors state) ∅ in
  existsb (fun errs => negb (bool_decide (errs = ""))) (map snd (map_to_list errors)).

(** The dict [counts] of [get_state_summary], with its four keys. *)
Record Counts := {
  pending : Z;
  in_progress : Z;
  completed : Z;
  failed : Z;
}.

(** The body of [for s in node_status.values()]: a status that is no key
    of [counts] is counted as pending. *)
Definition count_status (counts : Counts) (s : string) : Counts :=
  if bool_decide (s = "pending") then
    {| pending := pending counts + 1; in_progress := in_progress counts;
       completed := completed counts; failed := failed counts |}
  else if bool_decide (s = "in_progress") then
    {| pending := pending counts; in_progress := in_progress counts + 1;
       completed := completed counts; failed := failed counts |}
  else if bool_decide (s = "completed") then
    {| pending := pending counts; in_progress := in_progress counts;
       completed := completed counts + 1; failed := failed counts |}
  else if bool_decide (s = "failed") then
    {| pending := pending counts; in_progress := in_progress counts;
       completed := completed counts; failed := failed counts + 1 |}
  else
    {| pending := pending counts + 1; in_progress := in_progress counts;
       completed := completed counts; failed := failed counts |}.

(** The loop of [get_state_summary] over the statuses. *)
Definition status_counts (state : TripPlanningState) : Counts :=
  fold_left count_status (map snd (map_to_list (get (node_status state) ∅)))
    {| pending := 0; in_progress := 0; completed := 0; failed := 0 |}.

Definition get_state_summary (state : TripPlanningState) : string :=
  let counts := status_counts state in
  let error_flag :=
    if negb (bool_decide (get (error state) "" = "")) || has_critical_errors state
    then "Yes" else "No" in
  "Nodes - pending: " +:+ Py.str_of_int (pending counts)
  +:+ ", in_progress: " +:+ Py.str_of_int (in_progress counts)
  +:+ ", completed: " +:+ Py.str_of_int (completed counts)
  +:+ ", failed: " +:+ Py.str_of_int (failed counts)
  +:+ "; Critical errors: " +:+ error_flag.

End State.
Import State.



(** ** The deterministic fallback itinerary (planner_node.py) *)

Definition fallback_attraction (request : TripRequest.t) (j : Z) : Attraction.t :=
  {| Attraction.name := TripRequest.city request +:+ "热门景点" +:+ Py.str_of_int (j + 1);
     Attraction.address := TripRequest.city request;
     Attraction.location := Location.mk 116.4 39.9;
     Attraction.visit_duration := 120;
     Attraction.description := TripRequest.city request +:+ "的著名景点";
     Attraction.category := None;
     Attraction.poi_id := None;
     Attraction.ticket_price := Some 50 |}.

Definition fallback_meals : list Meal.t :=
  [ Meal.mk "breakfast" "当地特色早餐" None 30;
    Meal.mk "lunch" "当地特色午餐" None 60;
    Meal.mk "dinner" "当地特色晚餐" None 100 ].

(** The body of the loop [for i in range(request.travel_days)]. *)
Definition fallback_day (request : TripRequest.t) (start : Date.t) (i : Z)
    : result DayPlan.t :=
  current_date ← Date.add_days start i;
  mret {| DayPlan.date := Date.strftime current_date;
          DayPlan.day_index := i;
          DayPlan.description :=
            "第" +:+ Py.str_of_int (i + 1) +:+ "天：探索" +:+ TripRequest.city request;
          DayPlan.transportation := TripRequest.transportation request;
          DayPlan.accommodation := TripRequest.accommodation request;
          DayPlan.hotel :=
            {| Hotel.name := TripRequest.city request +:+ "酒店推荐";
               Hotel.address := TripRequest.city request;
               Hotel.location := None; Hotel.type := None;
               Hotel.price_range := None; Hotel.rating := None;
               Hotel.distance := None; Hotel.estimated_cost := None |};
          DayPlan.attractions := map (fallback_attraction request) (Py.range 2);
          DayPlan.meals := fallback_meals |}.

Definition create_fallback_plan (request : TripRequest.t) : result TripPlan.t :=
  start ← Date.strptime (TripRequest.start_date request);
  days ← Py.mapM (fallback_day request start) (Py.range (TripRequest.travel_days request));
  let total_attractions :=
    Py.sum (map (fun d => Z.of_nat (length (DayPlan.attractions d)) * 50) days) in
  let total_meals :=
    Py.sum (map (fun d => Py.sum (map Meal.estimated_cost (DayPlan.meals d))) days) in
  let total_hotels := 400 * TripRequest.travel_days request in
  mret {| TripPlan.city := TripRequest.city request;
          TripPlan.start_date := TripRequest.start_date request;
          TripPlan.end_date := TripRequest.end_date request;
          TripPlan.days := days;
          TripPlan.weather_info := [];
          TripPlan.overall_suggestions :=
            "这是为您准备的" +:+ TripRequest.city request
            +:+ Py.str_of_int (TripRequest.travel_days request)
            +:+ "日游备用行程。建议提前查询各景点开放时间和预订酒店。";
          TripPlan.budget :=
            {| Budget.total_attractions := total_attractions;
               Budget.total_hotels := total_hotels;
               Budget.total_meals := total_meals;
               Budget.total_transportation := 100;
               Budget.total := total_attractions + total_hotels + total_meals + 100 |};
          TripPlan.execution_time_ms := None |}.

Definition beijing_request : TripRequest.t :=
  {| TripRequest.city := "Beijing";
     TripRequest.start_date := "2025-06-01";
     TripRequest.end_date := "2025-06-03";
     TripRequest.travel_days := 3;
     TripRequest.transportation := "public_transit";
     TripRequest.accommodation := "budget_hotel";
     TripRequest.preferences := ["history"; "food"];
     TripRequest.free_text_input := "" |}.

(** ** The world of effects *)

(** The calls of the tools of app/agents/tools.py the nodes make. *)
Inductive ToolCall :=
| search_poi (keywords city : string) (citylimit : bool)
| query_weather (city : string)
| search_hotels (city keywords : string).

(** The external calls a run makes, in the order it makes them. *)
Inductive Event :=
| EvTool (call : ToolCall)
| EvLLM (system human : string).

Definition is_tool_event (ev : Event) : bool :=
  match ev with EvTool _ => true | EvLLM _ _ => false end.

Definition is_llm_event (ev : Event) : bool :=
  match ev with EvLLM _ _ => true | EvTool _ => false end.

(** The settings of app/config.py the modelled code reads. *)
Record Settings := {
  redis_url : string;
  cache_enabled : bool;
  cache_ttl_default : Z;
}.

Definition default_settings : Settings :=
  {| redis_url := "redis://localhost:6379/0";
     cache_enabled := true;
     cache_ttl_default := 3600 |}.

(** The Redis server: whether it answers, and its keys, each with the
    serialized value and the time at which it expires. *)
Record RedisServer := {
  redis_up : bool;
  redis_keys : gmap string (string * Q);
}.

Section Effects.

(** The type of the values the cache holds ([Any] in the source). *)
Context {V : Type}.

(** An entry of the in-memory cache: [{"value": ..., "expires": ...}]. *)
Record MemEntry := { value : V; expires : Q }.

(** The fields of a [CacheService] object; [redis_client] is [self._redis],
    the connection once it is made. *)
Record CacheService := {
  cs_settings : Settings;
  redis_client : option unit;
  memory_cache : gmap string MemEntry;
  cs_redis_url : string;
  enabled : bool;
}.

Record World := {
  clock : nat -> Q;              (* the successive readings of the clock *)
  clock_reads : nat;             (* how many of them were taken *)
  settings : Settings;           (* get_settings() *)
  cache_service : option CacheService;  (* the global _cache_service *)
  redis : RedisServer;
  tool_answer : nat -> ToolCall -> result string;
  llm_answer : nat -> string -> string -> result string;
  uuid4 : nat -> string;
  uuids_drawn : nat;
  trace : list Event;
}.

Definition set_clock_reads (n : nat) (w : World) : World :=
  {| clock := clock w; clock_reads := n; settings := settings w;
     cache_service := cache_service w; redis := redis w;
     tool_answer := tool_answer w; llm_answer := llm_answer w;
     uuid4 := uuid4 w; uuids_drawn := uuids_drawn w; trace := trace w |}.

Definition set_cache_service (c : option CacheService) (w : World) : World :=
  {| clock := clock w; clock_reads := clock_reads w; settings := settings w;
     cache_service := c; redis := redis w;
     tool_answer := tool_answer w; llm_answer := llm_answer w;
     uuid4 := uuid4 w; uuids_drawn := uuids_drawn w; trace := trace w |}.

Definition set_redis (r : RedisServer) (w : World) : World :=
  {| clock := clock w; clock_reads := clock_reads w; settings := settings w;
     cache_service := cache_service w; redis := r;
     tool_answer := tool_answer w; llm_answer := llm_answer w;
     uuid4 := uuid4 w; uuids_drawn := uuids_drawn w; trace := trace w |}.

Definition set_uuids_drawn (n : nat) (w : World) : World :=
  {| clock := clock w; clock_reads := clock_reads w; settings := settings w;
     cache_service := cache_service w; redis := redis w;
     tool_answer := tool_answer w; llm_answer := llm_answer w;
     uuid4 := uuid4 w; uuids_drawn := n; trace := trace w |}.

Definition set_trace (t : list Event) (w : World) : World :=
  {| clock := clock w; clock_reads := clock_reads w; settings := settings w;
     cache_service := cache_service w; redis := redis w;
     tool_answer := tool_answer w; llm_answer := llm_answer w;
     uuid4 := uuid4 w; uuids_drawn := uuids_drawn w; trace := t |}.

Definition set_clock (c : nat -> Q) (w : World) : World :=
  {| clock := c; clock_reads := clock_reads w; settings := settings w;
     cache_service := cache_service w; redis := redis w;
     tool_answer := tool_answer w; llm_answer := llm_answer w;
     uuid4 := uuid4 w; uuids_drawn := uuids_drawn w; trace := trace w |}.

(** Computations that read and change the world and may raise. *)
Definition M (A : Type) : Type := World -> result A * World.

#[export] Instance M_ret : MRet M := fun _ a w => (Ok a, w).
#[export] Instance M_bind : MBind M := fun _ _ f m w =>
  match m w with
  | (Ok a, w') => f a w'
  | (Raise e, w') => (Raise e, w')
  end.

Definition raise {A} (e : exn) : M A := fun w => (Raise e, w).

(** A pure computation that may raise. *)
Definition lift {A} (r : result A) : M A := fun w => (r, w).

(** [try: body  except Exception as e: handler(e)]. *)
Definition try_except {A} (body : M A) (handler : exn -> M A) : M A := fun w =>
  match body w with
  | (Ok a, w') => (Ok a, w')
  | (Raise e, w') => handler e w'
  end.

(** [time.time()]. *)
Definition time_time : M Q := fun w =>
  (Ok (clock w (clock_reads w)), set_clock_reads (S (clock_reads w)) w).

(** [int((time.time() - start_time) * 1000)]. *)
Definition elapsed_ms (start_time : Q) : M Z :=
  now ← time_time;
  mret (Py.int_of_Q ((now - start_time) * 1000)).

(** [str(uuid.uuid4())]. *)
Definition new_uuid : M string := fun w =>
  (Ok (uuid4 w (uuids_drawn w)), set_uuids_drawn (S (uuids_drawn w)) w).

(** [await tool.ainvoke(args)]: the call is recorded and the world gives
    its answer, a JSON text or an exception. *)
Definition tool_ainvoke (call : ToolCall) : M string := fun w =>
  (tool_answer w (length (trace w)) call, set_trace (trace w ++ [EvTool call]) w).

(** [await get_llm().ainvoke(messages)], then [response.content]. *)
Definition llm_ainvoke (system human : string) : M string := fun w =>
  (llm_answer w (length (trace w)) system human,
   set_trace (trace w ++ [EvLLM system human]) w).

End Effects.

Arguments MemEntry : clear implicits.
Arguments CacheService : clear implicits.
Arguments World : clear implicits.
Arguments M : clear implicits.

(** ** The cache service (app/services/cache_service.py) *)

(** [pickle.dumps] and [pickle.loads] on the values of the cache. *)
Class Pickle (V : Type) := {
  pickle_dumps : V -> result string;
  pickle_loads : string -> result V;
}.

Module Cache.
Section Cache.

Context {V : Type} `{Pickle V}.

(** [self], the global instance, and the assignments to its fields. *)
Definition self_ : M V (CacheService V) := fun w =>
  match cache_service w with
  | Some self => (Ok self, w)
  | None => (Raise (AttributeError "'NoneType' object has no attribute '_enabled'"), w)
  end.

Definition assign (f : CacheService V -> CacheService V) : M V unit := fun w =>
  (Ok tt, set_cache_service (f <$> cache_service w) w).

Definition set_redis_client (c : option unit) (self : CacheService V) : CacheService V :=
  {| cs_settings := cs_settings self; redis_client := c;
     memory_cache := memory_cache self; cs_redis_url := cs_redis_url self;
     enabled := enabled self |}.

Definition set_memory_cache (m : gmap string (MemEntry V)) (self : CacheService V)
    : CacheService V :=
  {| cs_settings := cs_settings self; redis_client := redis_client self;
     memory_cache := m; cs_redis_url := cs_redis_url self;
     enabled := enabled self |}.

(** [CacheService(redis_url)]. *)
Definition init (redis_url_arg : option string) : M V (CacheService V) := fun w =>
  let st := settings w in
  (Ok {| cs_settings := st;
         redis_client := None;
         memory_cache := ∅;
         cs_redis_url :=
           match redis_url_arg with
           | Some u => if bool_decide (u = "") then redis_url st else u
           | None => redis_url st
           end;
         enabled := cache_enabled st |}, w).

Definition connection_error {A} : M V A :=
  raise (Exn "redis.exceptions.ConnectionError" "Error connecting to Redis").

(** The commands of the Redis client. A command raises when the server
    does not answer; the server drops a key once its time has come. *)
Definition redis_command {A} (cmd : M V A) : M V A := fun w =>
  if redis_up (redis w) then cmd w else connection_error w.

Definition redis_lookup (key : string) : M V (option (string * Q)) := fun w =>
  (Ok (redis_keys (redis w) !! key), w).

Definition redis_update (f : gmap string (string * Q) -> gmap string (string * Q))
    : M V unit := fun w =>
  (Ok tt, set_redis {| redis_up := redis_up (redis w);
                       redis_keys := f (redis_keys (redis w)) |} w).

Definition redis_ping : M V unit := redis_command (mret tt).

Definition redis_get (key : string) : M V (option string) :=
  redis_command
    (now ← time_time;
     entry ← redis_lookup key;
     mret (match entry with
           | Some (data, expiry) => if Qle_bool expiry now then None else Some data
           | None => None
           end)).

Definition redis_setex (key : string) (ttl : Z) (data : string) : M V unit :=
  redis_command
    (if ttl <=? 0 then
       raise (Exn "redis.exceptions.ResponseError" "invalid expire time in 'setex' command")
     else
       now ← time_time;
       redis_update (fun keys => <[key := (data, (now + inject_Z ttl)%Q)]> keys)).

Definition redis_delete (key : string) : M V unit :=
  redis_command (redis_update (fun keys => base.delete key keys)).

(** [self._get_redis()]: the connection, made on first use. *)
Definition _get_redis : M V (option unit) :=
  self ← self_;
  if negb (enabled self) then mret None
  else
    _ ← (if bool_decide (redis_client self = None)
            && negb (bool_decide (cs_redis_url self = ""))
         then
           try_except
             (_ ← assign (set_redis_client (Some tt));
              redis_ping)
             (fun _ => assign (set_redis_client None))
         else mret tt);
    self ← self_;
    mret (redis_client self).

(** [await cache.get(key)]. *)
Definition get (key : string) : M V (option V) :=
  self ← self_;
  if negb (enabled self) then mret None
  else
    try_except
      (redis_conn ← _get_redis;
       from_redis ←
         match redis_conn with
         | Some _ =>
             data ← redis_get key;
             match data with
             | Some bytes =>
                 if bool_decide (bytes = "") then mret None
                 else v ← lift (pickle_loads bytes); mret (Some v)
             | None => mret None
             end
         | None => mret None
         end;
       match from_redis with
       | Some v => mret (Some v)
       | None =>
           self ← self_;
           match memory_cache self !! key with
           | Some entry => mret (Some (value entry))
           | None => mret None
           end
       end)
      (fun _ => mret None).

(** [await cache.set(key, value, ttl)]. *)
Definition set (key : string) (v : V) (ttl : option Z) : M V bool :=
  self ← self_;
  if negb (enabled self) then mret false
  else
    try_except
      (let ttl := match ttl with
                  | Some t => if t =? 0 then cache_ttl_default (cs_settings self) else t
                  | None => cache_ttl_default (cs_settings self)
                  end in
       data ← lift (pickle_dumps v);
       redis_conn ← _get_redis;
       match redis_conn with
       | Some _ => _ ← redis_setex key ttl data; mret true
       | None =>
           now ← time_time;
           _ ← assign (fun self =>
                  set_memory_cache
                    (<[key := {| value := v; expires := (now + inject_Z ttl)%Q |}]>
                       (memory_cache self)) self);
           mret true
       end)
      (fun _ => mret false).

(** [await cache.delete(key)]. *)
Definition delete (key : string) : M V bool :=
  self ← self_;
  if negb (enabled self) then mret false
  else
    try_except
      (redis_conn ← _get_redis;
       _ ← match redis_conn with
           | Some _ => redis_delete key
           | None => mret tt
           end;
       _ ← assign (fun self =>
              set_memory_cache (base.delete key (memory_cache self)) self);
       mret true)
      (fun _ => mret false).

(** [get_cache_service()]: the global instance, made on first use. *)
Definition get_cache_service : M V unit := fun w =>
  match cache_service w with
  | Some _ => (Ok tt, w)
  | None =>
      match init None w with
      | (Ok self, w') => (Ok tt, set_cache_service (Some self) w')
      | (Raise e, w') => (Raise e, w')
      end
  end.

(** [reset_cache_service()]. *)
Definition reset_cache_service : M V unit := fun w =>
  (Ok tt, set_cache_service None w).

(** *** Existence, clearing and the decorator *)

(** [EXISTS key]: the number of the keys that exist. *)
Definition redis_exists (key : string) : M V Z :=
  redis_command
    (now ← time_time;
     entry ← redis_lookup key;
     mret (match entry with
           | Some (_, expiry) => if Qle_bool expiry now then 0 else 1
           | None => 0
           end)).

Definition redis_flushdb : M V unit :=
  redis_command (redis_update (fun _ => ∅)).

(** [DEL key1 key2 ...]. *)
Definition redis_delete_keys (keys : list string) : M V unit :=
  redis_command (redis_update (fun stored => foldr base.delete stored keys)).

Definition redis_scan : M V (list (string * (string * Q))) := fun w =>
  (Ok (map_to_list (redis_keys (redis w))), w).

(** [await cache.exists(key)]. *)
Definition exists_ (key : string) : M V bool :=
  self ← self_;
  if negb (enabled self) then mret false
  else
    try_except
      (redis_conn ← _get_redis;
       match redis_conn with
       | Some _ => n ← redis_exists key; mret (0 <? n)
       | None =>
           self ← self_;
           mret (bool_decide (is_Some (memory_cache self !! key)))
       end)
      (fun _ => mret false).

Section Clear.

(** The glob matching of the Redis server: whether a pattern matches a
    key. *)
Variable glob_match : string -> string -> bool.

(** [KEYS pattern]. *)
Definition redis_keys_matching (pattern : string) : M V (list string) :=
  redis_command
    (now ← time_time;
     entries ← redis_scan;
     mret (map fst
             (List.filter
                (fun entry => glob_match pattern (fst entry)
                              && negb (Qle_bool (snd (snd entry)) now))
                entries))).

(** [await cache.clear(prefix)]. *)
Definition clear (prefix : option string) : M V bool :=
  self ← self_;
  if negb (enabled self) then mret false
  else
    try_except
      (redis_conn ← _get_redis;
       _ ← match redis_conn with
           | Some _ =>
               match prefix with
               | Some (String _ _ as prefix) =>
                   keys ← redis_keys_matching (prefix +:+ ":*");
                   match keys with
                   | [] => mret tt
                   | _ => redis_delete_keys keys
                   end
               | _ => redis_flushdb
               end
           | None => mret tt
           end;
       _ ← match prefix with
           | Some (String _ _ as prefix) =>
               assign (fun self =>
                 let keys_to_delete :=
                   List.filter (Str.is_prefix (prefix +:+ ":"))
                     (map fst (map_to_list (memory_cache self))) in
                 set_memory_cache
                   (foldr base.delete (memory_cache self) keys_to_delete) self)
           | _ => assign (set_memory_cache ∅)
           end;
       mret true)
      (fun _ => mret false).

End Clear.

Section Cached.

(** The values a decorated function takes, and the digest of
    [_generate_key]: the first sixteen hexadecimal digits of the MD5 of
    [json.dumps(key_data, sort_keys=True, default=str)]. *)
Context {Arg : Type}.
Variable key_digest : string -> list Arg -> list (string * Arg) -> string.

Definition _generate_key (prefix : string) (args : list Arg)
    (kwargs : list (string * Arg)) : string :=
  prefix +:+ ":" +:+ key_digest prefix args kwargs.

(** The wrapper of a coroutine function. [args[1:] if args and
    hasattr(args[0], '__class__') else args]: every object has the
    attribute, so the first positional argument is left out of the key. A
    decorated function returns a value of the cache, never [None]. *)
Definition async_wrapper (prefix : string) (ttl : option Z)
    (key_builder : option (list Arg -> list (string * Arg) -> result string))
    (func : list Arg -> list (string * Arg) -> M V V)
    (args : list Arg) (kwargs : list (string * Arg)) : M V V :=
  cache_key ←
    match key_builder with
    | Some build => lift (build args kwargs)
    | None =>
        let cache_args := match args with _ :: rest => rest | [] => args end in
        mret (_generate_key prefix cache_args kwargs)
    end;
  cached_value ← get cache_key;
  match cached_value with
  | Some v => mret v
  | None =>
      result ← func args kwargs;
      _ ← set cache_key result ttl;
      mret result
  end.

(** The wrapper of a plain function: the function is called and nothing is
    cached. *)
Definition sync_wrapper (func : list Arg -> list (string * Arg) -> M V V)
    (args : list Arg) (kwargs : list (string * Arg)) : M V V :=
  func args kwargs.

(** [cache.cached(prefix, ttl, key_builder)(func)]. *)
Definition cached (prefix : string) (ttl : option Z)
    (key_builder : option (list Arg -> list (string * Arg) -> result string))
    (iscoroutinefunction : bool)
    (func : list Arg -> list (string * Arg) -> M V V)
    : list Arg -> list (string * Arg) -> M V V :=
  if iscoroutinefunction then async_wrapper prefix ttl key_builder func
  else sync_wrapper func.

End Cached.

(** *** Sequences of operations on the cache

    What a program, and the passing of time, can do to the cache between a
    [set] and a later [get]: reads, writes and deletions, and any change
    of what the clock will show from then on. *)
Inductive op :=
| OpGet (key : string)
| OpSet (key : string) (v : V) (ttl : option Z)
| OpDelete (key : string)
| OpElapse (readings : nat -> Q).

Definition run_op (o : op) : M V unit :=
  match o with
  | OpGet key => _ ← get key; mret tt
  | OpSet key v ttl => _ ← set key v ttl; mret tt
  | OpDelete key => _ ← delete key; mret tt
  | OpElapse readings => fun w => (Ok tt, set_clock readings w)
  end.

Fixpoint run_ops (ops : list op) : M V unit :=
  match ops with
  | [] => mret tt
  | o :: ops' => _ ← run_op o; run_ops ops'
  end.

(** The operation does not write or delete [key]. *)
Definition leaves (key : string) (o : op) : Prop :=
  match o with
  | OpSet k _ _ | OpDelete k => k <> key
  | OpGet _ | OpElapse _ => True
  end.

(** The service keeps its entries in memory: it is enabled and has no
    connection to Redis, and cannot make one (no URL, or no answer). *)
Definition in_memory (self : CacheService V) (w : World V) : Prop :=
  cache_service w = Some self
  /\ enabled self = true
  /\ redis_client self = None
  /\ (cs_redis_url self = "" \/ redis_up (redis w) = false).

End Cache.
End Cache.

(** ** Decoded JSON and model validation *)

#[local] Unset Elimination Schemes.

(** What [json.loads] returns. An object keeps its members in order. *)
Inductive json :=
| JNull
| JBool (b : bool)
| JInt (n : Z)
| JFloat (q : Q)
| JStr (s : string)
| JArr (items : list json)
| JObj (members : list (string * json)).

#[local] Set Elimination Schemes.

(** What the nodes take from the Python runtime and from the models of
    app/models/schemas.py (which is not among the sources): the JSON decoder,
    [str()] of a decoded value inside an f-string, and the validation a
    model applies to a field of type [str], [int] or [float]. *)
Class Externals := {
  json_loads : string -> result json;
  str_of_json : json -> string;
  validate_str : json -> result string;
  validate_int : json -> result Z;
  validate_float : json -> result Q;
}.

Module Json.

Definition type_name (j : json) : string :=
  match j with
  | JNull => "NoneType" | JBool _ => "bool" | JInt _ => "int"
  | JFloat _ => "float" | JStr _ => "str" | JArr _ => "list" | JObj _ => "dict"
  end.

Fixpoint assoc (key : string) (members : list (string * json)) : option json :=
  match members with
  | [] => None
  | (k, v) :: rest => if String.eqb k key then Some v else assoc key rest
  end.

(** [j.get(key, default)]. *)
Definition get (j : json) (key : string) (default : json) : result json :=
  match j with
  | JObj members =>
      Ok (match assoc key members with Some v => v | None => default end)
  | _ => Raise (no_attribute (type_name j) "get")
  end.

Fixpoint chars (s : string) : list json :=
  match s with
  | EmptyString => []
  | String c s' => JStr (String c EmptyString) :: chars s'
  end.

(** [for x in j]. *)
Definition iter (j : json) : result (list json) :=
  match j with
  | JArr items => Ok items
  | JObj members => Ok (map (fun kv => JStr (fst kv)) members)
  | JStr s => Ok (chars s)
  | _ => Raise (TypeError ("'" +:+ type_name j +:+ "' object is not iterable"))
  end.

End Json.

(** ** The data-gathering nodes (app/agents/nodes) *)

(** The cache as a node sees it: [get_cache_service()] and the methods
    [get] and [set] of what it returns. *)
Record CacheAPI := {
  api_get_cache_service : M (list pyobj) unit;
  api_get : string -> M (list pyobj) (option (list pyobj));
  api_set : string -> list pyobj -> option Z -> M (list pyobj) bool;
}.

(** The cache service of app/services/cache_service.py. *)
Definition cache_service_api `{Pickle (list pyobj)} : CacheAPI :=
  {| api_get_cache_service := Cache.get_cache_service;
     api_get := Cache.get;
     api_set := Cache.set |}.

Section Nodes.

Context `{Externals}.
Variable cache : CacheAPI.

Local Abbreviation N := (M (list pyobj)).

Definition parse_location (location : json) : result Location.t :=
  longitude ← Json.get location "longitude" (JInt 0);
  latitude ← Json.get location "latitude" (JInt 0);
  longitude ← validate_float longitude;
  latitude ← validate_float latitude;
  mret (Location.mk longitude latitude).

(** The body of [for poi in result.get("pois", [])]. *)
Definition attraction_of_poi (poi : json) : result pyobj :=
  location ← Json.get poi "location" (JObj []);
  name ← Json.get poi "name" (JStr "");
  address ← Json.get poi "address" (JStr "");
  location ← parse_location location;
  type_ ← Json.get poi "type" (JStr "景点");
  address' ← Json.get poi "address" (JStr "");
  category ← Json.get poi "type" (JStr "景点");
  poi_id ← Json.get poi "id" (JStr "");
  name ← validate_str name;
  address ← validate_str address;
  category ← validate_str category;
  poi_id ← validate_str poi_id;
  mret (PAttraction
          {| Attraction.name := name;
             Attraction.address := address;
             Attraction.location := location;
             Attraction.visit_duration := 120;
             Attraction.description := str_of_json type_ +:+ " - " +:+ str_of_json address';
             Attraction.category := Some category;
             Attraction.poi_id := Some poi_id;
             Attraction.ticket_price := None |}).

(** The [try] block of [attraction_node]. *)
Definition attraction_try (state : TripPlanningState) (request : TripRequest.t)
    (start_time : Q) : N TripPlanningState :=
  _ ← api_get_cache_service cache;
  let keywords :=
    match TripRequest.preferences request with
    | k :: _ => k
    | [] => "景点"
    end in
  let cache_key := "attractions:" +:+ TripRequest.city request +:+ ":" +:+ keywords in
  cached ← api_get cache cache_key;
  match cached with
  | Some ((_ :: _) as cached) =>
      execution_time_ms ← elapsed_ms start_time;
      mret (dict [
        attractions_item cached;
        node_status_item
          (with_entry (State.node_status state) "search_attractions" "completed");
        node_timings_item
          (with_entry (State.node_timings state) "search_attractions" execution_time_ms)])
  | _ =>
      result_str ← tool_ainvoke (search_poi keywords (TripRequest.city request) true);
      result ← lift (json_loads result_str);
      pois ← lift (Json.get result "pois" (JArr []));
      pois ← lift (Json.iter pois);
      attractions ← lift (Py.mapM attraction_of_poi pois);
      _ ← api_set cache cache_key attractions (Some 7200);
      execution_time_ms ← elapsed_ms start_time;
      mret (dict [
        attractions_item attractions;
        node_status_item
          (with_entry (State.node_status state) "search_attractions" "completed");
        node_timings_item
          (with_entry (State.node_timings state) "search_attractions" execution_time_ms)])
  end.

Definition attraction_node (state : TripPlanningState) : N TripPlanningState :=
  start_time ← time_time;
  request ← lift (State.getitem "request" (State.request state));
  try_except
    (attraction_try state request start_time)
    (fun e =>
       execution_time_ms ← elapsed_ms start_time;
       mret (dict [
         attractions_item [];
         node_status_item
           (with_entry (State.node_status state) "search_attractions" "failed");
         node_errors_item
           (with_entry (State.node_errors state) "search_attractions" (exn_str e));
         node_timings_item
           (with_entry (State.node_timings state) "search_attractions" execution_time_ms)])).

(** The body of [for day in result.get("forecast", [])]. *)
Definition weather_of_day (day : json) : result pyobj :=
  date ← Json.get day "date" (JStr "");
  day_weather ← Json.get day "day_weather" (JStr "");
  night_weather ← Json.get day "night_weather" (JStr "");
  day_temp ← Json.get day "day_temp" (JInt 0);
  night_temp ← Json.get day "night_temp" (JInt 0);
  wind_direction ← Json.get day "wind_direction" (JStr "");
  wind_power ← Json.get day "wind_power" (JStr "");
  date ← validate_str date;
  day_weather ← validate_str day_weather;
  night_weather ← validate_str night_weather;
  day_temp ← validate_int day_temp;
  night_temp ← validate_int night_temp;
  wind_direction ← validate_str wind_direction;
  wind_power ← validate_str wind_power;
  mret (PWeather
          (WeatherInfo.mk date day_weather night_weather day_temp night_temp
             wind_direction wind_power)).

(** The [try] block of [weather_node]. *)
Definition weather_try (state : TripPlanningState) (request : TripRequest.t)
    (start_time : Q) : N TripPlanningState :=
  _ ← api_get_cache_service cache;
  let cache_key := "weather:" +:+ TripRequest.city request in
  cached ← api_get cache cache_key;
  match cached with
  | Some ((_ :: _) as cached) =>
      execution_time_ms ← elapsed_ms start_time;
      mret (dict [
        weather_item cached;
        node_status_item
          (with_entry (State.node_status state) "query_weather" "completed");
        node_timings_item
          (with_entry (State.node_timings state) "query_weather" execution_time_ms)])
  | _ =>
      result_str ← tool_ainvoke (query_weather (TripRequest.city request));
      result ← lift (json_loads result_str);
      forecast ← lift (Json.get result "forecast" (JArr []));
      forecast ← lift (Json.iter forecast);
      weather_list ← lift (Py.mapM weather_of_day forecast);
      _ ← api_set cache cache_key weather_list (Some 1800);
      execution_time_ms ← elapsed_ms start_time;
      mret (dict [
        weather_item weather_list;
        node_status_item
          (with_entry (State.node_status state) "query_weather" "completed");
        node_timings_item
          (with_entry (State.node_timings state) "query_weather" execution_time_ms)])
  end.

Definition weather_node (state : TripPlanningState) : N TripPlanningState :=
  start_time ← time_time;
  request ← lift (State.getitem "request" (State.request state));
  try_except
    (weather_try state request start_time)
    (fun e =>
       execution_time_ms ← elapsed_ms start_time;
       mret (dict [
         weather_item [];
         node_status_item
           (with_entry (State.node_status state) "query_weather" "failed");
         node_errors_item
           (with_entry (State.node_errors state) "query_weather" (exn_str e));
         node_timings_item
           (with_entry (State.node_timings state) "query_weather" execution_time_ms)])).

(** The body of [for h in result.get("hotels", [])]. *)
Definition hotel_of_json (h : json) : result pyobj :=
  location ← Json.get h "location" (JObj []);
  name ← Json.get h "name" (JStr "");
  address ← Json.get h "address" (JStr "");
  location ← parse_location location;
  type_ ← Json.get h "type" (JStr "酒店");
  name ← validate_str name;
  address ← validate_str address;
  type_ ← validate_str type_;
  mret (PHotel
          {| Hotel.name := name;
             Hotel.address := address;
             Hotel.location := Some location;
             Hotel.type := Some type_;
             Hotel.price_range := Some "";
             Hotel.rating := Some "";
             Hotel.distance := Some "";
             Hotel.estimated_cost := None |}).

(** The [try] block of [hotel_node]. *)
Definition hotel_try (state : TripPlanningState) (request : TripRequest.t)
    (start_time : Q) : N TripPlanningState :=
  _ ← api_get_cache_service cache;
  let cache_key :=
    "hotels:" +:+ TripRequest.city request +:+ ":" +:+ TripRequest.accommodation request in
  cached ← api_get cache cache_key;
  match cached with
  | Some ((_ :: _) as cached) =>
      execution_time_ms ← elapsed_ms start_time;
      mret (dict [
        hotels_item cached;
        node_status_item
          (with_entry (State.node_status state) "search_hotels" "completed");
        node_timings_item
          (with_entry (State.node_timings state) "search_hotels" execution_time_ms)])
  | _ =>
      result_str ←
        tool_ainvoke
          (search_hotels (TripRequest.city request)
             (if bool_decide (TripRequest.accommodation request = "") then "酒店"
              else TripRequest.accommodation request));
      result ← lift (json_loads result_str);
      found ← lift (Json.get result "hotels" (JArr []));
      found ← lift (Json.iter found);
      hotels ← lift (Py.mapM hotel_of_json found);
      _ ← api_set cache cache_key hotels (Some 7200);
      execution_time_ms ← elapsed_ms start_time;
      mret (dict [
        hotels_item hotels;
        node_status_item
          (with_entry (State.node_status state) "search_hotels" "completed");
        node_timings_item
          (with_entry (State.node_timings state) "search_hotels" execution_time_ms)])
  end.

Definition hotel_node (state : TripPlanningState) : N TripPlanningState :=
  start_time ← time_time;
  request ← lift (State.getitem "request" (State.request state));
  try_except
    (hotel_try state request start_time)
    (fun e =>
       execution_time_ms ← elapsed_ms start_time;
       mret (dict [
         hotels_item [];
         node_status_item
           (with_entry (State.node_status state) "search_hotels" "failed");
         node_errors_item
           (with_entry (State.node_errors state) "search_hotels" (exn_str e));
         node_timings_item
           (with_entry (State.node_timings state) "search_hotels" execution_time_ms)])).

(** *** The shape the three nodes share

    The three nodes are one procedure up to the name of the step, the key
    of the result, the cache key, the tool called, the member of the
    answer that is read, the conversion of its items and the time to
    live. [gather] is that procedure; the nodes are its instances
    ([attraction_node_gather] and the like below). *)
Record Step := {
  step_name : string;
  step_item : list pyobj -> item;
  step_result : TripPlanningState -> option (list pyobj);
  step_key : TripRequest.t -> string;
  step_call : TripRequest.t -> ToolCall;
  step_member : string;
  step_convert : json -> result pyobj;
  step_ttl : Z;
}.

Definition completed_update (sp : Step) (state : TripPlanningState)
    (found : list pyobj) (execution_time_ms : Z) : TripPlanningState :=
  dict [
    step_item sp found;
    node_status_item (with_entry (State.node_status state) (step_name sp) "completed");
    node_timings_item
      (with_entry (State.node_timings state) (step_name sp) execution_time_ms)].

Definition failed_update (sp : Step) (state : TripPlanningState)
    (e : exn) (execution_time_ms : Z) : TripPlanningState :=
  dict [
    step_item sp [];
    node_status_item (with_entry (State.node_status state) (step_name sp) "failed");
    node_errors_item (with_entry (State.node_errors state) (step_name sp) (exn_str e));
    node_timings_item
      (with_entry (State.node_timings state) (step_name sp) execution_time_ms)].

(** What a step does on a cache miss, up to the write into the cache. *)
Definition fetch (sp : Step) (request : TripRequest.t) : N (list pyobj) :=
  result_str ← tool_ainvoke (step_call sp request);
  result ← lift (json_loads result_str);
  items ← lift (Json.get result (step_member sp) (JArr []));
  items ← lift (Json.iter items);
  lift (Py.mapM (step_convert sp) items).

Definition gather_try (sp : Step) (state : TripPlanningState) (request : TripRequest.t)
    (start_time : Q) : N TripPlanningState :=
  _ ← api_get_cache_service cache;
  cached ← api_get cache (step_key sp request);
  match cached with
  | Some ((_ :: _) as cached) =>
      execution_time_ms ← elapsed_ms start_time;
      mret (completed_update sp state cached execution_time_ms)
  | _ =>
      found ← fetch sp request;
      _ ← api_set cache (step_key sp request) found (Some (step_ttl sp));
      execution_time_ms ← elapsed_ms start_time;
      mret (completed_update sp state found execution_time_ms)
  end.

Definition gather (sp : Step) (state : TripPlanningState) : N TripPlanningState :=
  start_time ← time_time;
  request ← lift (State.getitem "request" (State.request state));
  try_except
    (gather_try sp state request start_time)
    (fun e =>
       execution_time_ms ← elapsed_ms start_time;
       mret (failed_update sp state e execution_time_ms)).

Definition attraction_step : Step :=
  {| step_name := "search_attractions";
     step_item := attractions_item;
     step_result := State.attractions;
     step_key := fun request =>
       "attractions:" +:+ TripRequest.city request +:+ ":" +:+
       match TripRequest.preferences request with k :: _ => k | [] => "景点" end;
     step_call := fun request =>
       search_poi
         match TripRequest.preferences request with k :: _ => k | [] => "景点" end
         (TripRequest.city request) true;
     step_member := "pois";
     step_convert := attraction_of_poi;
     step_ttl := 7200 |}.

Definition weather_step : Step :=
  {| step_name := "query_weather";
     step_item := weather_item;
     step_result := State.weather;
     step_key := fun request => "weather:" +:+ TripRequest.city request;
     step_call := fun request => query_weather (TripRequest.city request);
     step_member := "forecast";
     step_convert := weather_of_day;
     step_ttl := 1800 |}.

Definition hotel_step : Step :=
  {| step_name := "search_hotels";
     step_item := hotels_item;
     step_result := State.hotels;
     step_key := fun request =>
       "hotels:" +:+ TripRequest.city request +:+ ":" +:+ TripRequest.accommodation request;
     step_call := fun request =>
       search_hotels (TripRequest.city request)
         (if bool_decide (TripRequest.accommodation request = "") then "酒店"
          else TripRequest.accommodation request);
     step_member := "hotels";
     step_convert := hotel_of_json;
     step_ttl := 7200 |}.

End Nodes.

(** ** The synthesis node (app/agents/nodes/planner_node.py) *)

Module Obj.

Definition class_name (o : pyobj) : string :=
  match o with
  | PAttraction _ => "Attraction" | PWeather _ => "WeatherInfo" | PHotel _ => "Hotel"
  end.

(** [o.name], [o.address] and the other attributes the planner reads. *)
Definition name (o : pyobj) : result string :=
  match o with
  | PAttraction a => Ok (Attraction.name a)
  | PHotel h => Ok (Hotel.name h)
  | PWeather _ => Raise (no_attribute (class_name o) "name")
  end.

Definition address (o : pyobj) : result string :=
  match o with
  | PAttraction a => Ok (Attraction.address a)
  | PHotel h => Ok (Hotel.address h)
  | PWeather _ => Raise (no_attribute (class_name o) "address")
  end.

Definition visit_duration (o : pyobj) : result Z :=
  match o with
  | PAttraction a => Ok (Attraction.visit_duration a)
  | _ => Raise (no_attribute (class_name o) "visit_duration")
  end.

Definition weather_attr {A} (attr : string) (f : WeatherInfo.t -> A) (o : pyobj)
    : result A :=
  match o with
  | PWeather w => Ok (f w)
  | _ => Raise (no_attribute (class_name o) attr)
  end.

End Obj.

(** [xs[:n]]. *)
Definition slice_to {A} (n : Z) (xs : list A) : list A :=
  if 0 <=? n then firstn (Z.to_nat n) xs
  else firstn (length xs - Z.to_nat (- n)) xs.

(** [enumerate(xs, 1)]. *)
Definition enumerate1 {A} (xs : list A) : list (Z * A) :=
  combine (map (fun i => Z.of_nat i + 1) (seq 0 (length xs))) xs.

Definition newline : string := String (ascii_of_nat 10) EmptyString.

Definition build_planner_input (request : TripRequest.t)
    (attractions weather hotels : list pyobj) : result string :=
  let input_parts :=
    [ "目的地: " +:+ TripRequest.city request;
      "旅行日期: " +:+ TripRequest.start_date request +:+ " 至 " +:+ TripRequest.end_date request;
      "天数: " +:+ Py.str_of_int (TripRequest.travel_days request);
      "交通方式: " +:+ TripRequest.transportation request;
      "住宿偏好: " +:+ TripRequest.accommodation request;
      "旅行偏好: " +:+
        match TripRequest.preferences request with
        | [] => "无"
        | prefs => Str.join ", " prefs
        end;
      "";
      "景点信息:" ] in
  attraction_lines ←
    Py.mapM (fun '(i, attr) =>
      name ← Obj.name attr;
      address ← Obj.address attr;
      visit_duration ← Obj.visit_duration attr;
      mret (Py.str_of_int i +:+ ". " +:+ name +:+ " - " +:+ address
            +:+ " (游览约" +:+ Py.str_of_int visit_duration +:+ "分钟)"))
      (enumerate1 (slice_to 15 attractions));
  weather_lines ←
    match weather with
    | [] => mret []
    | _ =>
        lines ←
          Py.mapM (fun w =>
            date ← Obj.weather_attr "date" WeatherInfo.date w;
            day_weather ← Obj.weather_attr "day_weather" WeatherInfo.day_weather w;
            day_temp ← Obj.weather_attr "day_temp" WeatherInfo.day_temp w;
            night_weather ← Obj.weather_attr "night_weather" WeatherInfo.night_weather w;
            night_temp ← Obj.weather_attr "night_temp" WeatherInfo.night_temp w;
            mret (date +:+ ": 白天" +:+ day_weather +:+ " " +:+ Py.str_of_int day_temp
                  +:+ "°C, 夜间" +:+ night_weather +:+ " " +:+ Py.str_of_int night_temp
                  +:+ "°C"))
            (slice_to (TripRequest.travel_days request) weather);
        mret ("" :: "天气信息:" :: lines)
    end;
  hotel_lines ←
    match hotels with
    | [] => mret []
    | _ =>
        lines ←
          Py.mapM (fun '(i, hotel) =>
            name ← Obj.name hotel;
            address ← Obj.address hotel;
            mret (Py.str_of_int i +:+ ". " +:+ name +:+ " - " +:+ address))
            (enumerate1 (slice_to 10 hotels));
        mret ("" :: "可选酒店:" :: lines)
    end;
  mret (Str.join newline (input_parts ++ attraction_lines ++ weather_lines ++ hotel_lines)).

(** [xs[i]]. *)
Definition index {A} (xs : list A) (i : nat) : result A :=
  match nth_error xs i with
  | Some x => Ok x
  | None => Raise (Exn "IndexError" "list index out of range")
  end.

(** The opening of a fenced block, bare and with the [json] tag. *)
Definition fence : string := "```".
Definition json_fence : string := "```json".

(** The first lines of [parse_planner_response]: the text handed to
    [json.loads]. *)
Definition extract_json (content : string) : result string :=
  if Str.contains json_fence content then
    after ← index (Str.split json_fence content) 1;
    inside ← index (Str.split fence after) 0;
    mret (Str.strip inside)
  else if Str.contains fence content then
    after ← index (Str.split fence content) 1;
    inside ← index (Str.split fence after) 0;
    mret (Str.strip inside)
  else mret content.

Section Planner.

Context `{Externals}.

(** The module constant of that name, the instruction given to the
    text-generation engine; no property depends on its text. *)
Variable PLANNER_SYSTEM_PROMPT : string.

Local Abbreviation N := (M (list pyobj)).

Definition _parse_hotel (data : json) : result Hotel.t :=
  name ← Json.get data "name" (JStr "");
  address ← Json.get data "address" (JStr "");
  estimated_cost ← Json.get data "estimated_cost" (JInt 0);
  name ← validate_str name;
  address ← validate_str address;
  estimated_cost ← validate_int estimated_cost;
  mret {| Hotel.name := name; Hotel.address := address;
          Hotel.location := None; Hotel.type := None; Hotel.price_range := None;
          Hotel.rating := None; Hotel.distance := None;
          Hotel.estimated_cost := Some estimated_cost |}.

Definition _parse_attraction (data : json) : result Attraction.t :=
  name ← Json.get data "name" (JStr "");
  address ← Json.get data "address" (JStr "");
  visit_duration ← Json.get data "visit_duration" (JInt 120);
  description ← Json.get data "description" (JStr "");
  ticket_price ← Json.get data "ticket_price" (JInt 0);
  name ← validate_str name;
  address ← validate_str address;
  visit_duration ← validate_int visit_duration;
  description ← validate_str description;
  ticket_price ← validate_int ticket_price;
  mret {| Attraction.name := name; Attraction.address := address;
          Attraction.location := Location.mk 0 0;
          Attraction.visit_duration := visit_duration;
          Attraction.description := description;
          Attraction.category := None; Attraction.poi_id := None;
          Attraction.ticket_price := Some ticket_price |}.

Definition _parse_meal (data : json) : result Meal.t :=
  type_ ← Json.get data "type" (JStr "lunch");
  name ← Json.get data "name" (JStr "");
  description ← Json.get data "description" (JStr "");
  estimated_cost ← Json.get data "estimated_cost" (JInt 0);
  type_ ← validate_str type_;
  name ← validate_str name;
  description ← validate_str description;
  estimated_cost ← validate_int estimated_cost;
  mret (Meal.mk type_ name (Some description) estimated_cost).

(** The body of [for day_data in data.get("days", [])]. *)
Definition parse_day (request : TripRequest.t) (day_data : json) : result DayPlan.t :=
  date ← Json.get day_data "date" (JStr "");
  day_index ← Json.get day_data "day_index" (JInt 0);
  description ← Json.get day_data "description" (JStr "");
  transportation ←
    Json.get day_data "transportation" (JStr (TripRequest.transportation request));
  accommodation ←
    Json.get day_data "accommodation" (JStr (TripRequest.accommodation request));
  hotel ← Json.get day_data "hotel" (JObj []);
  hotel ← _parse_hotel hotel;
  attractions ← Json.get day_data "attractions" (JArr []);
  attractions ← Json.iter attractions;
  attractions ← Py.mapM _parse_attraction attractions;
  meals ← Json.get day_data "meals" (JArr []);
  meals ← Json.iter meals;
  meals ← Py.mapM _parse_meal meals;
  date ← validate_str date;
  day_index ← validate_int day_index;
  description ← validate_str description;
  transportation ← validate_str transportation;
  accommodation ← validate_str accommodation;
  mret (DayPlan.mk date day_index description transportation accommodation
          hotel attractions meals).

(** [parse_planner_response] from [data = json.loads(json_str)] on. *)
Definition plan_of_json (json_str : string) (request : TripRequest.t)
    : result TripPlan.t :=
  data ← json_loads json_str;
  days ← Json.get data "days" (JArr []);
  days ← Json.iter days;
  days ← Py.mapM (parse_day request) days;
  budget_data ← Json.get data "budget" (JObj []);
  total_attractions ← Json.get budget_data "total_attractions" (JInt 0);
  total_hotels ← Json.get budget_data "total_hotels" (JInt 0);
  total_meals ← Json.get budget_data "total_meals" (JInt 0);
  total_transportation ← Json.get budget_data "total_transportation" (JInt 0);
  total ← Json.get budget_data "total" (JInt 0);
  total_attractions ← validate_int total_attractions;
  total_hotels ← validate_int total_hotels;
  total_meals ← validate_int total_meals;
  total_transportation ← validate_int total_transportation;
  total ← validate_int total;
  city ← Json.get data "city" (JStr (TripRequest.city request));
  overall_suggestions ← Json.get data "overall_suggestions" (JStr "");
  city ← validate_str city;
  overall_suggestions ← validate_str overall_suggestions;
  mret {| TripPlan.city := city;
          TripPlan.start_date := TripRequest.start_date request;
          TripPlan.end_date := TripRequest.end_date request;
          TripPlan.days := days;
          TripPlan.weather_info := [];
          TripPlan.overall_suggestions := overall_suggestions;
          TripPlan.budget :=
            Budget.mk total_attractions total_hotels total_meals
              total_transportation total;
          TripPlan.execution_time_ms := None |}.

Definition parse_planner_response (content : string) (request : TripRequest.t)
    : result TripPlan.t :=
  json_str ← extract_json content;
  plan_of_json json_str request.

(** The [try] block of [planner_node]. *)
Definition planner_try (state : TripPlanningState) (request : TripRequest.t)
    (start_time : Q) : N TripPlanningState :=
  let attractions := State.get (State.attractions state) [] in
  let weather := State.get (State.weather state) [] in
  let hotels := State.get (State.hotels state) [] in
  match attractions with
  | [] =>
      trip_plan ← lift (create_fallback_plan request);
      execution_time_ms ← elapsed_ms start_time;
      mret (dict [
        trip_plan_item trip_plan;
        fallback_activated_item true;
        node_status_item
          (with_entry (State.node_status state) "generate_plan" "completed");
        node_timings_item
          (with_entry (State.node_timings state) "generate_plan" execution_time_ms);
        execution_time_ms_item execution_time_ms])
  | _ =>
      input_data ← lift (build_planner_input request attractions weather hotels);
      content ← llm_ainvoke PLANNER_SYSTEM_PROMPT input_data;
      trip_plan ← lift (parse_planner_response content request);
      execution_time_ms ← elapsed_ms start_time;
      mret (dict [
        trip_plan_item trip_plan;
        node_status_item
          (with_entry (State.node_status state) "generate_plan" "completed");
        node_timings_item
          (with_entry (State.node_timings state) "generate_plan" execution_time_ms);
        execution_time_ms_item execution_time_ms])
  end.

Definition planner_node (state : TripPlanningState) : N TripPlanningState :=
  start_time ← time_time;
  request ← lift (State.getitem "request" (State.request state));
  (* is_all_parallel_nodes_completed(state): the call gives no [nodes] *)
  ready ← lift (Py.call2 "is_all_parallel_nodes_completed" "state" "nodes"
                  is_all_parallel_nodes_completed (Some state) None []);
  if negb ready then
    mret (dict [
      node_status_item (with_entry (State.node_status state) "generate_plan" "pending")])
  else
    try_except
      (planner_try state request start_time)
      (fun e =>
         execution_time_ms ← elapsed_ms start_time;
         trip_plan ← lift (create_fallback_plan request);
         mret (dict [
           trip_plan_item trip_plan;
           fallback_activated_item true;
           error_item (exn_str e);
           node_status_item
             (with_entry (State.node_status state) "generate_plan" "completed");
           node_errors_item
             (with_entry (State.node_errors state) "generate_plan" (exn_str e));
           node_timings_item
             (with_entry (State.node_timings state) "generate_plan" execution_time_ms);
           execution_time_ms_item execution_time_ms])).

End Planner.

(** ** The planning service (app/services/trip_planning_service.py) *)

Module TripPlanningService.
Section Service.

Local Abbreviation N := (M (list pyobj)).

(** [self.graph.ainvoke(initial_state, config)], the compiled graph run by
    the graph library; the second argument is the thread id of [config]. *)
Variable graph_ainvoke : TripPlanningState -> string -> N TripPlanningState.

Definition plan_trip (request : TripRequest.t) (user_id : option string)
    : N TripPlan.t :=
  trace_id ← new_uuid;
  start_time ← time_time;
  try_except
    ((* create_initial_state(request=request, trace_id=trace_id, user_id=user_id) *)
     initial_state ← lift (Py.call2 "create_initial_state" "user_id" "request"
                             create_initial_state (Some user_id) (Some request)
                             ["trace_id"]);
     final_state ← graph_ainvoke initial_state trace_id;
     execution_time_ms ← elapsed_ms start_time;
     match State.trip_plan final_state with
     | None => raise (ValueError "未能生成旅行计划")
     | Some trip_plan =>
         mret (TripPlan.set_execution_time_ms execution_time_ms trip_plan)
     end)
    (fun e =>
       execution_time_ms ← elapsed_ms start_time;
       raise e).

End Service.
End TripPlanningService.

(** ** The route (app/api/routes/trip_v2.py) *)

Module trip_v2.
Section Route.

Local Abbreviation N := (M (list pyobj)).

Variable graph_ainvoke : TripPlanningState -> string -> N TripPlanningState.

(** The exceptions of app/core/exceptions.py the route tells apart. *)
Definition ValidationError (message : string) : exn :=
  Exn "app.core.exceptions.ValidationError" message.
Definition TripPlanningError (message : string) : exn :=
  Exn "app.core.exceptions.TripPlanningError" message.

Definition isinstance (e : exn) (cls : string -> exn) : bool :=
  String.eqb (exn_class e) (exn_class (cls "")).

Record TripPlanResponse := {
  success : bool;
  message : string;
  data : TripPlan.t;
}.

(** What the caller of the route gets: the response, or the
    [HTTPException] the route raises. *)
Inductive outcome :=
| Returned (response : TripPlanResponse)
| HTTPException (status_code : Z) (detail : string).

Definition plan_trip (request : TripRequest.t) (user_id : option string) : N outcome :=
  try_except
    (_ ← (if (TripRequest.travel_days request <? 1)
             || (30 <? TripRequest.travel_days request)
          then raise (ValidationError "旅行天数必须在1-30天之间")
          else mret tt);
     trip_plan ← TripPlanningService.plan_trip graph_ainvoke request user_id;
     mret (Returned {| success := true;
                       message := "旅行计划生成成功";
                       data := trip_plan |}))
    (fun e =>
       if isinstance e ValidationError then
         mret (HTTPException 400 (exn_str e))
       else if isinstance e TripPlanningError then
         mret (HTTPException 500 ("生成旅行计划失败: " +:+ exn_str e))
       else
         mret (HTTPException 500 "服务器内部错误，请稍后重试")).

End Route.
End trip_v2.

(** ** The tools (app/agents/tools.py) *)

Module POIInfo.
(** Modelled from the spec: app/models/schemas.py is not among the sources;
    the fields are those the map service passes to the constructor
    (amap_service.py) and the tools read. *)
Record t := mk {
  id : string;
  name : string;
  type : string;
  address : string;
  location : Location.t;
  tel : option string;
}.
End POIInfo.

Module Tools.

(** The dict [result] a tool builds from what the map service returned; the
    tool returns [json.dumps(result)]. *)
Definition location_dict (location : Location.t) : json :=
  JObj [("longitude", JFloat (Location.longitude location));
        ("latitude", JFloat (Location.latitude location))].

Definition poi_dict (poi : POIInfo.t) : json :=
  JObj [("name", JStr (POIInfo.name poi));
        ("address", JStr (POIInfo.address poi));
        ("location", location_dict (POIInfo.location poi));
        ("type", JStr (POIInfo.type poi));
        ("tel", match POIInfo.tel poi with Some tel => JStr tel | None => JNull end)].

Definition search_poi_result (pois : list POIInfo.t) : json :=
  JObj [("total", JInt (Z.of_nat (length pois)));
        ("pois", JArr (map poi_dict (slice_to 10 pois)))].

Definition weather_dict (w : WeatherInfo.t) : json :=
  JObj [("date", JStr (WeatherInfo.date w));
        ("day_weather", JStr (WeatherInfo.day_weather w));
        ("night_weather", JStr (WeatherInfo.night_weather w));
        ("day_temp", JInt (WeatherInfo.day_temp w));
        ("night_temp", JInt (WeatherInfo.night_temp w));
        ("wind_direction", JStr (WeatherInfo.wind_direction w));
        ("wind_power", JStr (WeatherInfo.wind_power w))].

Definition query_weather_result (city : string) (weather_list : list WeatherInfo.t)
    : json :=
  JObj [("city", JStr city);
        ("forecast", JArr (map weather_dict weather_list))].

(** [any(keyword in poi.type for keyword in ["酒店", "宾馆", "住宿", "旅馆"])]. *)
Definition is_hotel (poi : POIInfo.t) : bool :=
  existsb (fun keyword => Str.contains keyword (POIInfo.type poi))
    ["酒店"; "宾馆"; "住宿"; "旅馆"].

(** [hotels] is what [service.search_poi] returned. *)
Definition search_hotels_result (hotels : list POIInfo.t) : json :=
  let hotel_list := map poi_dict (List.filter is_hotel hotels) in
  JObj [("total", JInt (Z.of_nat (length hotel_list)));
        ("hotels", JArr (slice_to 10 hotel_list))].

End Tools.

(** ** The exceptions (app/core/exceptions.py) *)

Module Exceptions.

(** The classes of the module. *)
Inductive cls :=
| TripPlannerException
| ValidationError
| AuthenticationError
| AuthorizationError
| NotFoundError
| ConflictError
| RateLimitError
| AmapServiceError
| LLMServiceError
| CacheError
| DatabaseError
| TripPlanningError
| ExternalServiceError
| FallbackActivatedError
| RetryExhaustedError.

(** The class attributes [error_code] and [status_code]. *)
Definition error_code (c : cls) : string :=
  match c with
  | TripPlannerException => "INTERNAL_ERROR"
  | ValidationError => "VALIDATION_ERROR"
  | AuthenticationError => "AUTHENTICATION_ERROR"
  | AuthorizationError => "AUTHORIZATION_ERROR"
  | NotFoundError => "NOT_FOUND"
  | ConflictError => "CONFLICT_ERROR"
  | RateLimitError => "RATE_LIMIT_EXCEEDED"
  | AmapServiceError => "AMAP_SERVICE_ERROR"
  | LLMServiceError => "LLM_SERVICE_ERROR"
  | CacheError => "CACHE_ERROR"
  | DatabaseError => "DATABASE_ERROR"
  | TripPlanningError => "TRIP_PLANNING_ERROR"
  | ExternalServiceError => "EXTERNAL_SERVICE_ERROR"
  | FallbackActivatedError => "FALLBACK_ACTIVATED"
  | RetryExhaustedError => "RETRY_EXHAUSTED"
  end.

Definition status_code (c : cls) : Z :=
  match c with
  | TripPlannerException => 500
  | ValidationError => 400
  | AuthenticationError => 401
  | AuthorizationError => 403
  | NotFoundError => 404
  | ConflictError => 409
  | RateLimitError => 429
  | AmapServiceError => 502
  | LLMServiceError => 502
  | CacheError => 503
  | DatabaseError => 503
  | TripPlanningError => 500
  | ExternalServiceError => 502
  | FallbackActivatedError => 200
  | RetryExhaustedError => 503
  end.

Definition ERROR_CODE_MAP : list (string * (cls * Z)) :=
  [ ("VALIDATION_ERROR", (ValidationError, 400));
    ("AUTHENTICATION_ERROR", (AuthenticationError, 401));
    ("AUTHORIZATION_ERROR", (AuthorizationError, 403));
    ("NOT_FOUND", (NotFoundError, 404));
    ("CONFLICT_ERROR", (ConflictError, 409));
    ("RATE_LIMIT_EXCEEDED", (RateLimitError, 429));
    ("INTERNAL_ERROR", (TripPlannerException, 500));
    ("TRIP_PLANNING_ERROR", (TripPlanningError, 500));
    ("AMAP_SERVICE_ERROR", (AmapServiceError, 502));
    ("LLM_SERVICE_ERROR", (LLMServiceError, 502));
    ("EXTERNAL_SERVICE_ERROR", (ExternalServiceError, 502));
    ("CACHE_ERROR", (CacheError, 503));
    ("DATABASE_ERROR", (DatabaseError, 503));
    ("RETRY_EXHAUSTED", (RetryExhaustedError, 503)) ].

(** [d.get(key, default)] on a dict literal. *)
Fixpoint dict_get {A} (d : list (string * A)) (key : string) (default : A) : A :=
  match d with
  | [] => default
  | (k, v) :: rest => if String.eqb k key then v else dict_get rest key default
  end.

Definition get_exception_class (error_code : string) : cls :=
  fst (dict_get ERROR_CODE_MAP error_code (TripPlannerException, 500)).

End Exceptions.

(** ** The settings (app/config.py) *)

(** [self.get_cors_origins_list()], as a function of [self.cors_origins]. *)
Definition get_cors_origins_list (cors_origins : string) : list string :=
  map Str.strip
    (List.filter (fun origin => negb (bool_decide (Str.strip origin = "")))
       (Str.split "," cors_origins)).

(** The default of [cors_origins]. *)
Definition default_cors_origins : string :=
  "http://localhost:5173,http://localhost:3000,http://127.0.0.1:5173,http://127.0.0.1:3000".

(** ** A concrete world

    A world to run the code in: the cache service not yet made, Redis not
    answering (so that the cache keeps its entries in memory), a clock that
    advances by one second at each reading, a points-of-interest provider
    that finds one place, and a text-generation engine that answers with an
    empty JSON object. *)

Definition one_poi : json :=
  JObj [("total", JInt 1);
        ("pois", JArr [JObj [("name", JStr "Forbidden City");
                             ("address", JStr "4 Jingshan Front St");
                             ("location", JObj [("longitude", JFloat 116.397);
                                                ("latitude", JFloat 39.918)]);
                             ("type", JStr "scenic spot");
                             ("tel", JStr "")]])].

#[local] Instance demo_externals : Externals :=
  {| json_loads := fun s =>
       if String.eqb s "{}" then Ok (JObj [])
       else if String.eqb s "[]" then Ok (JArr [])
       else if String.eqb s "one_poi.json" then Ok one_poi
       else Raise (Exn "json.decoder.JSONDecodeError" "Expecting value");
     str_of_json := fun j =>
       match j with
       | JStr s => s
       | JInt n => Py.str_of_int n
       | JNull => "None"
       | JBool true => "True"
       | JBool false => "False"
       | _ => "..."
       end;
     validate_str := fun j =>
       match j with
       | JStr s => Ok s
       | _ => Raise (Exn "pydantic.ValidationError" "Input should be a valid string")
       end;
     validate_int := fun j =>
       match j with
       | JInt n => Ok n
       | _ => Raise (Exn "pydantic.ValidationError" "Input should be a valid integer")
       end;
     validate_float := fun j =>
       match j with
       | JFloat q => Ok q
       | JInt n => Ok (inject_Z n)
       | _ => Raise (Exn "pydantic.ValidationError" "Input should be a valid number")
       end |}.

Definition forbidden_city : pyobj :=
  PAttraction
    {| Attraction.name := "Forbidden City";
       Attraction.address := "4 Jingshan Front St";
       Attraction.location := Location.mk 116.397 39.918;
       Attraction.visit_duration := 120;
       Attraction.description := "scenic spot - 4 Jingshan Front St";
       Attraction.category := Some "scenic spot";
       Attraction.poi_id := Some "";
       Attraction.ticket_price := None |}.

#[local] Instance demo_pickle : Pickle (list pyobj) :=
  {| pickle_dumps := fun _ => Ok "pickled";
     pickle_loads := fun _ => Ok [forbidden_city] |}.

Definition demo_world : World (list pyobj) :=
  {| clock := fun n => inject_Z (Z.of_nat n);
     clock_reads := 0;
     settings := default_settings;
     cache_service := None;
     redis := {| redis_up := false; redis_keys := ∅ |};
     tool_answer := fun _ call =>
       match call with
       | search_poi _ _ _ => Ok "one_poi.json"
       | _ => Raise (Exn "app.core.exceptions.AmapServiceError" "provider outage")
       end;
     llm_answer := fun _ _ _ => Ok "{}";
     uuid4 := fun _ => "6f1c2a9e-0000-4000-8000-000000000000";
     uuids_drawn := 0;
     trace := [] |}.

(** The same world with a Redis server that answers. *)
Definition demo_world_redis : World (list pyobj) :=
  set_redis {| redis_up := true; redis_keys := ∅ |} demo_world.

(** A graph executor for the examples: it runs no node and returns the
    state it was given. *)
Definition idle_graph (state : TripPlanningState) (thread_id : string)
    : M (list pyobj) TripPlanningState := mret state.

(** Two states of a run on the Beijing request, as the synthesis node finds
    them. In the first the attractions step found a place and completed, the
    weather step failed and the lodging step completed with nothing found;
    in the second the three steps completed and found nothing. *)
Definition weather_failed_state : TripPlanningState :=
  node_status_item
    (<["search_attractions" := "completed"]>
       (<["query_weather" := "failed"]> (<["search_hotels" := "completed"]> ∅)))
    (node_errors_item (<["query_weather" := "provider outage"]> ∅)
       (weather_item []
          (attractions_item [forbidden_city]
             (create_initial_state (Some "user-1") beijing_request)))).

Definition no_attractions_state : TripPlanningState :=
  node_status_item
    (<["search_attractions" := "completed"]>
       (<["query_weather" := "completed"]> (<["search_hotels" := "completed"]> ∅)))
    (weather_item []
       (create_initial_state (Some "user-1") beijing_request)).

(** ** Notions the properties are stated with *)

Definition required_steps : list string :=
  ["search_attractions"; "query_weather"; "search_hotels"].


(** What every day of the fallback itinerary looks like. *)
Definition fallback_day_shape (d : DayPlan.t) : Prop :=
  length (DayPlan.attractions d) = 2%nat
  /\ map Meal.estimated_cost (DayPlan.meals d) = [30; 60; 100].

(** The request of the scenario with 31 days. *)
Definition request_31_days : TripRequest.t :=
  {| TripRequest.city := "Beijing";
     TripRequest.start_date := "2025-06-01";
     TripRequest.end_date := "2025-06-03";
     TripRequest.travel_days := 31;
     TripRequest.transportation := "public_transit";
     TripRequest.accommodation := "budget_hotel";
     TripRequest.preferences := [];
     TripRequest.free_text_input := "" |}.

(** [s.split(sep)[0]]: the text of [s] before the first occurrence of [sep],
    all of [s] when [sep] does not occur. *)
Definition before (sep s : string) : string :=
  match Str.cut sep s with
  | Some (b, _) => b
  | None => s
  end.

(** The text of [s] after the first occurrence of [sep]. *)
Definition after (sep s : string) : string :=
  match Str.cut sep s with
  | Some (_, a) => a
  | None => EmptyString
  end.

(** [sep] occurs in [s] for the first time after [pre], and [rest] follows
    it: [sep] occurs in [pre ++ sep] at the end only. *)
Definition first_occurrence (sep s pre rest : string) : Prop :=
  s = pre +:+ sep +:+ rest
  /\ forall a b, pre +:+ sep = a +:+ sep +:+ b -> b = EmptyString.

(** Three answers of the engine: a [json] block inside prose, a bare block,
    and a bare JSON object. *)
Definition answer_json_block : string :=
  "Here is the plan:" +:+ newline +:+ "```json" +:+ newline +:+ "{}" +:+ newline
  +:+ "```" +:+ newline +:+ "Enjoy the trip.".



(** *** The cache in memory and in Redis *)

Section CacheNotions.

Context {V : Type} `{Pickle V}.

(** [ttl or self.settings.cache_ttl_default]. *)
Definition effective_ttl (self : CacheService V) (ttl : option Z) : Z :=
  match ttl with
  | Some t => if t =? 0 then cache_ttl_default (cs_settings self) else t
  | None => cache_ttl_default (cs_settings self)
  end.

(** The world after [set] has stored an entry in memory. *)
Definition stored (self : CacheService V) (w : World V) (key : string) (v : V)
    (ttl : option Z) : World V :=
  set_cache_service
    (Some (Cache.set_memory_cache
             (<[key := {| value := v;
                          expires := (clock w (clock_reads w)
                                      + inject_Z (effective_ttl self ttl))%Q |}]>
                (memory_cache self)) self))
    (set_clock_reads (S (clock_reads w)) w).

(** The entry under [key] holds [v], in a cache that works in memory. *)
Definition holds (key : string) (v : V) (w : World V) : Prop :=
  exists self entry,
    Cache.in_memory self w
    /\ memory_cache self !! key = Some entry
    /\ value entry = v.

(** The service keeps its entries in Redis: it is enabled, the server
    answers, and the connection is made or can be made. *)
Definition in_redis (self : CacheService V) (w : World V) : Prop :=
  cache_service w = Some self
  /\ enabled self = true
  /\ redis_up (redis w) = true
  /\ (redis_client self = Some tt \/ cs_redis_url self <> "").

Definition connected (self : CacheService V) : CacheService V :=
  Cache.set_redis_client (Some tt) self.

(** What [get] returns through Redis at the world [w]: the value of the
    key when Redis holds it, its time has not come and it unpickles; the
    entry in memory when Redis has no value for the key. *)
Definition read_through (self : CacheService V) (w : World V) (key : string)
    : option V :=
  let in_memory := value <$> memory_cache self !! key in
  match redis_keys (redis w) !! key with
  | Some (data, expiry) =>
      if Qle_bool expiry (clock w (clock_reads w)) then in_memory
      else if bool_decide (data = "") then in_memory
      else match pickle_loads data with
           | Ok v => Some v
           | Raise _ => None
           end
  | None => in_memory
  end.

(** The world after [set] has written a key to Redis. *)
Definition written (self : CacheService V) (w : World V) (key data : string) (ttl : Z)
    : World V :=
  set_redis
    {| redis_up := true;
       redis_keys := <[key := (data, (clock w (clock_reads w) + inject_Z ttl)%Q)]>
                       (redis_keys (redis w)) |}
    (set_clock_reads (S (clock_reads w)) (set_cache_service (Some (connected self)) w)).

End CacheNotions.

Arguments effective_ttl : simpl never.

(** The cache service of a world: the global instance, or the one
    [get_cache_service] makes from the settings when there is none yet. *)
Definition service_of {V} (w : World V) : CacheService V :=
  match cache_service w with
  | Some self => self
  | None =>
      {| cs_settings := settings w;
         redis_client := None;
         memory_cache := ∅;
         cs_redis_url := redis_url (settings w);
         enabled := cache_enabled (settings w) |}
  end.

(** The cache of the world keeps its entries in memory. *)
Definition keeps_in_memory {V} (w : World V) : Prop :=
  enabled (service_of w) = true
  /\ redis_client (service_of w) = None
  /\ (cs_redis_url (service_of w) = "" \/ redis_up (redis w) = false).

(** The cache of the world keeps its entries in Redis. *)
Definition keeps_in_redis {V} (w : World V) : Prop :=
  enabled (service_of w) = true
  /\ redis_up (redis w) = true
  /\ (redis_client (service_of w) = Some tt \/ cs_redis_url (service_of w) <> "").

(** The world after a reading of the clock, and the elapsed time a node
    computes from its start time at a world. *)
Definition tick {V} (w : World V) : World V := set_clock_reads (S (clock_reads w)) w.

Definition elapsed_at {V} (start_time : Q) (w : World V) : Z :=
  Py.int_of_Q ((clock w (clock_reads w) - start_time) * 1000).

(** *** What the data-gathering steps owe *)

(** What a data-gathering step owes its caller. On every state that holds a
    request the node returns an update, with its elapsed time in the
    timings. When its [try] block raises, wherever in the block, the update
    has status [failed], an empty result list and the text of the error;
    when the block returns, the update is what the block returned, with
    status [completed]. *)
Definition step_contract
    (node : TripPlanningState -> M (list pyobj) TripPlanningState)
    (try_block : TripPlanningState -> TripRequest.t -> Q
                 -> M (list pyobj) TripPlanningState)
    (name : string) (result : TripPlanningState -> option (list pyobj)) : Prop :=
  forall (st : TripPlanningState) (req : TripRequest.t) (w : World (list pyobj)),
    State.request st = Some req ->
    exists u w',
      node st w = (Ok u, w')
      /\ (exists ms,
            State.node_timings u = Some (with_entry (State.node_timings st) name ms))
      /\ match try_block st req (clock w (clock_reads w))
                 (set_clock_reads (S (clock_reads w)) w) with
         | (Raise e, _) =>
             State.node_status u = Some (with_entry (State.node_status st) name "failed")
             /\ result u = Some []
             /\ State.node_errors u
                = Some (with_entry (State.node_errors st) name (exn_str e))
         | (Ok u0, _) =>
             u = u0
             /\ State.node_status u
                = Some (with_entry (State.node_status st) name "completed")
         end.

Section StepNotions.

Context `{Externals} `{Pickle (list pyobj)}.

(** The result key and the result field of a step agree, and the result
    key is not one of the bookkeeping keys. *)
Definition coherent (sp : Step) : Prop :=
  forall st l ms,
    step_result sp (completed_update sp st l ms) = Some l
    /\ State.node_status (completed_update sp st l ms)
       = Some (with_entry (State.node_status st) (step_name sp) "completed")
    /\ (forall e, step_result sp (failed_update sp st e ms) = Some []).

(** What the second of two calls finds and does. *)
Definition second_call (sp : Step) (st' : TripPlanningState) (req : TripRequest.t)
    (w w1 : World (list pyobj)) (l : list pyobj) : Prop :=
  exists u' w2,
    gather cache_service_api sp st' w1 = (Ok u', w2)
    /\ trace w2 = trace w1
    /\ step_result sp u' = Some l
    /\ State.node_status u'
       = Some (with_entry (State.node_status st') (step_name sp) "completed")
    /\ trace w2 = (trace w ++ [EvTool (step_call sp req)])%list.

(** The list [l] the first call found survives in the cache of the world
    [w] until the second call: in memory, when it pickles; in Redis, when
    it pickles to bytes that unpickle to it, and the second call reads the
    key (at the fifth reading of the clock from [w]) before the time to
    live, counted from the write (at the second reading), is over. *)
Definition survives (w : World (list pyobj)) (l : list pyobj) (ttl : Z) : Prop :=
  (keeps_in_memory w /\ Py.is_ok (pickle_dumps l) = true)
  \/ (keeps_in_redis w
      /\ (exists data, pickle_dumps l = Ok data /\ data <> "" /\ pickle_loads data = Ok l)
      /\ Qle_bool (clock w (2 + clock_reads w)%nat + inject_Z ttl)
                  (clock w (5 + clock_reads w)%nat) = false).

(** The entry written by the first call, with its time to live: in memory,
    stamped at the first reading of the clock after the start of the call,
    or in Redis, stamped at the second. *)
Definition written_with_ttl (w w1 : World (list pyobj)) (key : string)
    (l : list pyobj) (ttl : Z) : Prop :=
  memory_cache (service_of w1) !! key
  = Some {| value := l;
            expires := (clock w (1 + clock_reads w)%nat + inject_Z ttl)%Q |}
  \/ exists data,
       pickle_dumps l = Ok data
       /\ redis_keys (redis w1) !! key
          = Some (data, (clock w (2 + clock_reads w)%nat + inject_Z ttl)%Q).

(** Two calls of a step on the same request. When the first call invoked
    the provider and completed with a non-empty list that survives in the
    cache, it wrote the list under the key with the time to live, and the
    second call returns the list with status [completed] without invoking
    the provider: the two calls together invoked it once. *)
Definition serves_from_cache
    (node : TripPlanningState -> M (list pyobj) TripPlanningState)
    (result : TripPlanningState -> option (list pyobj))
    (name : string) (key : TripRequest.t -> string) (ttl : Z) : Prop :=
  forall (st st' : TripPlanningState) (req : TripRequest.t)
         (w w1 : World (list pyobj)) (u : TripPlanningState) (l : list pyobj),
    State.request st = Some req -> State.request st' = Some req ->
    node st w = (Ok u, w1) ->
    result u = Some l -> l <> [] ->
    trace w1 <> trace w ->
    survives w l ttl ->
    written_with_ttl w w1 (key req) l ttl
    /\ exists u' w2,
         node st' w1 = (Ok u', w2)
         /\ trace w2 = trace w1
         /\ result u' = Some l
         /\ State.node_status u'
            = Some (with_entry (State.node_status st') name "completed")
         /\ exists call, trace w2 = (trace w ++ [EvTool call])%list.

End StepNotions.

(** *** More worlds and states *)

(** The concrete world with the cache switched off in the settings. *)
Definition demo_world_cache_off : World (list pyobj) :=
  {| clock := clock demo_world;
     clock_reads := 0;
     settings := {| redis_url := ""; cache_enabled := false; cache_ttl_default := 3600 |};
     cache_service := None;
     redis := redis demo_world;
     tool_answer := tool_answer demo_world;
     llm_answer := llm_answer demo_world;
     uuid4 := uuid4 demo_world;
     uuids_drawn := 0;
     trace := [] |}.

(** The concrete world once the cache service is made. *)
Definition demo_world_started : World (list pyobj) :=
  set_cache_service (Some (service_of demo_world)) demo_world.

(** The concrete world with a provider that finds no place. *)
Definition demo_world_no_pois : World (list pyobj) :=
  {| clock := clock demo_world;
     clock_reads := 0;
     settings := settings demo_world;
     cache_service := None;
     redis := redis demo_world;
     tool_answer := fun _ _ => Ok "{}";
     llm_answer := llm_answer demo_world;
     uuid4 := uuid4 demo_world;
     uuids_drawn := 0;
     trace := [] |}.

(** The state a run starts from on the Beijing request. *)
Definition beijing_state : TripPlanningState :=
  create_initial_state (Some "user-1") beijing_request.


(** ** Notions for the further properties *)

(** The entries [clear] leaves in the memory of the cache. *)
Definition cleared {V} (prefix : option string) (entries : gmap string (MemEntry V))
    : gmap string (MemEntry V) :=
  match prefix with
  | Some (String _ _ as prefix) =>
      foldr base.delete entries
        (List.filter (Str.is_prefix (prefix +:+ ":")) (map fst (map_to_list entries)))
  | _ => ∅
  end.

(** The number of the steps whose status satisfies [p]. *)
Definition count_where (p : string -> bool) (st : TripPlanningState) : Z :=
  Z.of_nat (length (List.filter p (map snd (map_to_list (State.get (node_status st) ∅))))).

(** A status that has a count of its own, other than [pending]. *)
Definition known_status (s : string) : bool :=
  bool_decide (s = "in_progress") || bool_decide (s = "completed")
  || bool_decide (s = "failed").

(** A node that, when it returns, has set its own status to [completed]
    or [failed] and has left the statuses of the other steps as they were:
    the gate on its update, asked about the node and other steps, is the
    gate on the state it was given for the other steps, and the node's
    own completion. *)
Definition keeps_other_statuses
    (node : TripPlanningState -> M (list pyobj) TripPlanningState) (name : string) : Prop :=
  forall (st : TripPlanningState) (req : TripRequest.t) (w w' : World (list pyobj))
         (u : TripPlanningState),
    State.request st = Some req ->
    node st w = (Ok u, w') ->
    (exists s, (s = "completed" \/ s = "failed")
               /\ State.get (State.node_status u) ∅ !! name = Some s)
    /\ (forall m, m <> name ->
          State.get (State.node_status u) ∅ !! m = State.get (State.node_status st) ∅ !! m)
    /\ (forall nodes, ~ In name nodes ->
          is_all_parallel_nodes_completed u (name :: nodes)
          = bool_decide (State.get (State.node_status u) ∅ !! name = Some "completed")
            && is_all_parallel_nodes_completed st nodes).

(** A node whose [try] block raises reports the failure, and its update
    shows a critical error exactly when the text of the exception is not
    empty (the state it was given showing none). *)
Definition flags_failures
    (node : TripPlanningState -> M (list pyobj) TripPlanningState)
    (try_block : TripPlanningState -> TripRequest.t -> Q
                 -> M (list pyobj) TripPlanningState)
    (name : string) : Prop :=
  forall (st : TripPlanningState) (req : TripRequest.t) (w w0 : World (list pyobj))
         (e : exn),
    State.request st = Some req ->
    has_critical_errors st = false ->
    try_block st req (clock w (clock_reads w)) (tick w) = (Raise e, w0) ->
    exists u w',
      node st w = (Ok u, w')
      /\ State.get (State.node_status u) ∅ !! name = Some "failed"
      /\ has_critical_errors u = negb (bool_decide (exn_str e = "")).

(** The cache of the world holds nothing, or an empty list, under the key. *)
Definition nothing_to_serve (w : World (list pyobj)) (key : string) : Prop :=
  value <$> memory_cache (service_of w) !! key = None
  \/ value <$> memory_cache (service_of w) !! key = Some [].

(** A node that asks the provider although its key is in the cache, with
    an empty list. *)
Definition refetches_empty
    (node : TripPlanningState -> M (list pyobj) TripPlanningState)
    (key : TripRequest.t -> string) (call : TripRequest.t -> ToolCall) : Prop :=
  forall (st : TripPlanningState) (req : TripRequest.t) (w : World (list pyobj)),
    State.request st = Some req ->
    keeps_in_memory w ->
    value <$> memory_cache (service_of w) !! key req = Some [] ->
    exists u w',
      node st w = (Ok u, w')
      /\ trace w' = (trace w ++ [EvTool (call req)])%list.



(** The attraction the attractions node makes of a place the map service
    found: the identifier of the place is not among what the tool hands
    on. *)
Definition attraction_of (poi : POIInfo.t) : pyobj :=
  PAttraction
    {| Attraction.name := POIInfo.name poi;
       Attraction.address := POIInfo.address poi;
       Attraction.location := POIInfo.location poi;
       Attraction.visit_duration := 120;
       Attraction.description := POIInfo.type poi +:+ " - " +:+ POIInfo.address poi;
       Attraction.category := Some (POIInfo.type poi);
       Attraction.poi_id := Some "";
       Attraction.ticket_price := None |}.

(** The hotel the lodging node makes of a place the map service found. *)
Definition hotel_of (poi : POIInfo.t) : pyobj :=
  PHotel
    {| Hotel.name := POIInfo.name poi;
       Hotel.address := POIInfo.address poi;
       Hotel.location := Some (POIInfo.location poi);
       Hotel.type := Some (POIInfo.type poi);
       Hotel.price_range := Some "";
       Hotel.rating := Some "";
       Hotel.distance := Some "";
       Hotel.estimated_cost := None |}.

(** The validation of the models accepts a value that has the type of the
    field, and [str()] of a text is the text. *)
Definition validation_accepts `{Externals} : Prop :=
  (forall s, validate_str (JStr s) = Ok s)
  /\ (forall n, validate_int (JInt n) = Ok n)
  /\ (forall q, validate_float (JFloat q) = Ok q)
  /\ (forall s, str_of_json (JStr s) = s).

(** What [fetch] returns and does in the world [w]. *)
Definition fetched `{Externals} (sp : Step) (req : TripRequest.t) (w : World (list pyobj))
    (found : list pyobj) : Prop :=
  fetch sp req w
  = (Ok found, set_trace (trace w ++ [EvTool (step_call sp req)])%list w).

(** *** Worlds and values of the examples *)

(** A glob matching: the pattern [p*] matches the keys that begin with
    [p]. *)
Definition demo_glob_match (pattern key : string) : bool :=
  Str.is_prefix (String.substring 0 (String.length pattern - 1)%nat pattern) key.

(** The world with the cache switched off, and the world with a Redis
    server that answers, once the cache service is made. *)
Definition demo_world_cache_off_started : World (list pyobj) :=
  set_cache_service (Some (service_of demo_world_cache_off)) demo_world_cache_off.

Definition demo_world_redis_started : World (list pyobj) :=
  set_cache_service (Some (service_of demo_world_redis)) demo_world_redis.

(** The concrete world with two entries in the memory of the cache. *)
Definition demo_world_two_entries : World (list pyobj) :=
  Eval vm_compute in
    snd (Cache.run_ops
           [Cache.OpSet "weather:Beijing" [forbidden_city] (Some 1800);
            Cache.OpSet "hotels:Beijing:budget_hotel" [forbidden_city] (Some 7200)]
           demo_world_started).

(** The same world once the Redis server answers. *)
Definition demo_world_redis_back : World (list pyobj) :=
  set_redis {| redis_up := true; redis_keys := ∅ |} demo_world_two_entries.

(** A stand-in for the digest of the key, and a function to decorate: the
    sights of the city that is its first argument. *)
Definition demo_digest (prefix : string) (args : list string)
    (kwargs : list (string * string)) : string :=
  String.concat "," args.

Definition demo_search (args : list string) (kwargs : list (string * string))
    : M (list pyobj) (list pyobj) :=
  mret [PAttraction
          {| Attraction.name := "The sights of " +:+ hd "" args;
             Attraction.address := hd "" args;
             Attraction.location := Location.mk 0 0;
             Attraction.visit_duration := 120;
             Attraction.description := "";
             Attraction.category := None;
             Attraction.poi_id := None;
             Attraction.ticket_price := None |}].




(** What the map service finds in the examples: a forecast of two days and
    two places, one of them a hotel. *)
Definition forecast_sunday : WeatherInfo.t :=
  WeatherInfo.mk "2025-06-01" "sunny" "clear" 31 19 "south" "3".

Definition forecast_monday : WeatherInfo.t :=
  WeatherInfo.mk "2025-06-02" "cloudy" "rain" 27 18 "east" "4".

Definition palace_hotel : POIInfo.t :=
  {| POIInfo.id := "B000A83M61";
     POIInfo.name := "Palace Hotel";
     POIInfo.type := "住宿服务;宾馆酒店";
     POIInfo.address := "1 Palace Rd";
     POIInfo.location := Location.mk 116.41 39.91;
     POIInfo.tel := None |}.

Definition tea_house : POIInfo.t :=
  {| POIInfo.id := "B000A7BD6C";
     POIInfo.name := "Tea House";
     POIInfo.type := "餐饮服务;茶艺馆";
     POIInfo.address := "2 Palace Rd";
     POIInfo.location := Location.mk 116.42 39.92;
     POIInfo.tel := Some "010-0000" |}.

(** A decoder that knows the answers of the three tools on these. *)
Definition tools_externals : Externals :=
  {| json_loads := fun s =>
       if String.eqb s "weather.json" then
         Ok (Tools.query_weather_result "Beijing" [forecast_sunday; forecast_monday])
       else if String.eqb s "pois.json" then
         Ok (Tools.search_poi_result [palace_hotel; tea_house])
       else if String.eqb s "hotels.json" then
         Ok (Tools.search_hotels_result [palace_hotel; tea_house])
       else Raise (Exn "json.decoder.JSONDecodeError" "Expecting value");
     str_of_json := @str_of_json demo_externals;
     validate_str := @validate_str demo_externals;
     validate_int := @validate_int demo_externals;
     validate_float := @validate_float demo_externals |}.

Definition tools_world : World (list pyobj) :=
  {| clock := clock demo_world;
     clock_reads := 0;
     settings := settings demo_world;
     cache_service := None;
     redis := redis demo_world;
     tool_answer := fun _ call =>
       match call with
       | search_poi _ _ _ => Ok "pois.json"
       | query_weather _ => Ok "weather.json"
       | search_hotels _ _ => Ok "hotels.json"
       end;
     llm_answer := llm_answer demo_world;
     uuid4 := uuid4 demo_world;
     uuids_drawn := 0;
     trace := [] |}.

(** The concrete world with providers that fail with an exception whose
    text is empty, as a timeout is. *)
Definition demo_world_silent : World (list pyobj) :=
  {| clock := clock demo_world;
     clock_reads := 0;
     settings := settings demo_world;
     cache_service := None;
     redis := redis demo_world;
     tool_answer := fun _ _ => Raise (Exn "asyncio.exceptions.TimeoutError" "");
     llm_answer := llm_answer demo_world;
     uuid4 := uuid4 demo_world;
     uuids_drawn := 0;
     trace := [] |}.

(** The world after a first call of the attractions node that found
    nothing. *)
Definition demo_world_nothing_found : World (list pyobj) :=
  Eval vm_compute in
    snd (attraction_node cache_service_api beijing_state demo_world_no_pois).


(** * Properties *)

(** ** Running the monad *)

Ltac unfold_monad :=
  unfold mbind, mret, M_bind, M_ret, lift, raise, try_except, elapsed_ms, time_time in *.

(** Case analysis on the outcome of the next call of a node. *)
Ltac next_call :=
  match goal with
  | |- context [State.getitem ?k ?f] => destruct (State.getitem k f)
  | |- context [api_get_cache_service ?c ?w] =>
      destruct (api_get_cache_service c w) as [[[]|?] ?]
  | |- context [api_get ?c ?k ?w] =>
      destruct (api_get c k w) as [[[[|? ?]|]|?] ?]
  | |- context [api_set ?c ?k ?v ?t ?w] =>
      destruct (api_set c k v t w) as [[?|?] ?]
  | |- context [tool_answer ?w ?n ?c] => destruct (tool_answer w n c)
  | |- context [json_loads ?s] => destruct (json_loads s)
  | |- context [Json.get ?a ?b ?c] => destruct (Json.get a b c)
  | |- context [Json.iter ?a] => destruct (Json.iter a)
  | |- context [Py.mapM ?f ?l] => destruct (Py.mapM f l)
  end.

Section NodeShape.
Context `{Externals}.
Variable cache : CacheAPI.

Lemma attraction_node_gather st w :
  attraction_node cache st w = gather cache attraction_step st w.
Proof.
  unfold attraction_node, gather, attraction_try, gather_try, fetch, tool_ainvoke.
  unfold_monad. cbn.
  repeat (next_call; cbn; try reflexivity).
Qed.

Lemma weather_node_gather st w :
  weather_node cache st w = gather cache weather_step st w.
Proof.
  unfold weather_node, gather, weather_try, gather_try, fetch, tool_ainvoke.
  unfold_monad. cbn.
  repeat (next_call; cbn; try reflexivity).
Qed.

Lemma hotel_node_gather st w :
  hotel_node cache st w = gather cache hotel_step st w.
Proof.
  unfold hotel_node, gather, hotel_try, gather_try, fetch, tool_ainvoke.
  unfold_monad. cbn.
  repeat (next_call; cbn; try reflexivity).
Qed.
End NodeShape.

(** ** The completion gate *)





(** ** The fallback itinerary *)

Lemma sum_cons x xs : Py.sum (x :: xs) = x + Py.sum xs.
Proof.
  unfold Py.sum. cbn [fold_left].
  assert (Hacc : forall l a, fold_left Z.add l a = a + fold_left Z.add l 0).
  { induction l as [|y l IH]; intros a; cbn [fold_left]; [lia|].
    rewrite (IH (a + y)), (IH (0 + y)). lia. }
  rewrite Hacc. lia.
Qed.

Lemma sum_constant {A} (f : A -> Z) (c : Z) (xs : list A) :
  Forall (fun x => f x = c) xs ->
  Py.sum (map f xs) = c * Z.of_nat (length xs).
Proof.
  induction 1 as [|x xs Hx _ IH].
  - simpl. unfold Py.sum. simpl. lia.
  - cbn [map length]. rewrite sum_cons, IH, Hx. lia.
Qed.

Lemma days_in_month_bounds y m : 28 <= Date.days_in_month y m <= 31.
Proof. unfold Date.days_in_month. repeat case_match; lia. Qed.

Lemma days_before_month_nonneg y m : 0 <= Date.days_before_month y m.
Proof.
  unfold Date.days_before_month.
  generalize (map Z.of_nat (seq 1 (Z.to_nat (m - 1)))). intros l.
  induction l as [|x l IH]; [unfold Py.sum; simpl; lia|].
  cbn [map]. rewrite sum_cons. pose proof (days_in_month_bounds y x). lia.
Qed.

Lemma days_before_year_nonneg y : 1 <= y -> 0 <= Date.days_before_year y.
Proof.
  intros Hy. unfold Date.days_before_year. cbn zeta.
  assert ((y - 1) / 100 <= (y - 1) / 4) by (apply Z.div_le_compat_l; lia).
  assert (0 <= (y - 1) / 400) by (apply Z.div_pos; lia).
  nia.
Qed.

Lemma take_field_positive hi s v rest :
  Date.take_field hi s = Some (v, rest) -> 1 <= v.
Proof.
  unfold Date.take_field. intros Hs.
  repeat case_match; simplify_eq; lia.
Qed.

(** A start date that parses is a date of the calendar: its ordinal is at
    least 1. *)
Lemma strptime_ordinal_positive s d :
  Date.strptime s = Ok d -> 1 <= Date.toordinal d.
Proof.
  unfold Date.strptime. intros Hs.
  repeat case_match; simplify_eq.
  unfold Date.toordinal. cbn [Date.year Date.month Date.day].
  match goal with
  | Hf : Date.take_field 31 _ = Some (?dd, _) |- _ =>
      pose proof (take_field_positive _ _ _ _ Hf)
  end.
  match goal with
  | |- 1 <= Date.days_before_year ?y + Date.days_before_month ?y ?m + _ =>
      pose proof (days_before_month_nonneg y m);
      assert (0 <= Date.days_before_year y) by (apply days_before_year_nonneg; lia)
  end.
  lia.
Qed.

Lemma fallback_day_ok req start i :
  0 < Date.toordinal start + i <= Date.MAXORDINAL ->
  exists d, fallback_day req start i = Ok d /\ fallback_day_shape d.
Proof.
  intros Hrange. unfold fallback_day, Date.add_days.
  replace (0 <? Date.toordinal start + i) with true by (symmetry; apply Z.ltb_lt; lia).
  replace (Date.toordinal start + i <=? Date.MAXORDINAL) with true
    by (symmetry; apply Z.leb_le; lia).
  eexists. split; [reflexivity|]. split; reflexivity.
Qed.

Lemma fallback_days_ok req start n k :
  (forall i, Z.of_nat k <= i < Z.of_nat k + Z.of_nat n ->
             0 < Date.toordinal start + i <= Date.MAXORDINAL) ->
  exists days,
    Py.mapM (fallback_day req start) (map Z.of_nat (seq k n)) = Ok days
    /\ length days = n
    /\ Forall fallback_day_shape days.
Proof.
  revert k. induction n as [|n IH]; intros k Hrange.
  - exists []. repeat split. constructor.
  - cbn [seq map Py.mapM].
    destruct (fallback_day_ok req start (Z.of_nat k)) as (d & Hd & Hshape);
      [apply Hrange; lia|].
    destruct (IH (S k)) as (days & Hdays & Hlen & Hall);
      [intros i Hi; apply Hrange; lia|].
    rewrite Hd, Hdays. exists (d :: days).
    split; [reflexivity|]. split; [simpl; congruence|]. constructor; assumption.
Qed.

(** C5. For a day count from 1 to 30 and a start date that parses (and
    leaves room in the calendar for the days), the fallback generator
    returns an itinerary with one day plan per requested day, two
    attractions and the meals 30, 60 and 100 on each day, the subtotals
    50*2*d, 400*d, 190*d and 100, and a total that is their sum. *)
Theorem fallback_budget :
  forall (req : TripRequest.t) (start : Date.t),
    1 <= TripRequest.travel_days req <= 30 ->
    Date.strptime (TripRequest.start_date req) = Ok start ->
    Date.toordinal start + TripRequest.travel_days req - 1 <= Date.MAXORDINAL ->
    exists plan,
      create_fallback_plan req = Ok plan
      /\ Z.of_nat (length (TripPlan.days plan)) = TripRequest.travel_days req
      /\ Forall fallback_day_shape (TripPlan.days plan)
      /\ Budget.total_attractions (TripPlan.budget plan)
         = 50 * 2 * TripRequest.travel_days req
      /\ Budget.total_hotels (TripPlan.budget plan) = 400 * TripRequest.travel_days req
      /\ Budget.total_meals (TripPlan.budget plan) = 190 * TripRequest.travel_days req
      /\ Budget.total_transportation (TripPlan.budget plan) = 100
      /\ Budget.total (TripPlan.budget plan)
         = Budget.total_attractions (TripPlan.budget plan)
           + Budget.total_hotels (TripPlan.budget plan)
           + Budget.total_meals (TripPlan.budget plan)
           + Budget.total_transportation (TripPlan.budget plan).
Proof.
  intros req start Hdays Hstart Hroom.
  pose proof (strptime_ordinal_positive _ _ Hstart) as Hpos.
  destruct (fallback_days_ok req start (Z.to_nat (TripRequest.travel_days req)) 0)
    as (days & Hdays_ok & Hlen & Hall); [intros i Hi; lia|].
  unfold create_fallback_plan. rewrite Hstart. cbn [mbind result_bind].
  unfold Py.range. rewrite Hdays_ok. cbn [mbind result_bind mret result_ret].
  eexists. split; [reflexivity|].
  cbn [TripPlan.days TripPlan.budget Budget.total_attractions Budget.total_hotels
         Budget.total_meals Budget.total_transportation Budget.total].
  assert (Hattr : Py.sum (map (fun d => Z.of_nat (length (DayPlan.attractions d)) * 50) days)
                  = 100 * Z.of_nat (length days)).
  { apply sum_constant. eapply Forall_impl; [exact Hall|].
    intros d [Hd _]. cbn beta. rewrite Hd. reflexivity. }
  assert (Hmeals : Py.sum (map (fun d => Py.sum (map Meal.estimated_cost (DayPlan.meals d)))
                             days)
                   = 190 * Z.of_nat (length days)).
  { apply sum_constant. eapply Forall_impl; [exact Hall|].
    intros d [_ Hd]. cbn beta. rewrite Hd. reflexivity. }
  rewrite Hattr, Hmeals, Hlen.
  repeat split; try lia. exact Hall.
Qed.

(** The scenario of the specification: Beijing, three days from
    2025-06-01. *)
Lemma fallback_budget_witness :
  exists plan,
    create_fallback_plan beijing_request = Ok plan
    /\ length (TripPlan.days plan) = 3%nat
    /\ Forall fallback_day_shape (TripPlan.days plan)
    /\ TripPlan.budget plan = Budget.mk 300 1200 570 100 2170.
Proof.
  destruct (fallback_budget beijing_request (Date.mk 2025 6 1))
    as (plan & Hplan & Hlen & Hall & Ha & Hh & Hm & Ht & Htotal).
  - simpl. lia.
  - reflexivity.
  - vm_compute. discriminate.
  - exists plan. split; [exact Hplan|]. split; [simpl in Hlen; lia|].
    split; [exact Hall|].
    destruct (TripPlan.budget plan) as [a h m t total].
    simpl in *. subst. reflexivity.
Defined.

(** ** The planning service and the route *)

Section Entry.

Variable graph_ainvoke :
  TripPlanningState -> string -> M (list pyobj) TripPlanningState.

(** [plan_trip] of the service raises on every request: the call of
    [create_initial_state] passes a keyword [trace_id] the function does
    not have, and the handler re-raises. *)
Lemma service_plan_trip_raises req user w :
  exists w',
    TripPlanningService.plan_trip graph_ainvoke req user w
    = (Raise (TypeError
                "create_initial_state() got an unexpected keyword argument 'trace_id'"),
       w').
Proof. eexists. reflexivity. Qed.

Lemma route_plan_trip_rejects req user w :
  TripRequest.travel_days req < 1 \/ 30 < TripRequest.travel_days req ->
  trip_v2.plan_trip graph_ainvoke req user w
  = (Ok (trip_v2.HTTPException 400 "旅行天数必须在1-30天之间"), w).
Proof.
  intros Hout. unfold trip_v2.plan_trip. unfold_monad.
  replace ((TripRequest.travel_days req <? 1) || (30 <? TripRequest.travel_days req))
    with true; [reflexivity|].
  symmetry. apply orb_true_iff. rewrite !Z.ltb_lt. exact Hout.
Qed.

Lemma route_plan_trip_proceeds req user w :
  1 <= TripRequest.travel_days req <= 30 ->
  trip_v2.plan_trip graph_ainvoke req user w
  = match TripPlanningService.plan_trip graph_ainvoke req user w with
    | (Ok trip_plan, w') =>
        (Ok (trip_v2.Returned
               {| trip_v2.success := true;
                  trip_v2.message := "旅行计划生成成功";
                  trip_v2.data := trip_plan |}), w')
    | (Raise e, w') =>
        (Ok (if trip_v2.isinstance e trip_v2.ValidationError
             then trip_v2.HTTPException 400 (exn_str e)
             else if trip_v2.isinstance e trip_v2.TripPlanningError
             then trip_v2.HTTPException 500 ("生成旅行计划失败: " +:+ exn_str e)
             else trip_v2.HTTPException 500 "服务器内部错误，请稍后重试"), w')
    end.
Proof.
  intros Hin. unfold trip_v2.plan_trip. unfold_monad.
  replace ((TripRequest.travel_days req <? 1) || (30 <? TripRequest.travel_days req))
    with false.
  2:{ symmetry. apply orb_false_iff. rewrite !Z.ltb_ge. lia. }
  destruct (TripPlanningService.plan_trip graph_ainvoke req user w) as [[p|e] w'].
  - reflexivity.
  - repeat case_match; reflexivity.
Qed.

(** On the request of the specification's scenario, whatever the graph and
    the world, [plan_trip] of the planning service returns no itinerary: it
    raises the [TypeError] of the call
    [create_initial_state(request=..., trace_id=..., user_id=...)], before
    the graph is invoked. *)
Lemma planning_run_raises :
  forall (w : World (list pyobj)),
  exists w',
    TripPlanningService.plan_trip graph_ainvoke beijing_request (Some "user-1") w
    = (Raise (TypeError
                "create_initial_state() got an unexpected keyword argument 'trace_id'"),
       w')
    /\ trace w' = trace w.
Proof. intros w. eexists. split; reflexivity. Qed.

(** C7. A request whose day count is below 1 or above 30 is rejected by
    the route with status 400 and the validation message, and nothing
    else happens: the world is left as it was, so neither the service nor
    the graph nor any step ran. A request whose day count is within 1 to
    30 passes the check: the outcome of the route is that of the planning
    service. *)
Theorem route_validates_day_count :
  forall (req : TripRequest.t) (user : option string) (w : World (list pyobj)),
    (TripRequest.travel_days req < 1 \/ 30 < TripRequest.travel_days req ->
     trip_v2.plan_trip graph_ainvoke req user w
     = (Ok (trip_v2.HTTPException 400 "旅行天数必须在1-30天之间"), w))
    /\ (1 <= TripRequest.travel_days req <= 30 ->
        trip_v2.plan_trip graph_ainvoke req user w
        = match TripPlanningService.plan_trip graph_ainvoke req user w with
          | (Ok trip_plan, w') =>
              (Ok (trip_v2.Returned
                     {| trip_v2.success := true;
                        trip_v2.message := "旅行计划生成成功";
                        trip_v2.data := trip_plan |}), w')
          | (Raise e, w') =>
              (Ok (if trip_v2.isinstance e trip_v2.ValidationError
                   then trip_v2.HTTPException 400 (exn_str e)
                   else if trip_v2.isinstance e trip_v2.TripPlanningError
                   then trip_v2.HTTPException 500 ("生成旅行计划失败: " +:+ exn_str e)
                   else trip_v2.HTTPException 500 "服务器内部错误，请稍后重试"), w')
          end).
Proof.
  intros req user w. split.
  - apply route_plan_trip_rejects.
  - apply route_plan_trip_proceeds.
Qed.

End Entry.

Lemma route_validates_day_count_witness :
  trip_v2.plan_trip idle_graph request_31_days None demo_world
  = (Ok (trip_v2.HTTPException 400 "旅行天数必须在1-30天之间"), demo_world)
  /\ fst (trip_v2.plan_trip idle_graph beijing_request None demo_world)
     = Ok (trip_v2.HTTPException 500 "服务器内部错误，请稍后重试").
Proof.
  split.
  - apply (proj1 (route_validates_day_count idle_graph request_31_days None demo_world)).
    right. simpl. lia.
  - rewrite (proj2 (route_validates_day_count idle_graph beijing_request None demo_world)).
    + reflexivity.
    + simpl. lia.
Defined.

(** ** The synthesis node *)

Section Synthesis.

Context `{Externals}.
Variable PLANNER_SYSTEM_PROMPT : string.

(** The synthesis node raises on every state that holds a request: its
    call of the gate gives the state and no list of nodes, and the call
    is made before the [try]. *)
Lemma planner_node_raises st req w :
  State.request st = Some req ->
  planner_node PLANNER_SYSTEM_PROMPT st w
  = (Raise (TypeError
              "is_all_parallel_nodes_completed() missing 1 required positional argument: 'nodes'"),
     set_clock_reads (S (clock_reads w)) w).
Proof.
  intros Hreq. unfold planner_node. unfold_monad. rewrite Hreq. reflexivity.
Qed.

(** What the [try] block of the node does when it is reached with no
    attractions: the fallback itinerary, with no call of the engine. *)
Lemma planner_try_without_attractions st req start_time plan w :
  State.get (State.attractions st) [] = [] ->
  create_fallback_plan req = Ok plan ->
  exists u w',
    planner_try PLANNER_SYSTEM_PROMPT st req start_time w = (Ok u, w')
    /\ State.trip_plan u = Some plan
    /\ State.fallback_activated u = Some true
    /\ State.node_status u
       = Some (with_entry (State.node_status st) "generate_plan" "completed")
    /\ trace w' = trace w.
Proof.
  intros Hnone Hplan. unfold planner_try. rewrite Hnone, Hplan.
  unfold_monad. do 2 eexists. repeat split.
Qed.

(** C2 (the code departs from it). In the state where the attractions step
    completed with a place found and the weather step failed, the
    synthesis node does not run to completion: it raises the [TypeError]
    of its call of the gate and produces no itinerary. *)
Theorem synthesis_raises_after_weather_failure :
  forall (w : World (list pyobj)),
    State.get (State.node_status weather_failed_state) ∅ !! "search_attractions"
      = Some "completed"
    /\ State.get (State.node_status weather_failed_state) ∅ !! "query_weather"
       = Some "failed"
    /\ State.weather weather_failed_state = Some []
    /\ planner_node PLANNER_SYSTEM_PROMPT weather_failed_state w
       = (Raise (TypeError
                   "is_all_parallel_nodes_completed() missing 1 required positional argument: 'nodes'"),
          set_clock_reads (S (clock_reads w)) w).
Proof.
  intros w. split; [reflexivity|]. split; [reflexivity|]. split; [reflexivity|].
  apply planner_node_raises with (req := beijing_request). reflexivity.
Qed.

(** C4 (the code departs from it). In the state where the three steps
    completed and the attractions list is empty, the gate, asked about the
    three steps, reports readiness; the synthesis node makes no call of
    the engine, and returns no fallback itinerary either: it raises the
    [TypeError] of its call of the gate. *)
Theorem synthesis_raises_without_attractions :
  forall (w : World (list pyobj)),
    is_all_parallel_nodes_completed no_attractions_state required_steps = true
    /\ State.attractions no_attractions_state = Some []
    /\ exists w',
         planner_node PLANNER_SYSTEM_PROMPT no_attractions_state w
         = (Raise (TypeError
                     "is_all_parallel_nodes_completed() missing 1 required positional argument: 'nodes'"),
            w')
         /\ trace w' = trace w.
Proof.
  intros w. split; [vm_compute; reflexivity|]. split; [reflexivity|].
  eexists. split.
  - apply planner_node_raises with (req := beijing_request). reflexivity.
  - reflexivity.
Qed.

End Synthesis.


(** ** The response parser *)

Lemma append_nil (b : string) : EmptyString +:+ b = b.
Proof. reflexivity. Qed.

Lemma append_cons x (a b : string) : String x a +:+ b = String x (a +:+ b).
Proof. reflexivity. Qed.

Lemma append_assoc_s (a b c : string) : (a +:+ b) +:+ c = a +:+ b +:+ c.
Proof.
  induction a as [|x a IH]; [reflexivity|].
  rewrite !append_cons, IH. reflexivity.
Qed.

Lemma append_empty_r (a : string) : a +:+ EmptyString = a.
Proof.
  induction a as [|x a IH]; [reflexivity|]. rewrite append_cons, IH. reflexivity.
Qed.

Lemma length_append_s (a b : string) :
  String.length (a +:+ b) = (String.length a + String.length b)%nat.
Proof.
  induction a as [|x a IH]; [reflexivity|].
  rewrite append_cons. simpl. rewrite IH. reflexivity.
Qed.

Lemma is_prefix_append p s : Str.is_prefix p (p +:+ s) = true.
Proof.
  induction p as [|x p IH]; [reflexivity|].
  rewrite append_cons. simpl. rewrite Ascii.eqb_refl. exact IH.
Qed.

Lemma is_prefix_split p s :
  Str.is_prefix p s = true -> s = p +:+ Str.drop (String.length p) s.
Proof.
  revert s. induction p as [|x p IH]; intros s Hp; [reflexivity|].
  destruct s as [|y s]; [discriminate|]. simpl in Hp.
  destruct (Ascii.eqb x y) eqn:Hxy; [|discriminate].
  apply Ascii.eqb_eq in Hxy. subst y. rewrite append_cons. simpl. f_equal. apply IH, Hp.
Qed.

Lemma drop_append p s : Str.drop (String.length p) (p +:+ s) = s.
Proof.
  induction p as [|x p IH]; [destruct s; reflexivity|].
  rewrite append_cons. simpl. exact IH.
Qed.

(** Unfolding [cut] by one step. *)
Lemma cut_unfold sep s :
  Str.cut sep s =
  if Str.is_prefix sep s then Some (EmptyString, Str.drop (String.length sep) s)
  else match s with
       | EmptyString => None
       | String a s' =>
           match Str.cut sep s' with
           | Some (b, r) => Some (String a b, r)
           | None => None
           end
       end.
Proof. destruct s; reflexivity. Qed.

(** What [cut] returns is a decomposition of the text. *)
Lemma cut_some sep s a b :
  Str.cut sep s = Some (a, b) -> s = a +:+ sep +:+ b.
Proof.
  revert a b. induction s as [|x s IH]; intros a b; rewrite cut_unfold.
  - destruct (Str.is_prefix sep "") eqn:Hp; [|discriminate].
    intros [= <- <-]. rewrite append_nil. apply (is_prefix_split _ _ Hp).
  - destruct (Str.is_prefix sep (String x s)) eqn:Hp.
    + intros [= <- <-]. rewrite append_nil. apply (is_prefix_split _ _ Hp).
    + destruct (Str.cut sep s) as [[a' b']|] eqn:Hcut; [|discriminate].
      intros [= <- <-]. rewrite append_cons. f_equal. apply IH. reflexivity.
Qed.

Lemma contains_unfold sep s :
  Str.contains sep s =
  if Str.is_prefix sep s then true
  else match s with
       | EmptyString => false
       | String _ s' => Str.contains sep s'
       end.
Proof. destruct s; reflexivity. Qed.

Lemma cut_contains sep s :
  Str.contains sep s = match Str.cut sep s with Some _ => true | None => false end.
Proof.
  induction s as [|x s IH]; rewrite contains_unfold, cut_unfold.
  - destruct (Str.is_prefix sep ""); reflexivity.
  - destruct (Str.is_prefix sep (String x s)); [reflexivity|].
    rewrite IH. destruct (Str.cut sep s) as [[a b]|]; reflexivity.
Qed.

(** [sep in s] holds exactly when [s] is some text, [sep] and some text. *)
Lemma contains_iff sep s :
  Str.contains sep s = true <-> exists a b, s = a +:+ sep +:+ b.
Proof.
  split.
  - rewrite cut_contains. destruct (Str.cut sep s) as [[a b]|] eqn:Hcut; [|discriminate].
    intros _. exists a, b. apply cut_some, Hcut.
  - intros (a & b & ->). induction a as [|x a IH].
    + rewrite append_nil, contains_unfold, is_prefix_append. reflexivity.
    + rewrite append_cons, contains_unfold.
      destruct (Str.is_prefix sep (String x (a +:+ sep +:+ b))); [reflexivity|exact IH].
Qed.

(** A prefix of a text is a prefix of its long enough beginnings. *)
Lemma is_prefix_shorten p u v :
  Str.is_prefix p (u +:+ v) = true ->
  (String.length p <= String.length u)%nat ->
  Str.is_prefix p u = true.
Proof.
  revert u. induction p as [|c p IH]; intros u Hp Hlen; [reflexivity|].
  destruct u as [|d u]; [simpl in Hlen; lia|].
  rewrite append_cons in Hp. simpl in Hp |- *.
  destruct (Ascii.eqb c d); [|discriminate].
  apply IH; [exact Hp | simpl in Hlen; lia].
Qed.

(** [cut] cuts at the first occurrence. *)
Lemma cut_first sep s pre rest :
  first_occurrence sep s pre rest -> Str.cut sep s = Some (pre, rest).
Proof.
  intros [-> Hfirst]. induction pre as [|x pre IH].
  - rewrite append_nil, cut_unfold, is_prefix_append, drop_append. reflexivity.
  - rewrite append_cons, cut_unfold.
    destruct (Str.is_prefix sep (String x (pre +:+ sep +:+ rest))) eqn:Hp.
    + exfalso.
      assert (Hpre : Str.is_prefix sep (String x pre +:+ sep) = true).
      { apply (is_prefix_shorten sep _ rest).
        - rewrite append_assoc_s, append_cons. exact Hp.
        - rewrite length_append_s. lia. }
      apply is_prefix_split in Hpre.
      pose proof (Hfirst EmptyString _ Hpre) as Hempty.
      rewrite Hempty, append_empty_r in Hpre.
      apply (f_equal String.length) in Hpre. rewrite length_append_s in Hpre.
      simpl in Hpre. lia.
    + rewrite IH; [reflexivity|].
      intros a b Hab. apply (Hfirst (String x a) b).
      rewrite !append_cons. f_equal. exact Hab.
Qed.

Lemma before_after_first sep s pre rest :
  first_occurrence sep s pre rest -> before sep s = pre /\ after sep s = rest.
Proof.
  intros Hfirst. unfold before, after. rewrite (cut_first _ _ _ _ Hfirst).
  split; reflexivity.
Qed.

Lemma before_absent sep s : Str.contains sep s = false -> before sep s = s.
Proof.
  unfold before. rewrite cut_contains.
  destruct (Str.cut sep s) as [[a b]|]; [discriminate | reflexivity].
Qed.

Lemma cut_empty_text sep : sep <> EmptyString -> Str.cut sep EmptyString = None.
Proof. intros Hsep. destruct sep; [contradiction | reflexivity]. Qed.

(** The first piece of [s.split(sep)]. *)
Lemma split_head sep s :
  sep <> EmptyString -> index (Str.split sep s) 0 = Ok (before sep s).
Proof.
  intros Hsep. unfold Str.split, before.
  destruct s as [|x s].
  - rewrite (cut_empty_text sep Hsep). reflexivity.
  - cbn [String.length Str.split_fuel].
    destruct (Str.cut sep (String x s)) as [[a b]|]; reflexivity.
Qed.

(** The second piece of [s.split(sep)], when [sep] occurs in [s]. *)
Lemma split_second sep s :
  sep <> EmptyString -> Str.contains sep s = true ->
  index (Str.split sep s) 1 = Ok (before sep (after sep s)).
Proof.
  intros Hsep. rewrite cut_contains. unfold Str.split, before, after.
  destruct (Str.cut sep s) as [[a b]|] eqn:Hcut; [intros _|discriminate].
  pose proof (cut_some _ _ _ _ Hcut) as Hs.
  apply (f_equal String.length) in Hs. rewrite !length_append_s in Hs.
  assert (0 < String.length sep)%nat by (destruct sep; [contradiction | simpl; lia]).
  destruct (String.length s) as [|fuel] eqn:Hlen; [lia|].
  cbn [Str.split_fuel]. rewrite Hcut. cbn [index nth_error].
  destruct fuel as [|fuel].
  - assert (b = EmptyString) by (destruct b; [reflexivity | simpl in Hs; lia]).
    subst b. cbn [Str.split_fuel]. rewrite (cut_empty_text sep Hsep). reflexivity.
  - cbn [Str.split_fuel]. destruct (Str.cut sep b) as [[c d]|]; reflexivity.
Qed.


Lemma fence_nonempty : fence <> EmptyString /\ json_fence <> EmptyString.
Proof. split; discriminate. Qed.


(** The text of a fenced block that is closed: the block opens at the first
    [json] fence, [block] holds no fence, and what follows the closing fence
    does not make a [json] fence with it. *)
Lemma fenced_json_block content pre block rest :
  first_occurrence json_fence content pre (block +:+ fence +:+ rest) ->
  first_occurrence fence (block +:+ fence +:+ rest) block rest ->
  Str.contains json_fence (fence +:+ rest) = false ->
  extract_json content = Ok (Str.strip block).
Proof.
  intros Hopen Hclose Hnext.
  destruct (before_after_first _ _ _ _ Hopen) as [_ Hafter].
  destruct (before_after_first _ _ _ _ Hclose) as [Hblock _].
  assert (Hin : Str.contains json_fence content = true).
  { apply contains_iff. destruct Hopen as [-> _]. eauto. }
  unfold extract_json. rewrite Hin.
  rewrite (split_second json_fence content (proj2 fence_nonempty) Hin).
  cbn [mbind result_bind]. rewrite split_head by apply fence_nonempty.
  cbn [mbind result_bind mret result_ret]. rewrite Hafter.
  assert (Hnone : Str.contains json_fence (block +:+ fence +:+ rest) = false).
  { destruct (Str.contains json_fence (block +:+ fence +:+ rest)) eqn:Hc; [|reflexivity].
    exfalso. rewrite cut_contains in Hc.
    destruct (Str.cut json_fence (block +:+ fence +:+ rest)) as [[u v]|] eqn:Hcut;
      [clear Hc|discriminate].
    pose proof (cut_some _ _ _ _ Hcut) as Huv.
    (* the [json] fence found starts inside [block] or after it *)
    destruct (Nat.le_gt_cases (String.length block) (String.length u)) as [Hle|Hgt].
    - (* after: it lies in [fence ++ rest] *)
      assert (Hsuffix : exists u', u = block +:+ u').
      { clear -Huv Hle. revert u Huv Hle.
        induction block as [|c block IH]; intros u Huv Hle; [exists u; reflexivity|].
        destruct u as [|d u]; [simpl in Hle; lia|].
        rewrite !append_cons in Huv. injection Huv as <- Huv.
        destruct (IH u Huv) as [u' ->]; [simpl in Hle; lia|].
        exists u'. reflexivity. }
      destruct Hsuffix as [u' ->]. rewrite append_assoc_s in Huv.
      apply String.app_inj in Huv.
      assert (Str.contains json_fence (fence +:+ rest) = true); [|congruence].
      apply contains_iff. eauto.
    - (* inside: a fence would occur in [block] before its end *)
      destruct Hclose as [_ Hfirst].
      assert (Hshort : exists t, block +:+ fence = u +:+ fence +:+ t /\ t <> EmptyString).
      { clear -Huv Hgt. revert block Huv Hgt.
        induction u as [|c u IH]; intros block Huv Hgt.
        - rewrite append_nil in Huv. destruct block as [|d block]; [simpl in Hgt; lia|].
          exists (Str.drop (String.length fence) (String d block +:+ fence)).
          assert (Hp : Str.is_prefix fence (String d block +:+ fence +:+ rest) = true).
          { rewrite Huv. reflexivity. }
          rewrite <- append_assoc_s in Hp.
          assert (Hp' : Str.is_prefix fence (String d block +:+ fence) = true).
          { apply (is_prefix_shorten _ _ rest Hp). rewrite length_append_s. simpl. lia. }
          rewrite append_nil. split; [apply (is_prefix_split _ _ Hp')|].
          intros Hempty. apply is_prefix_split in Hp'. rewrite Hempty in Hp'.
          apply (f_equal String.length) in Hp'. rewrite length_append_s in Hp'.
          simpl in Hp'. lia.
        - destruct block as [|d block]; [simpl in Hgt; lia|].
          rewrite !append_cons in Huv. injection Huv as <- Huv.
          destruct (IH block Huv) as (t & Ht & Hne); [simpl in Hgt; lia|].
          exists t. split; [|exact Hne]. rewrite !append_cons. f_equal. exact Ht. }
      destruct Hshort as (t & Ht & Hne). apply Hne, (Hfirst u t Ht). }
  rewrite (before_absent _ _ Hnone), Hblock. reflexivity.
Qed.

Section Parser.

Context `{Externals}.



End Parser.


(** ** The cache service *)

Ltac mrun := cbv [mbind mret M_bind M_ret lift raise try_except]; cbv beta iota.

Section CacheFacts.

Context {V : Type} `{Pickle V}.

Lemma set_cache_service_same (self : CacheService V) (w : World V) :
  cache_service w = Some self -> set_cache_service (Some self) w = w.
Proof. destruct w. simpl. intros ->. reflexivity. Qed.

(** Without a connection to make, [_get_redis] returns [None] and leaves
    the world as it is. *)
Lemma get_redis_in_memory (self : CacheService V) (w : World V) :
  Cache.in_memory self w -> Cache._get_redis (V:=V) w = (Ok None, w).
Proof.
  intros (Hself & Hen & Hclient & Hpath).
  unfold Cache._get_redis, Cache.self_, Cache.assign, Cache.redis_ping,
    Cache.redis_command, Cache.connection_error.
  unfold_monad. rewrite Hself, Hen. cbn.
  rewrite Hclient. cbn.
  destruct (bool_decide (cs_redis_url self = "")) eqn:Hurl; cbn.
  - rewrite Hself, Hclient. reflexivity.
  - destruct Hpath as [Hempty | Hdown];
      [apply bool_decide_eq_false in Hurl; contradiction|].
    rewrite Hself. cbn. rewrite Hdown. cbn.
    destruct w, self; simpl in *; subst. reflexivity.
Qed.

Lemma get_in_memory (self : CacheService V) (w : World V) key :
  Cache.in_memory self w ->
  Cache.get key w = (Ok (value <$> memory_cache self !! key), w).
Proof.
  intros Hmem. pose proof (get_redis_in_memory self w Hmem) as Hredis.
  destruct Hmem as (Hself & Hen & Hclient & Hpath).
  unfold Cache.get. unfold_monad. unfold Cache.self_ at 1. rewrite Hself, Hen. cbn.
  rewrite Hredis. unfold Cache.self_. rewrite Hself.
  destruct (memory_cache self !! key); reflexivity.
Qed.

Lemma set_in_memory (self : CacheService V) (w : World V) key v ttl :
  Cache.in_memory self w ->
  Cache.set key v ttl w
  = match pickle_dumps v with
    | Ok _ => (Ok true, stored self w key v ttl)
    | Raise _ => (Ok false, w)
    end.
Proof.
  intros Hmem. pose proof (get_redis_in_memory self w Hmem) as Hredis.
  destruct Hmem as (Hself & Hen & Hclient & Hpath).
  unfold Cache.set. unfold_monad. unfold Cache.self_ at 1. rewrite Hself, Hen. cbn.
  destruct (pickle_dumps v) as [bytes|e]; [|reflexivity].
  rewrite Hredis. unfold Cache.assign, stored, effective_ttl. cbn. rewrite Hself.
  reflexivity.
Qed.

Lemma stored_in_memory (self : CacheService V) (w : World V) key v ttl :
  Cache.in_memory self w ->
  Cache.in_memory
    (Cache.set_memory_cache
       (<[key := {| value := v;
                    expires := (clock w (clock_reads w)
                                + inject_Z (effective_ttl self ttl))%Q |}]>
          (memory_cache self)) self)
    (stored self w key v ttl).
Proof.
  intros (Hself & Hen & Hclient & Hpath). repeat split; assumption.
Qed.

Lemma delete_in_memory (self : CacheService V) (w : World V) key :
  Cache.in_memory self w ->
  Cache.delete (V:=V) key w
  = (Ok true,
     set_cache_service
       (Some (Cache.set_memory_cache (base.delete key (memory_cache self)) self)) w).
Proof.
  intros Hmem. pose proof (get_redis_in_memory self w Hmem) as Hredis.
  destruct Hmem as (Hself & Hen & Hclient & Hpath).
  unfold Cache.delete. unfold_monad. unfold Cache.self_ at 1. rewrite Hself, Hen. cbn.
  rewrite Hredis. unfold Cache.assign. cbn. rewrite Hself. reflexivity.
Qed.

Lemma run_op_holds key (v : V) o (w : World V) :
  holds key v w -> Cache.leaves key o ->
  exists w', Cache.run_op o w = (Ok tt, w') /\ holds key v w'.
Proof.
  intros (self & entry & Hmem & Hentry & Hv) Hleaves.
  destruct o as [k | k v' ttl | k | readings]; cbn [Cache.run_op Cache.leaves] in *.
  - unfold_monad. rewrite (get_in_memory self w k Hmem).
    eexists. split; [reflexivity|]. exists self, entry. auto.
  - unfold_monad. rewrite (set_in_memory self w k v' ttl Hmem).
    destruct (pickle_dumps v').
    + eexists. split; [reflexivity|].
      eexists _, entry. split; [apply stored_in_memory, Hmem|].
      split; [|exact Hv]. cbn. rewrite lookup_insert_ne by exact Hleaves. exact Hentry.
    + eexists. split; [reflexivity|]. exists self, entry. auto.
  - unfold_monad. rewrite (delete_in_memory self w k Hmem).
    eexists. split; [reflexivity|].
    eexists _, entry. split; [|split; [|exact Hv]].
    + destruct Hmem as (Hself & Hen & Hclient & Hpath). repeat split; assumption.
    + cbn. rewrite lookup_delete_ne by exact Hleaves. exact Hentry.
  - eexists. split; [reflexivity|]. exists self, entry.
    split; [|auto]. destruct Hmem as (Hself & Hen & Hclient & Hpath).
    repeat split; assumption.
Qed.

Lemma run_ops_holds key (v : V) ops (w : World V) :
  holds key v w -> Forall (Cache.leaves key) ops ->
  exists w', Cache.run_ops ops w = (Ok tt, w') /\ holds key v w'.
Proof.
  intros Hholds Hall. revert w Hholds.
  induction Hall as [|o ops Ho _ IH]; intros w Hholds.
  - exists w. split; [reflexivity | exact Hholds].
  - destruct (run_op_holds key v o w Hholds Ho) as (w1 & Hrun & Hholds1).
    destruct (IH w1 Hholds1) as (w2 & Hrun2 & Hholds2).
    exists w2. split; [|exact Hholds2].
    cbn [Cache.run_ops]. unfold_monad. rewrite Hrun. exact Hrun2.
Qed.

(** C10. On a cache that keeps its entries in memory, once [set] has stored
    a value under a key, the entry holds the value next to the time at which
    it was to expire, and [get] returns the value after any sequence of
    operations that neither writes nor deletes the key, whatever the clock
    shows by then: [get] does not read the clock and does not look at the
    expiry. *)
Theorem memory_entries_never_expire :
  forall (self : CacheService V) (w w1 : World V) (key : string) (v : V)
         (ttl : option Z) (ops : list Cache.op),
    Cache.in_memory self w ->
    Cache.set key v ttl w = (Ok true, w1) ->
    Forall (Cache.leaves key) ops ->
    (exists self1,
        cache_service w1 = Some self1
        /\ memory_cache self1 !! key
           = Some {| value := v;
                     expires := (clock w (clock_reads w)
                                 + inject_Z (effective_ttl self ttl))%Q |})
    /\ exists w2,
         Cache.run_ops ops w1 = (Ok tt, w2)
         /\ Cache.get key w2 = (Ok (Some v), w2).
Proof.
  intros self w w1 key v ttl ops Hmem Hset Hops.
  rewrite (set_in_memory self w key v ttl Hmem) in Hset.
  destruct (pickle_dumps v) as [bytes|e]; [|discriminate].
  injection Hset as <-.
  pose proof (stored_in_memory self w key v ttl Hmem) as Hmem1.
  split.
  - eexists. split; [reflexivity|]. cbn. apply lookup_insert_eq.
  - assert (Hholds : holds key v (stored self w key v ttl)).
    { eexists _, _. split; [exact Hmem1|]. split; [cbn; apply lookup_insert_eq|reflexivity]. }
    destruct (run_ops_holds key v ops _ Hholds Hops) as (w2 & Hrun & Hholds2).
    exists w2. split; [exact Hrun|].
    destruct Hholds2 as (self2 & entry & Hmem2 & Hentry & Hv).
    rewrite (get_in_memory self2 w2 key Hmem2), Hentry. cbn. rewrite Hv. reflexivity.
Qed.

Lemma get_cache_service_run (w : World V) :
  Cache.get_cache_service w = (Ok tt, set_cache_service (Some (service_of w)) w).
Proof.
  unfold Cache.get_cache_service, service_of.
  destruct (cache_service w) as [self|] eqn:Hself.
  - rewrite set_cache_service_same by exact Hself. reflexivity.
  - reflexivity.
Qed.

Lemma keeps_in_memory_started (w : World V) (w' : World V) :
  keeps_in_memory w ->
  cache_service w' = Some (service_of w) -> redis w' = redis w ->
  Cache.in_memory (service_of w) w'.
Proof.
  intros (Hen & Hclient & Hpath) Hself Hredis.
  repeat split; try assumption. rewrite Hredis. exact Hpath.
Qed.

Lemma get_redis_in_redis (self : CacheService V) (w : World V) :
  in_redis self w ->
  Cache._get_redis (V:=V) w = (Ok (Some tt), set_cache_service (Some (connected self)) w).
Proof.
  intros (Hself & Hen & Hup & Hconn).
  unfold Cache._get_redis, Cache.self_, Cache.assign, Cache.redis_ping,
    Cache.redis_command, Cache.connection_error, connected.
  unfold_monad. rewrite Hself, Hen. cbn.
  destruct (redis_client self) as [[]|] eqn:Hclient; cbn.
  - rewrite Hself, Hclient.
    replace (Cache.set_redis_client (Some ()) self) with self
      by (destruct self; simpl in *; subst; reflexivity).
    rewrite set_cache_service_same by exact Hself. reflexivity.
  - destruct Hconn as [|Hurl]; [discriminate|].
    rewrite (bool_decide_eq_false_2 _ Hurl). cbn.
    rewrite Hself, Hup. cbn. reflexivity.
Qed.

Lemma get_in_redis (self : CacheService V) (w : World V) key :
  in_redis self w ->
  Cache.get key w
  = (Ok (read_through self w key),
     set_clock_reads (S (clock_reads w)) (set_cache_service (Some (connected self)) w)).
Proof.
  intros Hredis. pose proof (get_redis_in_redis self w Hredis) as Hconn.
  destruct Hredis as (Hself & Hen & Hup & _).
  unfold Cache.get. unfold_monad. unfold Cache.self_ at 1. rewrite Hself, Hen. cbn.
  rewrite Hconn. unfold Cache.redis_get, Cache.redis_command, Cache.redis_lookup,
    Cache.self_, read_through.
  unfold_monad. cbn. rewrite Hup. cbn.
  destruct (redis_keys (redis w) !! key) as [[data expiry]|]; cbn.
  - destruct (Qle_bool expiry (clock w (clock_reads w))); cbn.
    + destruct (memory_cache self !! key); reflexivity.
    + destruct (bool_decide (data = "")); cbn.
      * destruct (memory_cache self !! key); reflexivity.
      * destruct (pickle_loads data); reflexivity.
  - destruct (memory_cache self !! key); reflexivity.
Qed.

Lemma set_in_redis (self : CacheService V) (w : World V) key v ttl :
  in_redis self w -> 0 < ttl ->
  Cache.set key v (Some ttl) w
  = match pickle_dumps v with
    | Ok data => (Ok true, written self w key data ttl)
    | Raise _ => (Ok false, w)
    end.
Proof.
  intros Hredis Httl. pose proof (get_redis_in_redis self w Hredis) as Hconn.
  destruct Hredis as (Hself & Hen & Hup & _).
  unfold Cache.set. unfold_monad. unfold Cache.self_ at 1. rewrite Hself, Hen. cbn.
  destruct (pickle_dumps v) as [data|e]; [|reflexivity].
  rewrite Hconn. unfold Cache.redis_setex, Cache.redis_command, Cache.redis_update, written.
  unfold_monad. cbn. rewrite Hup.
  replace (ttl =? 0) with false by (symmetry; apply Z.eqb_neq; lia).
  replace (ttl <=? 0) with false by (symmetry; apply Z.leb_gt; lia).
  cbn. rewrite Hup. reflexivity.
Qed.

Lemma elapsed_run (start_time : Q) (w : World V) :
  elapsed_ms start_time w = (Ok (elapsed_at start_time w), tick w).
Proof. reflexivity. Qed.

End CacheFacts.

(** ** The data-gathering steps *)

Section Steps.

Context `{Externals}.
Variable cache : CacheAPI.

(** A [try] block that returns has set the status [completed] and the
    elapsed time. *)
Tactic Notation "solve_try_completed" reference(try_block) :=
  unfold try_block, tool_ainvoke; unfold_monad; cbn;
  repeat (next_call; cbn); (intros [= <- <-] || discriminate); cbn; eauto.

Lemma attraction_try_completed st req start w u w' :
  attraction_try cache st req start w = (Ok u, w') ->
  State.node_status u
  = Some (with_entry (State.node_status st) "search_attractions" "completed")
  /\ exists ms,
       State.node_timings u
       = Some (with_entry (State.node_timings st) "search_attractions" ms).
Proof. solve_try_completed attraction_try. Qed.

Lemma weather_try_completed st req start w u w' :
  weather_try cache st req start w = (Ok u, w') ->
  State.node_status u
  = Some (with_entry (State.node_status st) "query_weather" "completed")
  /\ exists ms,
       State.node_timings u
       = Some (with_entry (State.node_timings st) "query_weather" ms).
Proof. solve_try_completed weather_try. Qed.

Lemma hotel_try_completed st req start w u w' :
  hotel_try cache st req start w = (Ok u, w') ->
  State.node_status u
  = Some (with_entry (State.node_status st) "search_hotels" "completed")
  /\ exists ms,
       State.node_timings u
       = Some (with_entry (State.node_timings st) "search_hotels" ms).
Proof. solve_try_completed hotel_try. Qed.

Tactic Notation "solve_contract" reference(node) constr(try_block) constr(completed) :=
  let Hreq := fresh "Hreq" in
  let Htry := fresh "Htry" in
  let Hstatus := fresh "Hstatus" in
  let Htimings := fresh "Htimings" in
  intros ? ? ? Hreq; unfold node; unfold_monad; rewrite Hreq; cbn;
  match goal with
  | |- context [try_block ?c ?st ?req ?t ?w] =>
      destruct (try_block c st req t w) as [[?|?] ?] eqn:Htry
  end;
  [ apply completed in Htry; destruct Htry as [Hstatus Htimings];
    eexists _, _; split; [reflexivity|];
    split; [exact Htimings|]; split; [reflexivity | exact Hstatus]
  | eexists _, _; split; [reflexivity|]; cbn;
    split; [eexists; reflexivity|]; repeat split ].

Lemma attraction_node_contract :
  step_contract (attraction_node cache) (attraction_try cache)
    "search_attractions" State.attractions.
Proof. solve_contract attraction_node attraction_try attraction_try_completed. Qed.

Lemma weather_node_contract :
  step_contract (weather_node cache) (weather_try cache)
    "query_weather" State.weather.
Proof. solve_contract weather_node weather_try weather_try_completed. Qed.

Lemma hotel_node_contract :
  step_contract (hotel_node cache) (hotel_try cache)
    "search_hotels" State.hotels.
Proof. solve_contract hotel_node hotel_try hotel_try_completed. Qed.


End Steps.

(** ** Two calls of a step *)

Section Idempotence.

Context `{Externals} `{Pickle (list pyobj)}.

Local Abbreviation cache := cache_service_api.

Lemma steps_coherent :
  coherent attraction_step /\ coherent weather_step /\ coherent hotel_step.
Proof. repeat split. Qed.

(** [fetch] adds the call of the tool to the trace and changes nothing
    else. *)
Lemma fetch_world sp req (w : World (list pyobj)) r w' :
  fetch sp req w = (r, w') ->
  w' = set_trace (trace w ++ [EvTool (step_call sp req)]) w.
Proof.
  unfold fetch, tool_ainvoke. unfold_monad. cbn.
  repeat (next_call; cbn); intros [= <- <-]; reflexivity.
Qed.

(** A node is its [try] block, and its handler when the block raises. *)
Lemma gather_run (c : CacheAPI) sp st req w :
  State.request st = Some req ->
  gather c sp st w
  = match gather_try c sp st req (clock w (clock_reads w)) (tick w) with
    | (Ok u, w') => (Ok u, w')
    | (Raise e, w') => (Ok (failed_update sp st e (elapsed_at (clock w (clock_reads w)) w')),
                        tick w')
    end.
Proof.
  intros Hreq. unfold gather. mrun. unfold time_time. rewrite Hreq. cbv beta iota.
  unfold getitem. cbv beta iota. fold (tick w).
  destruct (gather_try c sp st req (clock w (clock_reads w)) (tick w)) as [[u|e] w'];
    [reflexivity|].
  rewrite elapsed_run. reflexivity.
Qed.

(** The [try] block on a cache that works in memory: a hit on a non-empty
    entry, or the call of the tool and the write of what it found. *)
Lemma gather_try_in_memory sp st req start (w : World (list pyobj)) :
  keeps_in_memory w ->
  gather_try cache sp st req start w
  = let self := service_of w in
    let w0 := set_cache_service (Some self) w in
    match value <$> memory_cache self !! step_key sp req with
    | Some ((_ :: _) as cached) =>
        (Ok (completed_update sp st cached (elapsed_at start w0)), tick w0)
    | _ =>
        match fetch sp req w0 with
        | (Ok found, w') =>
            match pickle_dumps found with
            | Ok _ =>
                let w'' := stored self w' (step_key sp req) found (Some (step_ttl sp)) in
                (Ok (completed_update sp st found (elapsed_at start w'')), tick w'')
            | Raise _ =>
                (Ok (completed_update sp st found (elapsed_at start w')), tick w')
            end
        | (Raise e, w') => (Raise e, w')
        end
    end.
Proof.
  intros Hkeeps. cbv zeta.
  assert (Hmem : Cache.in_memory (service_of w) (set_cache_service (Some (service_of w)) w)).
  { apply keeps_in_memory_started; [exact Hkeeps | reflexivity | reflexivity]. }
  unfold gather_try. mrun.
  cbn [api_get_cache_service api_get api_set cache_service_api].
  rewrite get_cache_service_run. rewrite (get_in_memory _ _ _ Hmem).
  destruct (value <$> memory_cache (service_of w) !! step_key sp req) as [[|x xs]|].
  2:{ rewrite elapsed_run. reflexivity. }
  all: destruct (fetch sp req (set_cache_service (Some (service_of w)) w))
         as [[found|e] w'] eqn:Hfetch; [|reflexivity];
    apply fetch_world in Hfetch;
    assert (Hmem' : Cache.in_memory (service_of w) w')
      by (subst w'; destruct Hmem as (? & ? & ? & ?); repeat split; assumption);
    rewrite (set_in_memory _ w' _ found _ Hmem');
    destruct (pickle_dumps found); rewrite elapsed_run; reflexivity.
Qed.

Lemma second_call_in_memory sp st st' req w u w1 l :
  coherent sp ->
  State.request st = Some req -> State.request st' = Some req ->
  gather cache sp st w = (Ok u, w1) ->
  step_result sp u = Some l -> l <> [] ->
  trace w1 <> trace w ->
  keeps_in_memory w -> 0 < step_ttl sp ->
  Py.is_ok (pickle_dumps l) = true ->
  memory_cache (service_of w1) !! step_key sp req
  = Some {| value := l;
            expires := (clock w (1 + clock_reads w)%nat + inject_Z (step_ttl sp))%Q |}
  /\ second_call sp st' req w w1 l.
Proof.
  intros Hsp Hreq Hreq' Hrun Hres Hne Htrace Hkeeps Httl Hdumps.
  rewrite (gather_run _ _ _ _ _ Hreq) in Hrun.
  rewrite gather_try_in_memory in Hrun by exact Hkeeps. cbv zeta in Hrun.
  set (w0 := set_cache_service (Some (service_of (tick w))) (tick w)) in *.
  (* the first call went to the tool: the world after it *)
  assert (Hw1 : w1 = tick (stored (service_of (tick w))
                             (set_trace (trace w0 ++ [EvTool (step_call sp req)]) w0)
                             (step_key sp req) l (Some (step_ttl sp)))).
  { destruct (value <$> memory_cache (service_of (tick w)) !! step_key sp req)
      as [[|x xs]|].
    2:{ injection Hrun as <- <-. exfalso. apply Htrace. reflexivity. }
    all: destruct (fetch sp req w0) as [[found|e] w'] eqn:Hfetch;
      [ apply fetch_world in Hfetch;
        destruct (pickle_dumps found) eqn:Hfound;
        injection Hrun as <- <-;
        match type of Hres with
        | step_result _ (completed_update _ ?s ?f ?ms) = _ =>
            destruct (Hsp s f ms) as (Hr & _)
        end;
        rewrite Hr in Hres; injection Hres as <-;
        [ subst w'; reflexivity
        | rewrite Hfound in Hdumps; discriminate ]
      | injection Hrun as <- <-;
        match type of Hres with
        | step_result _ (failed_update _ ?s ?x ?ms) = _ =>
            destruct (Hsp s [] ms) as (_ & _ & Hr); rewrite (Hr x) in Hres
        end;
        injection Hres as <-; contradiction ]. }
  assert (Heff : forall self : CacheService (list pyobj),
             effective_ttl self (Some (step_ttl sp)) = step_ttl sp).
  { intros self. unfold effective_ttl.
    replace (step_ttl sp =? 0) with false by (symmetry; apply Z.eqb_neq; lia).
    reflexivity. }
  assert (Hkeeps1 : keeps_in_memory w1) by (subst w1; exact Hkeeps).
  assert (Hentry : memory_cache (service_of w1) !! step_key sp req
                   = Some {| value := l;
                             expires := (clock w (1 + clock_reads w)%nat
                                         + inject_Z (step_ttl sp))%Q |}).
  { subst w1. cbn. rewrite lookup_insert_eq. rewrite Heff. reflexivity. }
  split; [exact Hentry|].
  unfold second_call.
  rewrite (gather_run _ _ _ _ _ Hreq').
  rewrite gather_try_in_memory by exact Hkeeps1. cbv zeta.
  change (service_of (tick w1)) with (service_of w1). rewrite Hentry.
  cbn [fmap option_fmap option_map value].
  destruct l as [|x xs]; [contradiction|].
  eexists _, _. split; [reflexivity|]. split; [reflexivity|].
  match goal with
  | |- step_result _ (completed_update _ ?s ?c ?ms) = _ /\ _ =>
      destruct (Hsp s c ms) as (Hr & Hs & _)
  end.
  split; [exact Hr|]. split; [exact Hs|]. subst w1. reflexivity.
Qed.

Lemma keeps_in_redis_started (w w' : World (list pyobj)) :
  keeps_in_redis w ->
  cache_service w' = Some (service_of w) -> redis w' = redis w ->
  in_redis (service_of w) w'.
Proof.
  intros (Hen & Hup & Hconn) Hself Hredis.
  repeat split; try assumption. rewrite Hredis. exact Hup.
Qed.

(** The [try] block on a cache that works through Redis. *)
Lemma gather_try_in_redis sp st req start (w : World (list pyobj)) :
  keeps_in_redis w -> 0 < step_ttl sp ->
  gather_try cache sp st req start w
  = let self := connected (service_of w) in
    let w0 := tick (set_cache_service (Some self) w) in
    match read_through (service_of w) w (step_key sp req) with
    | Some ((_ :: _) as cached) =>
        (Ok (completed_update sp st cached (elapsed_at start w0)), tick w0)
    | _ =>
        match fetch sp req w0 with
        | (Ok found, w') =>
            match pickle_dumps found with
            | Ok data =>
                let w'' := written self w' (step_key sp req) data (step_ttl sp) in
                (Ok (completed_update sp st found (elapsed_at start w'')), tick w'')
            | Raise _ =>
                (Ok (completed_update sp st found (elapsed_at start w')), tick w')
            end
        | (Raise e, w') => (Raise e, w')
        end
    end.
Proof.
  intros Hkeeps Httl. cbv zeta.
  assert (Hredis : in_redis (service_of w) (set_cache_service (Some (service_of w)) w)).
  { apply keeps_in_redis_started; [exact Hkeeps | reflexivity | reflexivity]. }
  unfold gather_try. mrun.
  cbn [api_get_cache_service api_get api_set cache_service_api].
  rewrite get_cache_service_run. rewrite (get_in_redis _ _ _ Hredis).
  change (read_through (service_of w) (set_cache_service (Some (service_of w)) w)
            (step_key sp req))
    with (read_through (service_of w) w (step_key sp req)).
  change (set_clock_reads
            (S (clock_reads (set_cache_service (Some (service_of w)) w)))
            (set_cache_service (Some (connected (service_of w)))
               (set_cache_service (Some (service_of w)) w)))
    with (tick (set_cache_service (Some (connected (service_of w))) w)).
  set (w0 := tick (set_cache_service (Some (connected (service_of w))) w)).
  assert (Hredis0 : forall w', w' = set_trace (trace w0 ++ [EvTool (step_call sp req)]) w0 ->
                    in_redis (connected (service_of w)) w').
  { intros w' ->. destruct Hkeeps as (Hen & Hup & Hconn).
    repeat split; try assumption. left. reflexivity. }
  destruct (read_through (service_of w) w (step_key sp req)) as [[|x xs]|].
  2:{ rewrite elapsed_run. reflexivity. }
  all: destruct (fetch sp req w0) as [[found|e] w'] eqn:Hfetch; [|reflexivity];
    apply fetch_world in Hfetch;
    rewrite (set_in_redis _ w' _ found _ (Hredis0 w' Hfetch) Httl);
    destruct (pickle_dumps found); rewrite elapsed_run; reflexivity.
Qed.

Lemma second_call_in_redis sp st st' req w u w1 l data :
  coherent sp ->
  State.request st = Some req -> State.request st' = Some req ->
  gather cache sp st w = (Ok u, w1) ->
  step_result sp u = Some l -> l <> [] ->
  trace w1 <> trace w ->
  keeps_in_redis w -> 0 < step_ttl sp ->
  pickle_dumps l = Ok data -> data <> "" -> pickle_loads data = Ok l ->
  Qle_bool (clock w (2 + clock_reads w)%nat + inject_Z (step_ttl sp))
           (clock w (5 + clock_reads w)%nat) = false ->
  redis_keys (redis w1) !! step_key sp req
  = Some (data, (clock w (2 + clock_reads w)%nat + inject_Z (step_ttl sp))%Q)
  /\ second_call sp st' req w w1 l.
Proof.
  intros Hsp Hreq Hreq' Hrun Hres Hne Htrace Hkeeps Httl Hdumps Hdata Hloads Halive.
  rewrite (gather_run _ _ _ _ _ Hreq) in Hrun.
  rewrite gather_try_in_redis in Hrun by assumption. cbv zeta in Hrun.
  set (self := connected (service_of (tick w))) in *.
  set (w0 := tick (set_cache_service (Some self) (tick w))) in *.
  (* the first call went to the tool: the world after it *)
  assert (Hw1 : w1 = tick (written self
                             (set_trace (trace w0 ++ [EvTool (step_call sp req)]) w0)
                             (step_key sp req) data (step_ttl sp))).
  { destruct (read_through (service_of (tick w)) (tick w) (step_key sp req))
      as [[|x xs]|].
    2:{ injection Hrun as <- <-. exfalso. apply Htrace. reflexivity. }
    all: destruct (fetch sp req w0) as [[found|e] w'] eqn:Hfetch;
      [ apply fetch_world in Hfetch;
        destruct (pickle_dumps found) eqn:Hfound;
        injection Hrun as <- <-;
        match type of Hres with
        | step_result _ (completed_update _ ?s ?f ?ms) = _ =>
            destruct (Hsp s f ms) as (Hr & _)
        end;
        rewrite Hr in Hres; injection Hres as <-;
        rewrite Hdumps in Hfound; [injection Hfound as <-; subst w'; reflexivity
                                  | discriminate]
      | injection Hrun as <- <-;
        match type of Hres with
        | step_result _ (failed_update _ ?s ?x ?ms) = _ =>
            destruct (Hsp s [] ms) as (_ & _ & Hr); rewrite (Hr x) in Hres
        end;
        injection Hres as <-; contradiction ]. }
  assert (Hkeeps1 : keeps_in_redis w1).
  { subst w1. destruct Hkeeps as (Hen & Hup & Hconn).
    repeat split; try assumption. left. reflexivity. }
  assert (Hkey : redis_keys (redis w1) !! step_key sp req
                 = Some (data, (clock w (2 + clock_reads w)%nat
                                + inject_Z (step_ttl sp))%Q)).
  { subst w1. cbn. rewrite lookup_insert_eq. reflexivity. }
  split; [exact Hkey|].
  assert (Hread : read_through (service_of (tick w1)) (tick w1) (step_key sp req) = Some l).
  { unfold read_through.
    change (redis (tick w1)) with (redis w1). rewrite Hkey.
    subst w1. cbn. cbn in Halive. rewrite Halive.
    rewrite (bool_decide_eq_false_2 _ Hdata), Hloads. reflexivity. }
  unfold second_call.
  rewrite (gather_run _ _ _ _ _ Hreq').
  rewrite gather_try_in_redis by assumption. cbv zeta. rewrite Hread.
  destruct l as [|x xs]; [contradiction|].
  eexists _, _. split; [reflexivity|]. split; [reflexivity|].
  match goal with
  | |- step_result _ (completed_update _ ?s ?c ?ms) = _ /\ _ =>
      destruct (Hsp s c ms) as (Hr & Hs & _)
  end.
  split; [exact Hr|]. split; [exact Hs|]. subst w1. reflexivity.
Qed.

(** Two calls of the shared procedure. *)
Lemma gather_serves sp :
  coherent sp -> 0 < step_ttl sp ->
  serves_from_cache (gather cache sp) (step_result sp) (step_name sp)
    (step_key sp) (step_ttl sp).
Proof.
  intros Hsp Httl st st' req w w1 u l Hreq Hreq' Hrun Hres Hne Htrace Hsurvives.
  destruct Hsurvives as [[Hmem Hdumps] | (Hredis & (data & Hdumps & Hdata & Hloads) & Halive)].
  - destruct (second_call_in_memory sp st st' req w u w1 l) as [Hentry Hsecond];
      try assumption.
    split; [left; exact Hentry|].
    destruct Hsecond as (u' & w2 & Hrun' & Hsame & Hres' & Hstatus & Htotal).
    exists u', w2. repeat split; try assumption. eexists. exact Htotal.
  - destruct (second_call_in_redis sp st st' req w u w1 l data) as [Hentry Hsecond];
      try assumption.
    split; [right; exists data; split; assumption|].
    destruct Hsecond as (u' & w2 & Hrun' & Hsame & Hres' & Hstatus & Htotal).
    exists u', w2. repeat split; try assumption. eexists. exact Htotal.
Qed.

(** C8, as amended. For each of the three data-gathering steps, with the
    cache of app/services/cache_service.py: when a first call invoked the
    provider and completed with a non-empty list, and the cache holds what
    it is given (in memory; or in Redis, the second lookup coming before the
    time to live is over), the first call wrote the list under the key of
    the step with a time to live of 7200 seconds for attractions and
    lodging and of 1800 seconds for weather, and a second call on the same
    request fields returns that list with status [completed] and does not
    invoke the provider. *)
Theorem cache_serves_second_call :
  serves_from_cache (attraction_node cache) State.attractions "search_attractions"
    (fun req =>
       "attractions:" +:+ TripRequest.city req +:+ ":" +:+
       match TripRequest.preferences req with k :: _ => k | [] => "景点" end)
    7200
  /\ serves_from_cache (weather_node cache) State.weather "query_weather"
       (fun req => "weather:" +:+ TripRequest.city req)
       1800
  /\ serves_from_cache (hotel_node cache) State.hotels "search_hotels"
       (fun req =>
          "hotels:" +:+ TripRequest.city req +:+ ":" +:+ TripRequest.accommodation req)
       7200.
Proof.
  destruct steps_coherent as (Ha & Hw & Hh).
  split; [|split].
  - intros st st' req w w1 u l Hreq Hreq' Hrun Hres Hne Htrace Hsurvives.
    rewrite attraction_node_gather in Hrun.
    destruct (gather_serves attraction_step Ha ltac:(reflexivity)
                st st' req w w1 u l Hreq Hreq' Hrun Hres Hne Htrace Hsurvives)
      as [Hentry (u' & w2 & Hrun' & Hrest)].
    split; [exact Hentry|].
    exists u', w2. rewrite attraction_node_gather. split; [exact Hrun' | exact Hrest].
  - intros st st' req w w1 u l Hreq Hreq' Hrun Hres Hne Htrace Hsurvives.
    rewrite weather_node_gather in Hrun.
    destruct (gather_serves weather_step Hw ltac:(reflexivity)
                st st' req w w1 u l Hreq Hreq' Hrun Hres Hne Htrace Hsurvives)
      as [Hentry (u' & w2 & Hrun' & Hrest)].
    split; [exact Hentry|].
    exists u', w2. rewrite weather_node_gather. split; [exact Hrun' | exact Hrest].
  - intros st st' req w w1 u l Hreq Hreq' Hrun Hres Hne Htrace Hsurvives.
    rewrite hotel_node_gather in Hrun.
    destruct (gather_serves hotel_step Hh ltac:(reflexivity)
                st st' req w w1 u l Hreq Hreq' Hrun Hres Hne Htrace Hsurvives)
      as [Hentry (u' & w2 & Hrun' & Hrest)].
    split; [exact Hentry|].
    exists u', w2. rewrite hotel_node_gather. split; [exact Hrun' | exact Hrest].
Qed.

End Idempotence.

(** ** The properties on the concrete world *)

Lemma demo_world_in_memory :
  Cache.in_memory (service_of demo_world) demo_world_started.
Proof. repeat split. right. reflexivity. Qed.

(** A weather entry stored for 1800 seconds is still served after the clock
    has moved on by a thousand million seconds and other keys were read and
    written. *)
Lemma memory_entries_never_expire_witness :
  exists w1 w2,
    Cache.set "weather:Beijing" [forbidden_city] (Some 1800) demo_world_started
    = (Ok true, w1)
    /\ Cache.run_ops
         [Cache.OpElapse (fun n => 1000000000 + inject_Z (Z.of_nat n))%Q;
          Cache.OpGet "hotels:Beijing:budget_hotel";
          Cache.OpSet "attractions:Beijing:history" [] None;
          Cache.OpDelete "hotels:Beijing:budget_hotel"] w1
       = (Ok tt, w2)
    /\ Cache.get "weather:Beijing" w2 = (Ok (Some [forbidden_city]), w2).
Proof.
  destruct (memory_entries_never_expire
              (service_of demo_world) demo_world_started
              (snd (Cache.set "weather:Beijing" [forbidden_city] (Some 1800)
                      demo_world_started))
              "weather:Beijing" [forbidden_city] (Some 1800)
              [Cache.OpElapse (fun n => 1000000000 + inject_Z (Z.of_nat n))%Q;
               Cache.OpGet "hotels:Beijing:budget_hotel";
               Cache.OpSet "attractions:Beijing:history" [] None;
               Cache.OpDelete "hotels:Beijing:budget_hotel"])
    as [_ (w2 & Hrun & Hget)].
  - exact demo_world_in_memory.
  - reflexivity.
  - repeat constructor; discriminate.
  - eexists _, w2. split; [reflexivity|]. split; [exact Hrun | exact Hget].
Defined.


Lemma demo_world_keeps_in_memory : keeps_in_memory demo_world.
Proof. repeat split. right. reflexivity. Qed.

(** Two calls of the attractions node in the concrete world: the first
    asks the provider and finds the Forbidden City, the second serves it
    from the cache. *)
Lemma cache_serves_second_call_witness :
  exists u w1 u' w2,
    attraction_node cache_service_api beijing_state demo_world = (Ok u, w1)
    /\ attraction_node cache_service_api beijing_state w1 = (Ok u', w2)
    /\ State.attractions u' = Some [forbidden_city]
    /\ State.node_status u' = Some (<["search_attractions" := "completed"]> ∅)
    /\ trace w2 = [EvTool (search_poi "history" "Beijing" true)]
    /\ written_with_ttl demo_world w1 "attractions:Beijing:history" [forbidden_city] 7200.
Proof.
  destruct (attraction_node cache_service_api beijing_state demo_world)
    as [[u|e] w1] eqn:Hrun; [|vm_compute in Hrun; discriminate].
  assert (Hu : State.attractions u = Some [forbidden_city]
               /\ trace w1 = [EvTool (search_poi "history" "Beijing" true)]).
  { vm_compute in Hrun. injection Hrun as <- <-. split; reflexivity. }
  destruct Hu as [Hres Htrace].
  destruct (proj1 cache_serves_second_call
              beijing_state beijing_state beijing_request demo_world w1 u
              [forbidden_city] eq_refl eq_refl Hrun Hres)
    as [Hentry (u' & w2 & Hrun' & Hsame & Hres' & Hstatus & call & Htotal)].
  - discriminate.
  - rewrite Htrace. discriminate.
  - left. split; [exact demo_world_keeps_in_memory | reflexivity].
  - exists u, w1, u', w2. split; [reflexivity|]. split; [exact Hrun'|].
    split; [exact Hres'|]. split; [exact Hstatus|].
    split; [rewrite Hsame; exact Htrace | exact Hentry].
Defined.

(** C8, as stated, fails: with the cache switched off in the settings
    ([cache_enabled] false), two calls of the attractions node on the same
    request, four seconds apart, both invoke the provider. *)
Lemma provider_called_twice_when_cache_disabled :
  let first := attraction_node cache_service_api beijing_state demo_world_cache_off in
  let second := attraction_node cache_service_api beijing_state (snd first) in
  match fst first, fst second with
  | Ok u1, Ok u2 =>
      State.attractions u1 = Some [forbidden_city]
      /\ State.attractions u2 = Some [forbidden_city]
  | _, _ => False
  end
  /\ trace (snd second) = [EvTool (search_poi "history" "Beijing" true);
                           EvTool (search_poi "history" "Beijing" true)]
  /\ (clock (snd second) (clock_reads (snd second)) - clock demo_world_cache_off 0
      < 7200)%Q.
Proof. vm_compute. repeat split. Qed.

(** ** The number of day plans *)


Section DayCount.

Context `{Externals}.



End DayCount.



(** ** An empty result is not served from the cache

    The nodes test what the cache returned for truth ([if cached:]), where
    the decorator [cached] of the cache service tests it against [None]. A
    provider that finds nothing gives an empty list, which the node writes
    to the cache and, on the next call, reads back and takes for a miss: the
    provider is asked again. *)
Lemma empty_result_is_fetched_again :
  let first := attraction_node cache_service_api beijing_state demo_world_no_pois in
  let second := attraction_node cache_service_api beijing_state (snd first) in
  match fst first, fst second with
  | Ok u1, Ok u2 =>
      State.attractions u1 = Some [] /\ State.attractions u2 = Some []
  | _, _ => False
  end
  /\ (value <$> memory_cache (service_of (snd first)) !! "attractions:Beijing:history")
     = Some []
  /\ trace (snd second) = [EvTool (search_poi "history" "Beijing" true);
                           EvTool (search_poi "history" "Beijing" true)].
Proof. vm_compute. repeat split. Qed.

(** ** The strings and dates of the embedding at work *)

Example split_fences : Str.split "```" "a```b```c" = ["a"; "b"; "c"].
Proof. reflexivity. Qed.

Example split_overlap : Str.split "aa" "aaa" = [""; "a"].
Proof. reflexivity. Qed.

Example split_absent : Str.split "```" "{}" = ["{}"].
Proof. reflexivity. Qed.

Example strip_spaces : Str.strip (newline +:+ "  {} " +:+ newline) = "{}".
Proof. reflexivity. Qed.

Example strptime_june : Date.strptime "2025-06-01" = Ok (Date.mk 2025 6 1).
Proof. reflexivity. Qed.

Example strptime_rejects : Py.is_ok (Date.strptime "2025-02-29") = false.
Proof. reflexivity. Qed.

Example leap_day :
  (d ← Date.strptime "2024-02-28"; d' ← Date.add_days d 2; mret (Date.strftime d'))
  = Ok "2024-03-01".
Proof. vm_compute. reflexivity. Qed.

Example new_year :
  (d ← Date.strptime "2025-12-31"; d' ← Date.add_days d 1; mret (Date.strftime d'))
  = Ok "2026-01-01".
Proof. vm_compute. reflexivity. Qed.

Example last_day :
  (d ← Date.strptime "9999-12-31"; Date.add_days d 1)
  = Raise (OverflowError "date value out of range").
Proof. vm_compute. reflexivity. Qed.

Example fallback_dates :
  (plan ← create_fallback_plan beijing_request;
   mret (map DayPlan.date (TripPlan.days plan)))
  = Ok ["2025-06-01"; "2025-06-02"; "2025-06-03"].
Proof. vm_compute. reflexivity. Qed.

(** * Further properties of the code *)

(** ** The cache service: switched off, never raising, deleting, clearing *)

Lemma lookup_foldr_delete_keys {A} (m : gmap string A) (ks : list string) (k : string) :
  foldr base.delete m ks !! k = if decide (k ∈ ks) then None else m !! k.
Proof.
  induction ks as [|j ks IH]; cbn [foldr].
  - rewrite decide_False by apply not_elem_of_nil. reflexivity.
  - destruct (decide (j = k)) as [->|Hne].
    + rewrite lookup_delete_eq. rewrite decide_True by constructor. reflexivity.
    + rewrite lookup_delete_ne by exact Hne. rewrite IH.
      destruct (decide (k ∈ ks)) as [Hin|Hnin].
      * rewrite decide_True by (constructor; exact Hin). reflexivity.
      * rewrite decide_False; [reflexivity|].
        intros Hin. apply elem_of_cons in Hin. destruct Hin as [->|Hin]; contradiction.
Qed.

(** Deleting the keys of a map that satisfy [p] leaves the others. *)
Lemma lookup_delete_filtered {A} (p : string -> bool) (m : gmap string A) (k : string) :
  foldr base.delete m (List.filter p (map fst (map_to_list m))) !! k
  = if p k then None else m !! k.
Proof.
  rewrite lookup_foldr_delete_keys.
  destruct (decide (k ∈ List.filter p (map fst (map_to_list m)))) as [Hin|Hnin].
  - apply list_elem_of_In, filter_In in Hin. destruct Hin as [_ ->]. reflexivity.
  - destruct (p k) eqn:Hp; [|reflexivity].
    destruct (m !! k) as [v|] eqn:Hk; [|reflexivity].
    exfalso. apply Hnin, list_elem_of_In, filter_In. split; [|exact Hp].
    apply list_elem_of_In, list_elem_of_fmap. exists (k, v). split; [reflexivity|].
    apply elem_of_map_to_list, Hk.
Qed.

Section CacheExtras.

Context {V : Type} `{Pickle V}.
Variable glob_match : string -> string -> bool.

(** X1. With the cache switched off ([cache_enabled] false), [get] returns
    [None], and [set], [delete], [exists] and [clear] return [False]; none
    of them stores anything, reads the clock or contacts Redis: the world
    is left as it was. *)
Theorem disabled_cache_is_inert :
  forall (self : CacheService V) (w : World V) (key : string) (v : V)
         (ttl : option Z) (prefix : option string),
    cache_service w = Some self -> enabled self = false ->
    Cache.get key w = (Ok None, w)
    /\ Cache.set key v ttl w = (Ok false, w)
    /\ Cache.delete (V:=V) key w = (Ok false, w)
    /\ Cache.exists_ (V:=V) key w = (Ok false, w)
    /\ Cache.clear (V:=V) glob_match prefix w = (Ok false, w).
Proof.
  intros self w key v ttl prefix Hself Hen.
  unfold Cache.get, Cache.set, Cache.delete, Cache.exists_, Cache.clear.
  unfold_monad. unfold Cache.self_. rewrite Hself, Hen. repeat split.
Qed.

(** A [try] whose handler returns, returns. *)
Lemma try_except_returns {A} (body : M V A) (handler : exn -> M V A) (w : World V) :
  (forall e w', exists a w'', handler e w' = (Ok a, w'')) ->
  exists a w', try_except body handler w = (Ok a, w').
Proof.
  intros Hh. unfold try_except. destruct (body w) as [[a|e] w'].
  - eauto.
  - apply Hh.
Qed.

Lemma set_returns (self : CacheService V) (w : World V) key v ttl :
  cache_service w = Some self ->
  exists b w', Cache.set key v ttl w = (Ok b, w').
Proof.
  intros Hself. unfold Cache.set. unfold mbind, M_bind.
  unfold Cache.self_ at 1. rewrite Hself.
  destruct (enabled self); cbn [negb]; [|do 2 eexists; reflexivity].
  apply try_except_returns. intros e w'. do 2 eexists. reflexivity.
Qed.

(** X2. Once the cache service is made, its five operations return to
    their caller in every world and never raise: whether Redis answers or
    not, whether a value pickles or not, whatever the time to live. *)
Theorem cache_operations_never_raise :
  forall (self : CacheService V) (w : World V) (key : string) (v : V)
         (ttl : option Z) (prefix : option string),
    cache_service w = Some self ->
    (exists r w', Cache.get key w = (Ok r, w'))
    /\ (exists r w', Cache.set key v ttl w = (Ok r, w'))
    /\ (exists r w', Cache.delete (V:=V) key w = (Ok r, w'))
    /\ (exists r w', Cache.exists_ (V:=V) key w = (Ok r, w'))
    /\ (exists r w', Cache.clear (V:=V) glob_match prefix w = (Ok r, w')).
Proof.
  intros self w key v ttl prefix Hself.
  split; [|split; [|split; [|split]]].
  all: unfold Cache.get, Cache.set, Cache.delete, Cache.exists_, Cache.clear.
  all: unfold mbind, M_bind; unfold Cache.self_ at 1; rewrite Hself.
  all: destruct (enabled self); cbn [negb]; [|do 2 eexists; reflexivity].
  all: apply try_except_returns; intros e w'; do 2 eexists; reflexivity.
Qed.

Lemma exists_in_memory (self : CacheService V) (w : World V) key :
  Cache.in_memory self w ->
  Cache.exists_ (V:=V) key w
  = (Ok (bool_decide (is_Some (memory_cache self !! key))), w).
Proof.
  intros Hmem. pose proof (get_redis_in_memory self w Hmem) as Hredis.
  destruct Hmem as (Hself & Hen & Hclient & Hpath).
  unfold Cache.exists_. unfold_monad. unfold Cache.self_ at 1. rewrite Hself, Hen. cbn.
  rewrite Hredis. unfold Cache.self_. rewrite Hself. reflexivity.
Qed.

Lemma clear_in_memory (self : CacheService V) (w : World V) prefix :
  Cache.in_memory self w ->
  Cache.clear (V:=V) glob_match prefix w
  = (Ok true,
     set_cache_service
       (Some (Cache.set_memory_cache (cleared prefix (memory_cache self)) self)) w).
Proof.
  intros Hmem. pose proof (get_redis_in_memory self w Hmem) as Hredis.
  destruct Hmem as (Hself & Hen & Hclient & Hpath).
  unfold Cache.clear. unfold_monad. unfold Cache.self_ at 1. rewrite Hself, Hen. cbn.
  rewrite Hredis. unfold Cache.assign, cleared.
  destruct prefix as [[|c p]|]; cbn; rewrite Hself; reflexivity.
Qed.

Lemma in_memory_set_memory (self : CacheService V) (w : World V) m :
  Cache.in_memory self w ->
  Cache.in_memory (Cache.set_memory_cache m self)
    (set_cache_service (Some (Cache.set_memory_cache m self)) w).
Proof. intros (Hself & Hen & Hclient & Hpath). repeat split; assumption. Qed.

(** X3. On a cache that keeps its entries in memory, [delete] returns
    [True] and removes the entry of the key, whether there was one or not:
    afterwards [get] returns [None] for the key and [exists] returns
    [False], and [get] returns for every other key what it returned
    before. *)
Theorem delete_removes_the_entry :
  forall (self : CacheService V) (w : World V) (key : string),
    Cache.in_memory self w ->
    exists w1,
      Cache.delete (V:=V) key w = (Ok true, w1)
      /\ Cache.get key w1 = (Ok None, w1)
      /\ Cache.exists_ (V:=V) key w1 = (Ok false, w1)
      /\ forall k, k <> key ->
           Cache.get k w1 = (Ok (value <$> memory_cache self !! k), w1)
           /\ Cache.get k w = (Ok (value <$> memory_cache self !! k), w).
Proof.
  intros self w key Hmem.
  pose proof (in_memory_set_memory self w (base.delete key (memory_cache self)) Hmem) as Hmem1.
  eexists. split; [apply delete_in_memory, Hmem|].
  split; [|split].
  - rewrite (get_in_memory _ _ key Hmem1). cbn. rewrite lookup_delete_eq. reflexivity.
  - rewrite (exists_in_memory _ _ key Hmem1). cbn. rewrite lookup_delete_eq. reflexivity.
  - intros k Hne. split.
    + rewrite (get_in_memory _ _ k Hmem1). cbn.
      rewrite lookup_delete_ne by congruence. reflexivity.
    + apply get_in_memory, Hmem.
Qed.

(** X4. On a cache that keeps its entries in memory, [clear(prefix)] with
    a non-empty prefix removes exactly the keys that begin with the prefix
    followed by a colon, and leaves the other entries as they were (a key
    equal to the prefix, or beginning with it without the colon, stays);
    [clear()] with no prefix, or with the empty prefix, removes every
    entry. *)
Theorem clear_removes_the_prefix :
  forall (self : CacheService V) (w : World V) (prefix : option string),
    Cache.in_memory self w ->
    exists w1,
      Cache.clear (V:=V) glob_match prefix w = (Ok true, w1)
      /\ forall k,
           Cache.get k w1
           = (Ok (match prefix with
                  | None | Some "" => None
                  | Some p =>
                      if Str.is_prefix (p +:+ ":") k then None
                      else value <$> memory_cache self !! k
                  end), w1).
Proof.
  intros self w prefix Hmem.
  pose proof (in_memory_set_memory self w (cleared prefix (memory_cache self)) Hmem) as Hmem1.
  eexists. split; [apply clear_in_memory, Hmem|].
  intros k. rewrite (get_in_memory _ _ k Hmem1). cbn.
  destruct prefix as [[|c p]|]; cbn [cleared].
  - rewrite lookup_empty. reflexivity.
  - rewrite lookup_delete_filtered.
    destruct (Str.is_prefix (String c p +:+ ":") k); reflexivity.
  - rewrite lookup_empty. reflexivity.
Qed.

Lemma exists_in_redis (self : CacheService V) (w : World V) key :
  in_redis self w ->
  Cache.exists_ (V:=V) key w
  = (Ok (match redis_keys (redis w) !! key with
         | Some (_, expiry) => negb (Qle_bool expiry (clock w (clock_reads w)))
         | None => false
         end),
     set_clock_reads (S (clock_reads w)) (set_cache_service (Some (connected self)) w)).
Proof.
  intros Hredis. pose proof (get_redis_in_redis self w Hredis) as Hconn.
  destruct Hredis as (Hself & Hen & Hup & _).
  unfold Cache.exists_. unfold_monad. unfold Cache.self_ at 1. rewrite Hself, Hen. cbn.
  rewrite Hconn. unfold Cache.redis_exists, Cache.redis_command, Cache.redis_lookup.
  unfold_monad. cbn. rewrite Hup. cbn.
  destruct (redis_keys (redis w) !! key) as [[data expiry]|]; cbn; [|reflexivity].
  destruct (Qle_bool expiry (clock w (clock_reads w))); reflexivity.
Qed.

(** X5. On a cache that works through Redis, an entry written by [set]
    with a positive time to live is served by [get], and reported by
    [exists], as long as the clock shows a time before that of the write
    plus the time to live, and is gone from then on (where the entries
    kept in memory never expire). *)
Theorem redis_entry_expires :
  forall (self : CacheService V) (w : World V) (key : string) (v : V)
         (ttl : Z) (data : string),
    in_redis self w -> 0 < ttl ->
    pickle_dumps v = Ok data -> data <> "" -> pickle_loads data = Ok v ->
    memory_cache self !! key = None ->
    exists w1,
      Cache.set key v (Some ttl) w = (Ok true, w1)
      /\ forall readings : nat -> Q,
           fst (Cache.get key (set_clock readings w1))
           = Ok (if Qle_bool (clock w (clock_reads w) + inject_Z ttl)
                             (readings (S (clock_reads w)))
                 then None else Some v)
           /\ fst (Cache.exists_ (V:=V) key (set_clock readings w1))
              = Ok (negb (Qle_bool (clock w (clock_reads w) + inject_Z ttl)
                                   (readings (S (clock_reads w))))).
Proof.
  intros self w key v ttl data Hredis Httl Hdumps Hdata Hloads Hmiss.
  exists (written self w key data ttl). split.
  - rewrite (set_in_redis self w key v ttl Hredis Httl), Hdumps. reflexivity.
  - intros readings.
    assert (Hredis1 : in_redis (connected self)
                        (set_clock readings (written self w key data ttl))).
    { destruct Hredis as (Hself & Hen & Hup & Hconn).
      repeat split; try assumption. left. reflexivity. }
    rewrite (get_in_redis _ _ key Hredis1), (exists_in_redis _ _ key Hredis1).
    cbn [fst]. unfold read_through. cbn. rewrite lookup_insert_eq.
    rewrite Hmiss. cbn. rewrite (bool_decide_eq_false_2 _ Hdata), Hloads.
    split; [|reflexivity].
    destruct (Qle_bool _ _); reflexivity.
Qed.

(** X6. [exists] and [get] agree on a cache that keeps its entries in
    memory. On a cache that works through Redis they do not: for a key that
    the memory holds and Redis does not (an entry written while Redis did
    not answer), [get] falls back on the memory and returns the value, and
    [exists], which asks Redis only, returns [False]. *)
Theorem exists_overlooks_memory_beside_redis :
  forall (self : CacheService V) (w : World V) (key : string) (entry : MemEntry V),
    memory_cache self !! key = Some entry ->
    (Cache.in_memory self w ->
     Cache.get key w = (Ok (Some (value entry)), w)
     /\ Cache.exists_ (V:=V) key w = (Ok true, w))
    /\ (in_redis self w -> redis_keys (redis w) !! key = None ->
        fst (Cache.get key w) = Ok (Some (value entry))
        /\ fst (Cache.exists_ (V:=V) key w) = Ok false).
Proof.
  intros self w key entry Hentry. split.
  - intros Hmem. rewrite (get_in_memory self w key Hmem), (exists_in_memory self w key Hmem).
    rewrite Hentry. split; reflexivity.
  - intros Hredis Hnone.
    rewrite (get_in_redis self w key Hredis), (exists_in_redis self w key Hredis).
    unfold read_through. rewrite Hnone, Hentry. split; reflexivity.
Qed.

Section Decorator.

Context {Arg : Type}.
Variable key_digest : string -> list Arg -> list (string * Arg) -> string.

(** X7. The key the decorator [cached] builds leaves out the first
    positional argument of the call. So, on a cache that keeps its entries
    in memory, once a call of the decorated coroutine function has run the
    function and stored its result (whatever the result: an empty list is
    stored and served like any other), a call that differs in its first
    argument only returns that stored result, and the function is not run:
    the world is left as it was. *)
Theorem cached_ignores_first_argument :
  forall (prefix : string) (ttl : option Z)
         (func : list Arg -> list (string * Arg) -> M V V)
         (a1 a2 : Arg) (rest : list Arg) (kwargs : list (string * Arg))
         (self self' : CacheService V) (w w' : World V) (v : V),
    Cache.in_memory self w ->
    memory_cache self !! Cache._generate_key key_digest prefix rest kwargs = None ->
    func (a1 :: rest) kwargs w = (Ok v, w') ->
    Cache.in_memory self' w' ->
    Py.is_ok (pickle_dumps v) = true ->
    exists w1,
      Cache.cached key_digest prefix ttl None true func (a1 :: rest) kwargs w = (Ok v, w1)
      /\ Cache.cached key_digest prefix ttl None true func (a2 :: rest) kwargs w1
         = (Ok v, w1).
Proof.
  intros prefix ttl func a1 a2 rest kwargs self self' w w' v Hmem Hmiss Hfunc Hmem' Hpickle.
  set (key := Cache._generate_key key_digest prefix rest kwargs) in *.
  exists (stored self' w' key v ttl). unfold Cache.cached, Cache.async_wrapper.
  unfold_monad. fold key.
  rewrite (get_in_memory self w key Hmem), Hmiss. cbn. rewrite Hfunc.
  rewrite (set_in_memory self' w' key v ttl Hmem').
  destruct (pickle_dumps v) as [data|e]; [|discriminate]. split; [reflexivity|].
  rewrite (get_in_memory _ _ key (stored_in_memory self' w' key v ttl Hmem')).
  cbn. rewrite lookup_insert_eq. reflexivity.
Qed.

(** X8. [clear(prefix)] evicts what [cached(prefix)] stored: the keys of
    the decorator begin with its prefix and a colon. On a cache that keeps
    its entries in memory, after [clear] with a non-empty prefix, a call of
    a coroutine function decorated with that prefix runs the function again
    and returns what the function returns (or raises what it raises),
    whatever was cached before. *)
Theorem clear_evicts_cached_results :
  forall (prefix : string) (ttl : option Z)
         (func : list Arg -> list (string * Arg) -> M V V)
         (args : list Arg) (kwargs : list (string * Arg))
         (self : CacheService V) (w : World V),
    Cache.in_memory self w -> prefix <> "" ->
    (forall w0, cache_service w0 <> None ->
                cache_service (snd (func args kwargs w0)) <> None) ->
    exists w1,
      Cache.clear (V:=V) glob_match (Some prefix) w = (Ok true, w1)
      /\ fst (Cache.cached key_digest prefix ttl None true func args kwargs w1)
         = fst (func args kwargs w1).
Proof.
  intros prefix ttl func args kwargs self w Hmem Hprefix Hkeeps.
  pose proof (in_memory_set_memory self w (cleared (Some prefix) (memory_cache self)) Hmem)
    as Hmem1.
  eexists. split; [apply clear_in_memory, Hmem|].
  unfold Cache.cached, Cache.async_wrapper. unfold_monad.
  rewrite (get_in_memory _ _ _ Hmem1). cbn [value memory_cache Cache.set_memory_cache].
  destruct prefix as [|c p]; [contradiction|]. cbn [cleared].
  rewrite lookup_delete_filtered. unfold Cache._generate_key at 1.
  rewrite <- append_assoc_s, is_prefix_append. cbn.
  match goal with
  | |- context [func args kwargs ?w0] =>
      pose proof (Hkeeps w0 ltac:(discriminate)) as Hsome;
      destruct (func args kwargs w0) as [[v|e] w'] eqn:Hfunc
  end; [|reflexivity].
  cbn [snd] in Hsome. destruct (cache_service w') as [self'|] eqn:Hself'; [|contradiction].
  destruct (set_returns self' w' (Cache._generate_key key_digest (String c p)
             match args with [] => args | _ :: rest => rest end kwargs) v ttl Hself')
    as (b & w'' & ->).
  reflexivity.
Qed.

End Decorator.

(** X9. [get_cache_service] makes the service once: when there is one it
    returns it and changes nothing, so its entries and its connection are
    kept from one call to the next. After [reset_cache_service] the next
    call makes a new service from the settings, with an empty memory and no
    connection: what the former one kept in memory is lost, and the keys of
    the Redis server stay. *)
Theorem cache_service_is_a_singleton :
  forall (w : World V),
    (forall self, cache_service w = Some self ->
                  Cache.get_cache_service w = (Ok tt, w))
    /\ (exists w1,
          Cache.get_cache_service w = (Ok tt, w1)
          /\ Cache.get_cache_service w1 = (Ok tt, w1))
    /\ (exists w2 fresh,
          (_ ← Cache.reset_cache_service; Cache.get_cache_service) w = (Ok tt, w2)
          /\ cache_service w2 = Some fresh
          /\ memory_cache fresh = ∅
          /\ redis_client fresh = None
          /\ enabled fresh = cache_enabled (settings w)
          /\ redis w2 = redis w).
Proof.
  intros w. split; [|split].
  - intros self Hself. rewrite get_cache_service_run. unfold service_of. rewrite Hself.
    rewrite set_cache_service_same by exact Hself. reflexivity.
  - eexists. split; [apply get_cache_service_run|].
    rewrite get_cache_service_run. reflexivity.
  - do 2 eexists. split; [reflexivity|]. repeat split.
Qed.

End CacheExtras.

Lemma disabled_cache_is_inert_witness :
  Cache.get "weather:Beijing" demo_world_cache_off_started
    = (Ok None, demo_world_cache_off_started)
  /\ Cache.set "weather:Beijing" [forbidden_city] (Some 1800) demo_world_cache_off_started
     = (Ok false, demo_world_cache_off_started).
Proof.
  destruct (disabled_cache_is_inert demo_glob_match
              (service_of demo_world_cache_off) demo_world_cache_off_started
              "weather:Beijing" [forbidden_city] (Some 1800) (Some "weather")
              eq_refl eq_refl) as (Hget & Hset & _).
  split; [exact Hget | exact Hset].
Defined.

Lemma cache_operations_never_raise_witness :
  exists r w', Cache.get "weather:Beijing" demo_world_redis_started = (Ok r, w').
Proof.
  exact (proj1 (cache_operations_never_raise demo_glob_match
                  (service_of demo_world_redis) demo_world_redis_started
                  "weather:Beijing" [forbidden_city] (Some 1800) None eq_refl)).
Defined.

Lemma demo_world_two_entries_in_memory :
  Cache.in_memory (service_of demo_world_two_entries) demo_world_two_entries.
Proof. repeat split. right. reflexivity. Qed.

Lemma delete_removes_the_entry_witness :
  exists w1,
    Cache.delete (V:=list pyobj) "weather:Beijing" demo_world_two_entries = (Ok true, w1)
    /\ Cache.get "weather:Beijing" w1 = (Ok None, w1)
    /\ Cache.get "hotels:Beijing:budget_hotel" w1 = (Ok (Some [forbidden_city]), w1).
Proof.
  destruct (delete_removes_the_entry (service_of demo_world_two_entries)
              demo_world_two_entries "weather:Beijing" demo_world_two_entries_in_memory)
    as (w1 & Hdel & Hget & _ & Hother).
  exists w1. split; [exact Hdel|]. split; [exact Hget|].
  exact (proj1 (Hother "hotels:Beijing:budget_hotel" ltac:(discriminate))).
Defined.

Lemma clear_removes_the_prefix_witness :
  exists w1,
    Cache.clear (V:=list pyobj) demo_glob_match (Some "weather") demo_world_two_entries
      = (Ok true, w1)
    /\ Cache.get "weather:Beijing" w1 = (Ok None, w1)
    /\ Cache.get "hotels:Beijing:budget_hotel" w1 = (Ok (Some [forbidden_city]), w1).
Proof.
  destruct (clear_removes_the_prefix demo_glob_match
              (service_of demo_world_two_entries) demo_world_two_entries (Some "weather")
              demo_world_two_entries_in_memory) as (w1 & Hclear & Hget).
  exists w1. split; [exact Hclear|]. split.
  - exact (Hget "weather:Beijing").
  - exact (Hget "hotels:Beijing:budget_hotel").
Defined.

Lemma demo_world_in_redis :
  in_redis (service_of demo_world_redis) demo_world_redis_started.
Proof. repeat split. right. discriminate. Qed.

(** A forecast stored for 1800 seconds at time 0 is served at time 1799
    and gone at time 1800. *)
Lemma redis_entry_expires_witness :
  exists w1,
    Cache.set "weather:Beijing" [forbidden_city] (Some 1800) demo_world_redis_started
      = (Ok true, w1)
    /\ fst (Cache.get "weather:Beijing" (set_clock (fun _ => 1799%Q) w1))
       = Ok (Some [forbidden_city])
    /\ fst (Cache.get "weather:Beijing" (set_clock (fun _ => 1800%Q) w1)) = Ok None.
Proof.
  destruct (redis_entry_expires (H:=demo_pickle) (service_of demo_world_redis)
              demo_world_redis_started
              "weather:Beijing" [forbidden_city] 1800 "pickled"
              demo_world_in_redis ltac:(lia) eq_refl ltac:(discriminate) eq_refl eq_refl)
    as (w1 & Hset & Hget).
  exists w1. split; [exact Hset|]. split.
  - exact (proj1 (Hget (fun _ => 1799%Q))).
  - exact (proj1 (Hget (fun _ => 1800%Q))).
Defined.

(** The forecast written to memory while Redis did not answer: once Redis
    answers, [get] still returns it and [exists] denies it. *)
Lemma exists_overlooks_memory_beside_redis_witness :
  fst (Cache.get "weather:Beijing" demo_world_redis_back) = Ok (Some [forbidden_city])
  /\ fst (Cache.exists_ (V:=list pyobj) "weather:Beijing" demo_world_redis_back) = Ok false.
Proof.
  apply (proj2 (exists_overlooks_memory_beside_redis
                  (service_of demo_world_two_entries) demo_world_redis_back
                  "weather:Beijing"
                  {| value := [forbidden_city]; expires := 1800 |} eq_refl)).
  - repeat split. right. discriminate.
  - reflexivity.
Defined.

(** A search decorated with [cached]: asked about Shanghai after Beijing,
    it returns the sights of Beijing, which the function itself would not
    return. *)
Lemma cached_ignores_first_argument_witness :
  exists found w1,
    Cache.cached demo_digest "poi_search" (Some 7200) None true demo_search
      ["Beijing"; "history"] [] demo_world_started = (Ok found, w1)
    /\ Cache.cached demo_digest "poi_search" (Some 7200) None true demo_search
         ["Shanghai"; "history"] [] w1 = (Ok found, w1)
    /\ fst (demo_search ["Shanghai"; "history"] [] w1) <> Ok found.
Proof.
  destruct (cached_ignores_first_argument (H:=demo_pickle) demo_digest "poi_search"
              (Some 7200) demo_search "Beijing" "Shanghai" ["history"] []
              (service_of demo_world) (service_of demo_world)
              demo_world_started demo_world_started _
              demo_world_in_memory eq_refl eq_refl demo_world_in_memory eq_refl)
    as (w1 & Hfirst & Hsecond).
  eexists _, w1. split; [exact Hfirst|]. split; [exact Hsecond|]. discriminate.
Defined.

(** After [clear], the search asked about Shanghai returns the sights of
    Shanghai. *)
Lemma clear_evicts_cached_results_witness :
  let cached_search :=
    Cache.cached demo_digest "poi_search" (Some 7200) None true demo_search in
  let w := snd (cached_search ["Beijing"; "history"] [] demo_world_started) in
  exists w1,
    Cache.clear (V:=list pyobj) demo_glob_match (Some "poi_search") w = (Ok true, w1)
    /\ fst (cached_search ["Shanghai"; "history"] [] w1)
       = fst (demo_search ["Shanghai"; "history"] [] w1).
Proof.
  cbv zeta.
  apply (clear_evicts_cached_results (H:=demo_pickle) demo_glob_match demo_digest
           "poi_search" (Some 7200) demo_search ["Shanghai"; "history"] []
           (service_of
              (snd (Cache.cached demo_digest "poi_search" (Some 7200) None true demo_search
                      ["Beijing"; "history"] [] demo_world_started)))).
  - repeat split. right. reflexivity.
  - discriminate.
  - intros w0 Hw0. exact Hw0.
Defined.

Lemma cache_service_is_a_singleton_witness :
  Cache.get_cache_service demo_world_two_entries = (Ok tt, demo_world_two_entries).
Proof.
  apply (proj1 (cache_service_is_a_singleton demo_world_two_entries)
           (service_of demo_world_two_entries)).
  reflexivity.
Defined.

(** ** The state: a fresh state, critical errors, the summary *)

(** X10. The state a run starts from has no status: the gate reports
    readiness on it for the empty list of steps only; it shows no critical
    error, and the summary counts no step. *)
Theorem fresh_state_is_not_ready :
  forall (user : option string) (req : TripRequest.t) (nodes : list string),
    is_all_parallel_nodes_completed (create_initial_state user req) nodes
      = bool_decide (nodes = [])
    /\ has_critical_errors (create_initial_state user req) = false
    /\ status_counts (create_initial_state user req)
       = {| pending := 0; in_progress := 0; completed := 0; failed := 0 |}.
Proof.
  intros user req nodes. split; [|split; reflexivity].
  destruct nodes as [|n nodes]; reflexivity.
Qed.

Lemma critical_errors_iff (st : TripPlanningState) :
  has_critical_errors st = true
  <-> exists n e, State.get (node_errors st) ∅ !! n = Some e /\ e <> "".
Proof.
  unfold has_critical_errors. rewrite existsb_exists. split.
  - intros (e & Hin & He).
    apply list_elem_of_In, list_elem_of_fmap in Hin. destruct Hin as ([n e'] & -> & Hin).
    apply elem_of_map_to_list in Hin. exists n, e'. split; [exact Hin|].
    cbn in He. apply negb_true_iff, bool_decide_eq_false in He. exact He.
  - intros (n & e & Hn & He). exists e. split.
    + apply list_elem_of_In, list_elem_of_fmap. exists (n, e). split; [reflexivity|].
      apply elem_of_map_to_list, Hn.
    + apply negb_true_iff, bool_decide_eq_false. exact He.
Qed.



Lemma fold_count_status (l : list string) (c : Counts) :
  fold_left count_status l c
  = {| pending := pending c
         + Z.of_nat (length (List.filter (fun s => negb (known_status s)) l));
       in_progress := in_progress c
         + Z.of_nat (length (List.filter (fun s => bool_decide (s = "in_progress")) l));
       completed := completed c
         + Z.of_nat (length (List.filter (fun s => bool_decide (s = "completed")) l));
       failed := failed c
         + Z.of_nat (length (List.filter (fun s => bool_decide (s = "failed")) l)) |}.
Proof.
  revert c. induction l as [|s l IH]; intros c.
  - destruct c. cbn. f_equal; lia.
  - cbn [fold_left]. rewrite IH. unfold count_status, known_status. cbn [List.filter].
    repeat case_bool_decide; subst; try discriminate;
      cbn [negb orb length pending in_progress completed failed]; f_equal; lia.
Qed.

(** X12. The summary counts every step that has a status exactly once: the
    counts of [in_progress], [completed] and [failed] are the numbers of
    the steps with these statuses, every other status (the unknown ones
    included) is counted as [pending], and the four counts add up to the
    number of the steps that have a status. *)
Theorem summary_counts_every_status_once :
  forall (st : TripPlanningState),
    pending (status_counts st) = count_where (fun s => negb (known_status s)) st
    /\ in_progress (status_counts st)
       = count_where (fun s => bool_decide (s = "in_progress")) st
    /\ completed (status_counts st)
       = count_where (fun s => bool_decide (s = "completed")) st
    /\ failed (status_counts st) = count_where (fun s => bool_decide (s = "failed")) st
    /\ pending (status_counts st) + in_progress (status_counts st)
       + completed (status_counts st) + failed (status_counts st)
       = Z.of_nat (size (State.get (node_status st) ∅)).
Proof.
  intros st. unfold status_counts, count_where. rewrite fold_count_status.
  cbn [pending in_progress completed failed].
  repeat split; try lia.
  rewrite <- length_map_to_list, <- (length_map snd (map_to_list _)).
  generalize (map snd (map_to_list (State.get (node_status st) ∅))). intros l.
  induction l as [|s l IH]; [reflexivity|].
  cbn [List.filter length]. unfold known_status in *.
  repeat case_bool_decide; subst; try discriminate; cbn [negb orb length]; lia.
Qed.

Example summary_after_weather_failure :
  get_state_summary weather_failed_state
  = "Nodes - pending: 0, in_progress: 0, completed: 2, failed: 1; Critical errors: Yes".
Proof. vm_compute. reflexivity. Qed.

(** ** The nodes: a missing request, the other statuses, silent failures *)

Lemma gate_unchanged st u name nodes :
  (forall m, m <> name ->
     State.get (State.node_status u) ∅ !! m = State.get (State.node_status st) ∅ !! m) ->
  ~ In name nodes ->
  is_all_parallel_nodes_completed u nodes = is_all_parallel_nodes_completed st nodes.
Proof.
  intros Hother Hnot. unfold is_all_parallel_nodes_completed.
  induction nodes as [|n nodes IH]; [reflexivity|].
  cbn [forallb]. rewrite Hother.
  - f_equal. apply IH. intros Hin. apply Hnot. right. exact Hin.
  - intros ->. apply Hnot. left. reflexivity.
Qed.

Lemma contract_keeps_other_statuses node try_block name result :
  step_contract node try_block name result -> keeps_other_statuses node name.
Proof.
  intros Hcontract st req w w' u Hreq Hrun.
  destruct (Hcontract st req w Hreq) as (u0 & w0 & Hrun0 & _ & Hcase).
  rewrite Hrun in Hrun0. injection Hrun0 as <- <-.
  assert (Hstatus : exists s, (s = "completed" \/ s = "failed")
            /\ State.node_status u = Some (with_entry (State.node_status st) name s)).
  { destruct (try_block st req _ _) as [[u1|e] w1].
    - destruct Hcase as [_ Hs]. eauto.
    - destruct Hcase as (Hs & _). eauto. }
  destruct Hstatus as (s & Hs & Hu).
  assert (Hother : forall m, m <> name ->
            State.get (State.node_status u) ∅ !! m = State.get (State.node_status st) ∅ !! m).
  { intros m Hm. rewrite Hu. cbn. unfold with_entry.
    rewrite lookup_insert_ne by congruence. reflexivity. }
  split; [|split].
  - exists s. split; [exact Hs|]. rewrite Hu. cbn. unfold with_entry.
    apply lookup_insert_eq.
  - exact Hother.
  - intros nodes Hnot.
    change (is_all_parallel_nodes_completed u (name :: nodes))
      with (bool_decide (State.get (State.node_status u) ∅ !! name = Some "completed")
            && is_all_parallel_nodes_completed u nodes).
    f_equal. apply (gate_unchanged st u name nodes Hother Hnot).
Qed.

Lemma contract_flags_failures node try_block name result :
  step_contract node try_block name result -> flags_failures node try_block name.
Proof.
  intros Hcontract st req w w0 e Hreq Hnone Htry.
  destruct (Hcontract st req w Hreq) as (u & w' & Hrun & _ & Hcase).
  change (set_clock_reads (S (clock_reads w)) w) with (tick w) in Hcase.
  rewrite Htry in Hcase. destruct Hcase as (Hstatus & _ & Herrors).
  exists u, w'. split; [exact Hrun|]. split.
  - rewrite Hstatus. cbn. unfold with_entry. apply lookup_insert_eq.
  - destruct (bool_decide (exn_str e = "")) eqn:Hempty; cbn [negb].
    + apply bool_decide_eq_true in Hempty.
      destruct (has_critical_errors u) eqn:Hu; [|reflexivity]. exfalso.
      apply critical_errors_iff in Hu. destruct Hu as (n & e' & Hn & He').
      rewrite Herrors in Hn. cbn in Hn. unfold with_entry in Hn.
      destruct (decide (n = name)) as [->|Hne].
      * rewrite lookup_insert_eq in Hn. congruence.
      * rewrite lookup_insert_ne in Hn by congruence.
        assert (has_critical_errors st = true); [|congruence].
        apply critical_errors_iff. eauto.
    + apply bool_decide_eq_false in Hempty.
      apply critical_errors_iff. exists name, (exn_str e).
      split; [|exact Hempty]. rewrite Herrors. cbn. unfold with_entry.
      apply lookup_insert_eq.
Qed.

Section NodeExtras.

Context `{Externals}.
Variable cache : CacheAPI.
Variable PLANNER_SYSTEM_PROMPT : string.

(** X13. On a state without a request, each of the four nodes raises
    [KeyError('request')]: the request is read before the [try], so the
    handler of the node does not see the exception; only the clock was
    read. *)
Theorem nodes_raise_without_a_request :
  forall (st : TripPlanningState) (w : World (list pyobj)),
    State.request st = None ->
    attraction_node cache st w = (Raise (KeyError "'request'"), tick w)
    /\ weather_node cache st w = (Raise (KeyError "'request'"), tick w)
    /\ hotel_node cache st w = (Raise (KeyError "'request'"), tick w)
    /\ planner_node PLANNER_SYSTEM_PROMPT st w = (Raise (KeyError "'request'"), tick w).
Proof.
  intros st w Hreq.
  unfold attraction_node, weather_node, hotel_node, planner_node.
  unfold_monad. rewrite Hreq. repeat split.
Qed.

(** X14. The update of a data-gathering node carries the statuses of all
    the steps: its own, [completed] or [failed], and those of the other
    steps as the node found them. So the gate, asked on the update about
    the node and other steps, reports readiness exactly when the node
    completed and the gate reported readiness for the other steps
    before. *)
Theorem steps_keep_the_other_statuses :
  keeps_other_statuses (attraction_node cache) "search_attractions"
  /\ keeps_other_statuses (weather_node cache) "query_weather"
  /\ keeps_other_statuses (hotel_node cache) "search_hotels".
Proof.
  split; [|split].
  - exact (contract_keeps_other_statuses _ _ _ _ (attraction_node_contract cache)).
  - exact (contract_keeps_other_statuses _ _ _ _ (weather_node_contract cache)).
  - exact (contract_keeps_other_statuses _ _ _ _ (hotel_node_contract cache)).
Qed.

(** X15. When the [try] block of a data-gathering node raises, the node
    reports the status [failed], and [has_critical_errors] holds on its
    update exactly when the text of the exception is not empty: a step that
    failed with an exception without text is not flagged as a critical
    error. *)
Theorem failures_without_text_are_not_flagged :
  flags_failures (attraction_node cache) (attraction_try cache) "search_attractions"
  /\ flags_failures (weather_node cache) (weather_try cache) "query_weather"
  /\ flags_failures (hotel_node cache) (hotel_try cache) "search_hotels".
Proof.
  split; [|split].
  - exact (contract_flags_failures _ _ _ _ (attraction_node_contract cache)).
  - exact (contract_flags_failures _ _ _ _ (weather_node_contract cache)).
  - exact (contract_flags_failures _ _ _ _ (hotel_node_contract cache)).
Qed.

End NodeExtras.

Lemma nodes_raise_without_a_request_witness :
  weather_node cache_service_api State.empty demo_world
  = (Raise (KeyError "'request'"), tick demo_world).
Proof.
  apply (nodes_raise_without_a_request cache_service_api "system prompt"
           State.empty demo_world eq_refl).
Defined.

(** The weather node fails on the state in which the attractions step
    completed: its update still says so. *)
Lemma steps_keep_the_other_statuses_witness :
  exists u w',
    weather_node cache_service_api weather_failed_state demo_world = (Ok u, w')
    /\ State.get (State.node_status u) ∅ !! "search_attractions" = Some "completed".
Proof.
  destruct (weather_node cache_service_api weather_failed_state demo_world)
    as [[u|e] w'] eqn:Hrun; [|vm_compute in Hrun; discriminate].
  exists u, w'. split; [reflexivity|].
  destruct (proj1 (proj2 (steps_keep_the_other_statuses cache_service_api))
              weather_failed_state beijing_request demo_world w' u eq_refl Hrun)
    as (_ & Hother & _).
  rewrite Hother by discriminate. reflexivity.
Defined.

Lemma failures_without_text_are_not_flagged_witness :
  exists u w',
    weather_node cache_service_api beijing_state demo_world_silent = (Ok u, w')
    /\ State.get (State.node_status u) ∅ !! "query_weather" = Some "failed"
    /\ has_critical_errors u = false.
Proof.
  exact (proj1 (proj2 (failures_without_text_are_not_flagged cache_service_api))
           beijing_state beijing_request demo_world_silent _ _ eq_refl eq_refl eq_refl).
Defined.

(** ** The nodes and the tools *)

Section StepExtras.

Context `{Externals} `{Pickle (list pyobj)}.

Local Abbreviation cache := cache_service_api.

(** A node that finds nothing to serve in a cache that works in memory
    asks the provider. *)
Lemma gather_miss sp st req (w : World (list pyobj)) :
  State.request st = Some req ->
  keeps_in_memory w ->
  nothing_to_serve w (step_key sp req) ->
  exists u w',
    gather cache sp st w = (Ok u, w')
    /\ trace w' = (trace w ++ [EvTool (step_call sp req)])%list
    /\ match fetch sp req (set_cache_service (Some (service_of w)) (tick w)) with
       | (Ok found, _) => exists ms, u = completed_update sp st found ms
       | (Raise e, _) => exists ms, u = failed_update sp st e ms
       end.
Proof.
  intros Hreq Hkeeps Hnothing.
  rewrite (gather_run _ _ _ _ _ Hreq).
  rewrite gather_try_in_memory by exact Hkeeps. cbv zeta.
  change (service_of (tick w)) with (service_of w).
  set (w0 := set_cache_service (Some (service_of w)) (tick w)).
  assert (Hmiss : forall A (hit : list pyobj -> A) (miss : A),
            match value <$> memory_cache (service_of w) !! step_key sp req with
            | Some ((_ :: _) as cached) => hit cached
            | _ => miss
            end = miss).
  { intros A hit miss. destruct Hnothing as [-> | ->]; reflexivity. }
  rewrite Hmiss.
  destruct (fetch sp req w0) as [[found|e] w1] eqn:Hfetch; apply fetch_world in Hfetch.
  - destruct (pickle_dumps found); do 2 eexists;
      (split; [reflexivity|]); (split; [subst w1; reflexivity | eexists; reflexivity]).
  - do 2 eexists. split; [reflexivity|]. split; [subst w1; reflexivity | eexists; reflexivity].
Qed.

Lemma gather_refetches_empty sp :
  refetches_empty (gather cache sp) (step_key sp) (step_call sp).
Proof.
  intros st req w Hreq Hkeeps Hempty.
  destruct (gather_miss sp st req w Hreq Hkeeps (or_intror Hempty))
    as (u & w' & Hrun & Htrace & _).
  eauto.
Qed.

(** X16. A data-gathering node tests what the cache returned for truth
    ([if cached:]). On a cache that keeps its entries in memory, when the
    key of the node holds an empty list (what the node itself wrote after
    the provider found nothing), the node takes it for a miss, returns,
    and has asked the provider: one more call is in the trace. *)
Theorem empty_cached_list_is_a_miss :
  refetches_empty (attraction_node cache)
    (step_key attraction_step) (step_call attraction_step)
  /\ refetches_empty (weather_node cache) (step_key weather_step) (step_call weather_step)
  /\ refetches_empty (hotel_node cache) (step_key hotel_step) (step_call hotel_step).
Proof.
  split; [|split]; intros st req w Hreq Hkeeps Hempty.
  - rewrite attraction_node_gather. apply gather_refetches_empty; assumption.
  - rewrite weather_node_gather. apply gather_refetches_empty; assumption.
  - rewrite hotel_node_gather. apply gather_refetches_empty; assumption.
Qed.

Lemma mapM_map {A B C} (f : B -> result C) (g : A -> B) (h : A -> C) (xs : list A) :
  (forall x, f (g x) = Ok (h x)) -> Py.mapM f (map g xs) = Ok (map h xs).
Proof.
  intros Hfg. induction xs as [|x xs IH]; [reflexivity|].
  cbn [map Py.mapM]. rewrite Hfg, IH. reflexivity.
Qed.

Lemma weather_of_day_dict (day : WeatherInfo.t) :
  validation_accepts -> weather_of_day (Tools.weather_dict day) = Ok (PWeather day).
Proof.
  intros (Hstr & Hint & _ & _). unfold weather_of_day, Tools.weather_dict.
  cbn. rewrite !Hstr, !Hint. cbn. destruct day. reflexivity.
Qed.

Lemma attraction_of_poi_dict (poi : POIInfo.t) :
  validation_accepts -> attraction_of_poi (Tools.poi_dict poi) = Ok (attraction_of poi).
Proof.
  intros (Hstr & _ & Hfloat & Hrepr). unfold attraction_of_poi, Tools.poi_dict, parse_location.
  cbn. rewrite !Hfloat, !Hstr, !Hrepr. cbn.
  unfold attraction_of. destruct (POIInfo.location poi). reflexivity.
Qed.

Lemma hotel_of_json_dict (poi : POIInfo.t) :
  validation_accepts -> hotel_of_json (Tools.poi_dict poi) = Ok (hotel_of poi).
Proof.
  intros (Hstr & _ & Hfloat & _). unfold hotel_of_json, Tools.poi_dict, parse_location.
  cbn. rewrite !Hfloat, !Hstr. cbn.
  unfold hotel_of. destruct (POIInfo.location poi). reflexivity.
Qed.

Lemma fetch_decoded (sp : Step) (req : TripRequest.t) (w : World (list pyobj))
    (answer : string) (result items : json) (entries : list json) (found : list pyobj) :
  tool_answer w (length (trace w)) (step_call sp req) = Ok answer ->
  json_loads answer = Ok result ->
  Json.get result (step_member sp) (JArr []) = Ok items ->
  Json.iter items = Ok entries ->
  Py.mapM (step_convert sp) entries = Ok found ->
  fetched sp req w found.
Proof.
  intros Hanswer Hloads Hget Hiter Hmap. unfold fetched, fetch, tool_ainvoke.
  unfold_monad. rewrite Hanswer, Hloads, Hget, Hiter, Hmap. reflexivity.
Qed.

Lemma gather_returns_fetched sp st req (w : World (list pyobj)) found :
  coherent sp ->
  State.request st = Some req ->
  keeps_in_memory w ->
  nothing_to_serve w (step_key sp req) ->
  fetched sp req (set_cache_service (Some (service_of w)) (tick w)) found ->
  exists u w',
    gather cache sp st w = (Ok u, w')
    /\ step_result sp u = Some found
    /\ State.get (State.node_status u) ∅ !! step_name sp = Some "completed"
    /\ trace w' = (trace w ++ [EvTool (step_call sp req)])%list.
Proof.
  intros Hsp Hreq Hkeeps Hnothing Hfetched.
  destruct (gather_miss sp st req w Hreq Hkeeps Hnothing) as (u & w' & Hrun & Htrace & Hu).
  unfold fetched in Hfetched. rewrite Hfetched in Hu. destruct Hu as [ms ->].
  exists (completed_update sp st found ms), w'. split; [exact Hrun|].
  destruct (Hsp st found ms) as (Hres & Hstatus & _).
  split; [exact Hres|]. split; [|exact Htrace].
  rewrite Hstatus. cbn. unfold with_entry. apply lookup_insert_eq.
Qed.

(** X17. The forecast survives the way from the map service to the state.
    When the answer of the weather tool decodes to the dict the tool builds
    from the forecast of the service, the weather node (on a miss of a
    cache that works in memory, with models that accept values of the type
    of their fields) completes, and the weather of its update is that
    forecast, entry by entry and field by field. *)
Theorem forecast_survives_the_tool :
  forall (st : TripPlanningState) (req : TripRequest.t) (w : World (list pyobj))
         (answer : string) (weather_list : list WeatherInfo.t),
    validation_accepts ->
    State.request st = Some req ->
    keeps_in_memory w ->
    nothing_to_serve w (step_key weather_step req) ->
    tool_answer w (length (trace w)) (query_weather (TripRequest.city req)) = Ok answer ->
    json_loads answer
      = Ok (Tools.query_weather_result (TripRequest.city req) weather_list) ->
    exists u w',
      weather_node cache st w = (Ok u, w')
      /\ State.weather u = Some (map PWeather weather_list)
      /\ State.get (State.node_status u) ∅ !! "query_weather" = Some "completed".
Proof.
  intros st req w answer weather_list Hvalid Hreq Hkeeps Hnothing Hanswer Hloads.
  destruct (gather_returns_fetched weather_step st req w (map PWeather weather_list))
    as (u & w' & Hrun & Hres & Hstatus & _); try assumption.
  - exact (proj1 (proj2 steps_coherent)).
  - eapply fetch_decoded; [exact Hanswer | exact Hloads | reflexivity | reflexivity |].
    apply mapM_map. intros day. apply weather_of_day_dict, Hvalid.
  - exists u, w'. rewrite weather_node_gather. auto.
Qed.

(** X18. Of the places the map service found, the attractions node gets
    the first ten, whatever [total] says, so the limit of 15 attractions of
    the planner's input is never reached from a fresh search. Each
    attraction has the name, the address and the location of the place, a
    visit of 120 minutes, the type of the place as its category and, with
    the address, as its description, and the empty text as its identifier:
    the tool does not hand the identifier of the place on. *)
Theorem attractions_are_the_first_ten_places :
  forall (st : TripPlanningState) (req : TripRequest.t) (w : World (list pyobj))
         (answer : string) (pois : list POIInfo.t),
    validation_accepts ->
    State.request st = Some req ->
    keeps_in_memory w ->
    nothing_to_serve w (step_key attraction_step req) ->
    tool_answer w (length (trace w)) (step_call attraction_step req) = Ok answer ->
    json_loads answer = Ok (Tools.search_poi_result pois) ->
    exists u w',
      attraction_node cache st w = (Ok u, w')
      /\ State.attractions u = Some (map attraction_of (firstn 10 pois))
      /\ (length (State.get (State.attractions u) []) <= 10)%nat
      /\ State.get (State.node_status u) ∅ !! "search_attractions" = Some "completed".
Proof.
  intros st req w answer pois Hvalid Hreq Hkeeps Hnothing Hanswer Hloads.
  destruct (gather_returns_fetched attraction_step st req w
              (map attraction_of (firstn 10 pois)))
    as (u & w' & Hrun & Hres & Hstatus & _); try assumption.
  - exact (proj1 steps_coherent).
  - eapply fetch_decoded; [exact Hanswer | exact Hloads | reflexivity | reflexivity |].
    apply mapM_map. intros poi. apply attraction_of_poi_dict, Hvalid.
  - exists u, w'. rewrite attraction_node_gather. cbn in Hres.
    split; [exact Hrun|]. split; [exact Hres|]. split; [|exact Hstatus].
    rewrite Hres. cbn [State.get]. rewrite length_map, length_firstn. lia.
Qed.

(** X19. The lodging node gets, of the places the map service found, the
    first ten among those whose type names a hotel (it contains one of the
    four keywords of the tool), in the order of the service; the others
    are dropped by the tool. *)
Theorem hotels_are_the_first_ten_lodgings :
  forall (st : TripPlanningState) (req : TripRequest.t) (w : World (list pyobj))
         (answer : string) (pois : list POIInfo.t),
    validation_accepts ->
    State.request st = Some req ->
    keeps_in_memory w ->
    nothing_to_serve w (step_key hotel_step req) ->
    tool_answer w (length (trace w)) (step_call hotel_step req) = Ok answer ->
    json_loads answer = Ok (Tools.search_hotels_result pois) ->
    exists u w',
      hotel_node cache st w = (Ok u, w')
      /\ State.hotels u = Some (map hotel_of (firstn 10 (List.filter Tools.is_hotel pois)))
      /\ Forall (fun poi => exists keyword,
                   In keyword ["酒店"; "宾馆"; "住宿"; "旅馆"]
                   /\ Str.contains keyword (POIInfo.type poi) = true)
           (firstn 10 (List.filter Tools.is_hotel pois)).
Proof.
  intros st req w answer pois Hvalid Hreq Hkeeps Hnothing Hanswer Hloads.
  destruct (gather_returns_fetched hotel_step st req w
              (map hotel_of (firstn 10 (List.filter Tools.is_hotel pois))))
    as (u & w' & Hrun & Hres & Hstatus & _); try assumption.
  - exact (proj2 (proj2 steps_coherent)).
  - eapply fetch_decoded; [exact Hanswer | exact Hloads | reflexivity | reflexivity |].
    change (slice_to 10 (map Tools.poi_dict (List.filter Tools.is_hotel pois)))
      with (firstn 10 (map Tools.poi_dict (List.filter Tools.is_hotel pois))).
    rewrite firstn_map.
    apply mapM_map. intros poi. apply hotel_of_json_dict, Hvalid.
  - exists u, w'. rewrite hotel_node_gather.
    split; [exact Hrun|]. split; [exact Hres|].
    apply Forall_forall. intros poi Hin.
    apply elem_of_take in Hin. destruct Hin as (i & Hin & _).
    apply list_elem_of_lookup_2, list_elem_of_In, filter_In in Hin.
    destruct Hin as [_ Hhotel].
    unfold Tools.is_hotel in Hhotel. apply existsb_exists in Hhotel.
    destruct Hhotel as (keyword & Hk & Hc). exists keyword. split; assumption.
Qed.

End StepExtras.

(** The second call of the attractions node after a first one that found
    nothing: the empty list is in the cache, and the provider is asked
    again. *)
Lemma empty_cached_list_is_a_miss_witness :
  (value <$> memory_cache (service_of demo_world_nothing_found)
               !! "attractions:Beijing:history") = Some []
  /\ exists u w',
       attraction_node cache_service_api beijing_state demo_world_nothing_found
         = (Ok u, w')
       /\ trace w' = [EvTool (search_poi "history" "Beijing" true);
                      EvTool (search_poi "history" "Beijing" true)].
Proof.
  split; [reflexivity|].
  apply (proj1 empty_cached_list_is_a_miss beijing_state beijing_request
           demo_world_nothing_found eq_refl).
  - repeat split. right. reflexivity.
  - reflexivity.
Defined.

Lemma tools_validation : validation_accepts (H:=tools_externals).
Proof. repeat split. Qed.

Lemma tools_world_keeps_in_memory : keeps_in_memory tools_world.
Proof. repeat split. right. reflexivity. Qed.

Lemma forecast_survives_the_tool_witness :
  exists u w',
    weather_node (H:=tools_externals) cache_service_api beijing_state tools_world
      = (Ok u, w')
    /\ State.weather u = Some [PWeather forecast_sunday; PWeather forecast_monday].
Proof.
  destruct (forecast_survives_the_tool (H:=tools_externals) (H0:=demo_pickle)
              beijing_state beijing_request tools_world "weather.json"
              [forecast_sunday; forecast_monday]
              tools_validation eq_refl tools_world_keeps_in_memory
              (or_introl eq_refl) eq_refl eq_refl)
    as (u & w' & Hrun & Hweather & _).
  exists u, w'. split; [exact Hrun | exact Hweather].
Defined.

Lemma attractions_are_the_first_ten_places_witness :
  exists u w',
    attraction_node (H:=tools_externals) cache_service_api beijing_state tools_world
      = (Ok u, w')
    /\ State.attractions u = Some [attraction_of palace_hotel; attraction_of tea_house].
Proof.
  destruct (attractions_are_the_first_ten_places (H:=tools_externals) (H0:=demo_pickle)
              beijing_state beijing_request tools_world "pois.json"
              [palace_hotel; tea_house]
              tools_validation eq_refl tools_world_keeps_in_memory
              (or_introl eq_refl) eq_refl eq_refl)
    as (u & w' & Hrun & Hfound & _).
  exists u, w'. split; [exact Hrun | exact Hfound].
Defined.

(** Of a hotel and a tea house, the lodging node gets the hotel. *)
Lemma hotels_are_the_first_ten_lodgings_witness :
  exists u w',
    hotel_node (H:=tools_externals) cache_service_api beijing_state tools_world
      = (Ok u, w')
    /\ State.hotels u = Some [hotel_of palace_hotel].
Proof.
  destruct (hotels_are_the_first_ten_lodgings (H:=tools_externals) (H0:=demo_pickle)
              beijing_state beijing_request tools_world "hotels.json"
              [palace_hotel; tea_house]
              tools_validation eq_refl tools_world_keeps_in_memory
              (or_introl eq_refl) eq_refl eq_refl)
    as (u & w' & Hrun & Hfound & _).
  exists u, w'. split; [exact Hrun | exact Hfound].
Defined.

(** ** The planner: its input, the parser, the fallback itinerary *)




(** *** Stripping and splitting *)















Example unclosed_block :
  extract_json ("```json" +:+ newline +:+ "{}" +:+ newline) = Ok "{}".
Proof. reflexivity. Qed.

Section ParserExtras.

Context `{Externals}.

Ltac bind_inv :=
  repeat match goal with
         | |- mbind _ ?r = _ -> _ =>
             destruct r; cbn [mbind result_bind mret result_ret]; [|discriminate]
         end.

(** X22. Whatever the engine answers, an itinerary the parser returns has
    the start date and the end date of the request, no weather and no
    execution time: the answer cannot change the dates, and the forecast
    gathered by the weather step is not put into the itinerary. *)
Theorem parsed_plan_keeps_the_request_dates :
  forall (content : string) (req : TripRequest.t) (plan : TripPlan.t),
    parse_planner_response content req = Ok plan ->
    TripPlan.start_date plan = TripRequest.start_date req
    /\ TripPlan.end_date plan = TripRequest.end_date req
    /\ TripPlan.weather_info plan = []
    /\ TripPlan.execution_time_ms plan = None.
Proof.
  intros content req plan. unfold parse_planner_response, plan_of_json.
  bind_inv. intros [= <-]. repeat split.
Qed.

(** X23. An answer that decodes to the empty JSON object is accepted: the
    itinerary has the city and the dates of the request, no day plan, the
    empty text as its suggestions and a budget of zeros (the models
    accepting the defaults). *)
Theorem empty_answer_gives_the_defaults :
  forall (content json_str : string) (req : TripRequest.t),
    extract_json content = Ok json_str ->
    json_loads json_str = Ok (JObj []) ->
    validate_int (JInt 0) = Ok 0 ->
    validate_str (JStr (TripRequest.city req)) = Ok (TripRequest.city req) ->
    validate_str (JStr "") = Ok "" ->
    parse_planner_response content req
    = Ok {| TripPlan.city := TripRequest.city req;
            TripPlan.start_date := TripRequest.start_date req;
            TripPlan.end_date := TripRequest.end_date req;
            TripPlan.days := [];
            TripPlan.weather_info := [];
            TripPlan.overall_suggestions := "";
            TripPlan.budget := Budget.mk 0 0 0 0 0;
            TripPlan.execution_time_ms := None |}.
Proof.
  intros content json_str req Hextract Hloads Hint Hcity Hempty.
  unfold parse_planner_response, plan_of_json.
  rewrite Hextract. cbn [mbind result_bind]. rewrite Hloads. cbn.
  rewrite Hint. cbn. rewrite Hcity. cbn. rewrite Hempty. reflexivity.
Qed.

(** X24. What the answer leaves out of a day, an attraction or a meal is
    filled in: a day without [transportation] or [accommodation] gets those
    of the request, an attraction without [visit_duration] gets 120
    minutes, a meal without [type] is a lunch; and the location of an
    attraction is (0, 0) whatever the answer says. *)
Theorem missing_members_get_defaults :
  forall (req : TripRequest.t) (members : list (string * json)),
    validation_accepts ->
    (forall day, parse_day req (JObj members) = Ok day ->
       (Json.assoc "transportation" members = None ->
        DayPlan.transportation day = TripRequest.transportation req)
       /\ (Json.assoc "accommodation" members = None ->
           DayPlan.accommodation day = TripRequest.accommodation req))
    /\ (forall attraction, _parse_attraction (JObj members) = Ok attraction ->
          Attraction.location attraction = Location.mk 0 0
          /\ (Json.assoc "visit_duration" members = None ->
              Attraction.visit_duration attraction = 120))
    /\ (forall meal, _parse_meal (JObj members) = Ok meal ->
          Json.assoc "type" members = None -> Meal.type meal = "lunch").
Proof.
  intros req members (Hstr & Hint & _ & _). split; [|split].
  - intros day. unfold parse_day. cbn [Json.get mbind result_bind].
    destruct (Json.assoc "transportation" members) as [t|] eqn:Ht;
      destruct (Json.assoc "accommodation" members) as [a|] eqn:Ha;
      rewrite ?Hstr; cbn [mbind result_bind]; bind_inv; intros [= <-]; cbn;
      split; intros; congruence.
  - intros attraction. unfold _parse_attraction. cbn [Json.get mbind result_bind].
    destruct (Json.assoc "visit_duration" members) as [v|] eqn:Hv;
      rewrite ?Hint; cbn [mbind result_bind]; bind_inv; intros [= <-]; cbn;
      split; intros; congruence.
  - intros meal. unfold _parse_meal. cbn [Json.get mbind result_bind].
    destruct (Json.assoc "type" members) as [t|] eqn:Ht;
      rewrite ?Hstr; cbn [mbind result_bind]; bind_inv; intros [= <-]; cbn;
      intros; congruence.
Qed.

(** X25. The parser raises on an answer of the wrong shape: the exception
    of the decoder when the text is no JSON; [AttributeError] (no
    attribute [get]) when the text decodes to a list, a text, a number,
    a boolean or [null]; [TypeError] (not iterable) when [days] is a
    number, a boolean or [null]. *)
Theorem parser_raises_on_a_wrong_shape :
  forall (content json_str : string) (req : TripRequest.t),
    extract_json content = Ok json_str ->
    (forall e, json_loads json_str = Raise e ->
               parse_planner_response content req = Raise e)
    /\ (forall data, json_loads json_str = Ok data ->
          (forall members, data <> JObj members) ->
          parse_planner_response content req
          = Raise (no_attribute (Json.type_name data) "get"))
    /\ (forall members days, json_loads json_str = Ok (JObj members) ->
          Json.assoc "days" members = Some days ->
          Py.is_ok (Json.iter days) = false ->
          parse_planner_response content req
          = Raise (TypeError ("'" +:+ Json.type_name days +:+ "' object is not iterable"))).
Proof.
  intros content json_str req Hextract.
  unfold parse_planner_response, plan_of_json. rewrite Hextract. cbn [mbind result_bind].
  split; [|split].
  - intros e ->. reflexivity.
  - intros data -> Hshape. cbn [mbind result_bind].
    destruct data; try reflexivity. exfalso. eapply Hshape. reflexivity.
  - intros members days -> Hdays Hiter. cbn [mbind result_bind Json.get].
    rewrite Hdays. cbn [mbind result_bind].
    destruct days; try discriminate; reflexivity.
Qed.

End ParserExtras.

Lemma parsed_plan_keeps_the_request_dates_witness :
  exists plan,
    parse_planner_response answer_json_block beijing_request = Ok plan
    /\ TripPlan.start_date plan = "2025-06-01"
    /\ TripPlan.end_date plan = "2025-06-03".
Proof.
  assert (Hdates : forall plan,
             parse_planner_response answer_json_block beijing_request = Ok plan ->
             TripPlan.start_date plan = "2025-06-01"
             /\ TripPlan.end_date plan = "2025-06-03").
  { intros plan Hplan.
    destruct (parsed_plan_keeps_the_request_dates answer_json_block beijing_request
                plan Hplan) as (Hstart & Hend & _).
    split; assumption. }
  eexists. split; [vm_compute; reflexivity|].
  apply Hdates. vm_compute. reflexivity.
Defined.

Lemma empty_answer_gives_the_defaults_witness :
  exists plan,
    parse_planner_response answer_json_block beijing_request = Ok plan
    /\ TripPlan.city plan = "Beijing"
    /\ TripPlan.days plan = []
    /\ TripPlan.budget plan = Budget.mk 0 0 0 0 0.
Proof.
  eexists. split.
  - apply (empty_answer_gives_the_defaults answer_json_block "{}" beijing_request);
      reflexivity.
  - repeat split.
Defined.

Lemma demo_validation : validation_accepts (H:=demo_externals).
Proof. repeat split. Qed.

Lemma missing_members_get_defaults_witness :
  exists day,
    parse_day beijing_request (JObj [("date", JStr "2025-06-01")]) = Ok day
    /\ DayPlan.transportation day = "public_transit".
Proof.
  assert (Hdefault : forall day,
             parse_day beijing_request (JObj [("date", JStr "2025-06-01")]) = Ok day ->
             DayPlan.transportation day = "public_transit").
  { intros day Hday.
    apply (proj1 (proj1 (missing_members_get_defaults beijing_request
                           [("date", JStr "2025-06-01")] demo_validation)
                    day Hday)).
    reflexivity. }
  eexists. split; [vm_compute; reflexivity|].
  apply Hdefault. vm_compute. reflexivity.
Defined.

Lemma parser_raises_on_a_wrong_shape_witness :
  parse_planner_response "[]" beijing_request
  = Raise (AttributeError "'list' object has no attribute 'get'").
Proof.
  apply (proj1 (proj2 (parser_raises_on_a_wrong_shape "[]" "[]" beijing_request eq_refl))
           (JArr [])).
  - reflexivity.
  - discriminate.
Defined.

(** *** The fallback itinerary *)








(** ** The route *)

Section RouteExtras.

Variable graph_ainvoke :
  TripPlanningState -> string -> M (list pyobj) TripPlanningState.

(** X28. The route returns no itinerary, whatever the request, the graph
    and the world: its outcome is an [HTTPException], with status 400 and
    the validation message for a day count outside 1 to 30, and with status
    500 and the message for unexpected errors for every day count within
    1 to 30 (the planning service raises, before it invokes the graph, the
    [TypeError] of its call of [create_initial_state]); no provider and no
    engine is called. *)
Theorem route_never_returns_a_plan :
  forall (req : TripRequest.t) (user : option string) (w : World (list pyobj)),
  exists (status : Z) (detail : string) (w' : World (list pyobj)),
    trip_v2.plan_trip graph_ainvoke req user w
    = (Ok (trip_v2.HTTPException status detail), w')
    /\ trace w' = trace w
    /\ (1 <= TripRequest.travel_days req <= 30 ->
        status = 500 /\ detail = "服务器内部错误，请稍后重试")
    /\ (TripRequest.travel_days req < 1 \/ 30 < TripRequest.travel_days req ->
        status = 400 /\ detail = "旅行天数必须在1-30天之间").
Proof.
  intros req user w.
  destruct (Z_lt_le_dec (TripRequest.travel_days req) 1) as [Hlow|Hlow];
    [|destruct (Z_lt_le_dec 30 (TripRequest.travel_days req)) as [Hhigh|Hhigh]].
  - do 3 eexists. split; [apply route_plan_trip_rejects; lia|].
    split; [reflexivity|]. split; [lia | intros _; split; reflexivity].
  - do 3 eexists. split; [apply route_plan_trip_rejects; lia|].
    split; [reflexivity|]. split; [lia | intros _; split; reflexivity].
  - do 3 eexists. split; [rewrite route_plan_trip_proceeds by lia; reflexivity|].
    split; [reflexivity|]. split; [intros _; split; reflexivity | lia].
Qed.

End RouteExtras.

Lemma route_never_returns_a_plan_witness :
  exists w',
    trip_v2.plan_trip idle_graph beijing_request (Some "user-1") demo_world
    = (Ok (trip_v2.HTTPException 500 "服务器内部错误，请稍后重试"), w').
Proof.
  destruct (route_never_returns_a_plan idle_graph beijing_request (Some "user-1") demo_world)
    as (status & detail & w' & Hrun & _ & Hvalid & _).
  destruct Hvalid as [-> ->]; [simpl; lia|].
  exists w'. exact Hrun.
Defined.

(** ** The error codes and the origins *)

(** X29. The table of the error codes agrees with the classes: every entry
    maps the code of a class to that class and to its status code, and
    looking up the code of a class gives the class back, for every class
    but [FallbackActivatedError], which the table leaves out: its code, as
    every unknown code, gives the base class. *)
Theorem error_codes_name_their_classes :
  forall (c : Exceptions.cls),
    (c <> Exceptions.FallbackActivatedError ->
     Exceptions.get_exception_class (Exceptions.error_code c) = c
     /\ In (Exceptions.error_code c, (c, Exceptions.status_code c)) Exceptions.ERROR_CODE_MAP)
    /\ (Exceptions.get_exception_class (Exceptions.error_code Exceptions.FallbackActivatedError)
        = Exceptions.TripPlannerException)
    /\ (forall code cls status,
          In (code, (cls, status)) Exceptions.ERROR_CODE_MAP ->
          code = Exceptions.error_code cls /\ status = Exceptions.status_code cls).
Proof.
  intros c. split; [|split].
  - intros Hc. destruct c; try contradiction; split; try reflexivity; cbn; tauto.
  - reflexivity.
  - intros code cls status Hin. cbn in Hin.
    repeat (destruct Hin as [[= <- <- <-]|Hin]; [split; reflexivity|]). contradiction.
Qed.

Lemma error_codes_name_their_classes_witness :
  Exceptions.get_exception_class "VALIDATION_ERROR" = Exceptions.ValidationError.
Proof.
  apply (proj1 (error_codes_name_their_classes Exceptions.ValidationError)). discriminate.
Defined.

Example unknown_code :
  Exceptions.get_exception_class "NO_SUCH_CODE" = Exceptions.TripPlannerException.
Proof. reflexivity. Qed.


Example default_origins :
  get_cors_origins_list default_cors_origins
  = ["http://localhost:5173"; "http://localhost:3000";
     "http://127.0.0.1:5173"; "http://127.0.0.1:3000"].
Proof. vm_compute. reflexivity. Qed.

Example origins_with_blanks :
  get_cors_origins_list " http://a.example , ,http://b.example,"
  = ["http://a.example"; "http://b.example"].
Proof. vm_compute. reflexivity. Qed.
